(** * InfoBridgeAI: the appointment booking engine

    A shallow embedding of the booking core of [app101.py] (the program
    [server.py] serves) and of the earlier [infobridge.py]: the circuit
    breaker, the calendar manager (availability check, alternative slots,
    event creation), the session store, the slot extractor and the booking
    completion, followed by the properties proved about them.

    Conventions.
    - Text is ASCII; Python [str] methods are modelled on ASCII characters.
    - An instant is a number of minutes since 1970-01-01 00:00 UTC; the
      business timezone is a fixed offset from UTC.
    - Code that touches shared state (locks, the calendar backend, the
      appointment store, the session map) is a tree of atomic effects
      ([Prog]); one definition serves both the sequential reading ([run])
      and the interleaved one ([tstep]). *)

From Stdlib Require Import ZArith List String Ascii Bool Lia QArith Sorted.
From stdpp Require Import gmap strings pretty.
Import ListNotations.

Local Open Scope string_scope.
Local Open Scope Z_scope.

(* ===================================================================== *)
(** * Python strings *)
(* ===================================================================== *)

Module Py.

Definition chars (s : string) : list ascii := list_ascii_of_string s.
Definition str (l : list ascii) : string := string_of_list_ascii l.

Definition code (c : ascii) : nat := nat_of_ascii c.
Definition between (lo hi : nat) (c : ascii) : bool :=
  (Nat.leb lo (code c) && Nat.leb (code c) hi)%bool.

Definition is_upper : ascii -> bool := between 65 90.
Definition is_lower : ascii -> bool := between 97 122.
Definition is_digit : ascii -> bool := between 48 57.
Definition is_alpha (c : ascii) : bool := (is_upper c || is_lower c)%bool.
(** [str.isspace] on ASCII: tab, newline, VT, FF, CR, FS, GS, RS, US and
    the space. *)
Definition is_space (c : ascii) : bool :=
  (between 9 13 c || between 28 32 c)%bool.
(** [\w] of the [re] module on ASCII. *)
Definition is_word (c : ascii) : bool :=
  (is_alpha c || is_digit c || Nat.eqb (code c) 95)%bool.

Definition lower_c (c : ascii) : ascii :=
  if is_upper c then ascii_of_nat (code c + 32) else c.
Definition upper_c (c : ascii) : ascii :=
  if is_lower c then ascii_of_nat (code c - 32) else c.

Definition eqb_c (a b : ascii) : bool := Ascii.eqb a b.

(** [s.lower()], [s.upper()] *)
Definition lower (s : string) : string := str (map lower_c (chars s)).
Definition upper (s : string) : string := str (map upper_c (chars s)).

(** [s.title()]: a letter that follows a letter is lowered, any other
    letter is raised. *)
Fixpoint title_from (prev_cased : bool) (l : list ascii) : list ascii :=
  match l with
  | [] => []
  | c :: l' =>
      (if is_alpha c then (if prev_cased then lower_c c else upper_c c) else c)
        :: title_from (is_alpha c) l'
  end.
Definition title (s : string) : string := str (title_from false (chars s)).

(** [s.isalpha()] *)
Definition isalpha (s : string) : bool :=
  match chars s with
  | [] => false
  | l => forallb is_alpha l
  end.

(** [sub in s] *)
Fixpoint starts_with (p l : list ascii) : bool :=
  match p, l with
  | [], _ => true
  | a :: p', b :: l' => (eqb_c a b && starts_with p' l')%bool
  | _ :: _, [] => false
  end.
Fixpoint contains_from (p l : list ascii) : bool :=
  (starts_with p l ||
   match l with
   | [] => false
   | _ :: l' => contains_from p l'
   end)%bool.
Definition contains (sub s : string) : bool := contains_from (chars sub) (chars s).

(** [s.replace(old, new)] for a non-empty [old]: leftmost occurrences,
    not overlapping. [n] bounds the characters still to skip. *)
Fixpoint replace_from (old new : list ascii) (skip : nat) (l : list ascii) : list ascii :=
  match l with
  | [] => []
  | c :: l' =>
      match skip with
      | S k => replace_from old new k l'
      | O =>
          if starts_with old l
          then new ++ replace_from old new (length old - 1) l'
          else c :: replace_from old new O l'
      end
  end.
Definition replace (old new s : string) : string :=
  match chars old with
  | [] => s
  | o => str (replace_from o (chars new) O (chars s))
  end.

(** [s.split()]: maximal runs of non-whitespace. *)
Fixpoint split_from (cur : list ascii) (l : list ascii) : list string :=
  match l with
  | [] => match cur with [] => [] | _ => [str (rev cur)] end
  | c :: l' =>
      if is_space c
      then match cur with
           | [] => split_from [] l'
           | _ => str (rev cur) :: split_from [] l'
           end
      else split_from (c :: cur) l'
  end.
Definition split (s : string) : list string := split_from [] (chars s).

(** [s.strip(cs)] *)
Fixpoint lstrip_l (cs : list ascii) (l : list ascii) : list ascii :=
  match l with
  | [] => []
  | c :: l' => if existsb (eqb_c c) cs then lstrip_l cs l' else l
  end.
Definition strip (cs s : string) : string :=
  str (rev (lstrip_l (chars cs) (rev (lstrip_l (chars cs) (chars s))))).

(** [sep.join(l)] *)
Fixpoint join (sep : string) (l : list string) : string :=
  match l with
  | [] => ""
  | [x] => x
  | x :: l' => x ++ sep ++ join sep l'
  end.

(** [x in l] for a list of strings; [l.index(x)] *)
Definition mem (x : string) (l : list string) : bool := existsb (String.eqb x) l.
Fixpoint index (x : string) (l : list string) : option nat :=
  match l with
  | [] => None
  | y :: l' => if String.eqb x y then Some O else option_map S (index x l')
  end.

(** Truth value of a string: non-empty. *)
Definition truthy (s : string) : bool := negb (String.eqb s "").

(** Decimal digits to a number; [int(s)] on a string of digits. *)
Definition digit_val (c : ascii) : Z := Z.of_nat (code c - 48).
Definition int_of (s : string) : Z :=
  fold_left (fun acc c => 10 * acc + digit_val c) (chars s) 0.

(** ["%02d"] for a number below 100. *)
Definition two_digits (n : Z) : string :=
  if (n <? 10)%Z then "0" ++ pretty n else pretty n.

End Py.

(* ===================================================================== *)
(** * Regular expressions of the [re] module *)
(* ===================================================================== *)

(** A backtracking matcher with the priorities of [re]: alternatives left
    to right, greedy repetition, the leftmost match for [search]. *)
Module Re.

Inductive regex : Type :=
| Empty
| Class (p : ascii -> bool)        (* a character, a set, \d, \s *)
| Cat (r1 r2 : regex)
| Or (r1 r2 : regex)               (* r1|r2 *)
| Star (r : regex)                 (* r* *)
| Group (i : nat) (r : regex)      (* the i-th capturing ( ) *)
| WordB                            (* \b *)
| Ahead (r : regex)                (* (?=r) *)
| Bol                              (* ^ *)
| Eol.                             (* $ *)

Definition Chr (c : ascii) : regex := Class (Py.eqb_c c).
Definition Opt (r : regex) : regex := Or r Empty.           (* r? *)
Definition Plus (r : regex) : regex := Cat r (Star r).      (* r+ *)
Fixpoint Lit_l (l : list ascii) : regex :=
  match l with
  | [] => Empty
  | [c] => Chr c
  | c :: l' => Cat (Chr c) (Lit_l l')
  end.
Definition Lit (s : string) : regex := Lit_l (Py.chars s).
Fixpoint Seq (rs : list regex) : regex :=
  match rs with
  | [] => Empty
  | [r] => r
  | r :: rs' => Cat r (Seq rs')
  end.
Fixpoint Alt (rs : list regex) : regex :=
  match rs with
  | [] => Class (fun _ => false)
  | [r] => r
  | r :: rs' => Or r (Alt rs')
  end.
Definition digit : regex := Class Py.is_digit.              (* \d *)
Definition space : regex := Class Py.is_space.              (* \s *)
Definition range (lo hi : string) : regex :=                (* [lo-hi] *)
  match Py.chars lo, Py.chars hi with
  | [a], [b] => Class (Py.between (Py.code a) (Py.code b))
  | _, _ => Class (fun _ => false)
  end.
Definition one_of (s : string) : ascii -> bool :=           (* [abc] *)
  fun c => existsb (Py.eqb_c c) (Py.chars s).

(** Where the matcher stands: the offset, the character before it, the
    text after it and the groups closed so far (latest first). *)
Record mstate : Type := MState {
  pos : nat;
  prev : option ascii;
  rest : list ascii;
  caps : list (nat * (nat * nat))
}.

Definition at_word (o : option ascii) : bool :=
  match o with Some c => Py.is_word c | None => false end.

(** A set under [re.I] accepts a character whose lower or upper case it
    accepts. *)
Definition class_ok (icase : bool) (p : ascii -> bool) (c : ascii) : bool :=
  if icase then (p c || p (Py.lower_c c) || p (Py.upper_c c))%bool else p c.

Section Match.
Variable icase : bool.

Fixpoint m (r : regex) (s : mstate) (k : mstate -> option mstate) {struct r}
  : option mstate :=
  match r with
  | Empty => k s
  | Class p =>
      match rest s with
      | c :: l =>
          if class_ok icase p c
          then k (MState (S (pos s)) (Some c) l (caps s))
          else None
      | [] => None
      end
  | Cat r1 r2 => m r1 s (fun s' => m r2 s' k)
  | Or r1 r2 =>
      match m r1 s k with
      | Some x => Some x
      | None => m r2 s k
      end
  | Star r' =>
      (fix loop (fuel : nat) (s0 : mstate) {struct fuel} : option mstate :=
         match fuel with
         | O => k s0
         | S fuel' =>
             match m r' s0 (fun s1 =>
                              if Nat.ltb (pos s0) (pos s1)
                              then loop fuel' s1 else None) with
             | Some x => Some x
             | None => k s0
             end
         end) (S (length (rest s))) s
  | Group i r' =>
      m r' s (fun s' =>
                k (MState (pos s') (prev s') (rest s')
                          ((i, (pos s, pos s')) :: caps s')))
  | WordB =>
      if xorb (at_word (prev s)) (at_word (hd_error (rest s)))
      then k s else None
  | Ahead r' =>
      match m r' s (fun s' => Some s') with
      | Some _ => k s
      | None => None
      end
  | Bol => match prev s with None => k s | Some _ => None end
  | Eol =>
      match rest s with
      | [] => k s
      | [c] => if Nat.eqb (Py.code c) 10 then k s else None
      | _ => None
      end
  end.

(** [pattern.match] at the position of [s]. *)
Definition match_here (r : regex) (s : mstate) : option mstate :=
  m r s (fun s' => Some s').

(** [pattern.search] from the position of [s]: the start of the
    leftmost match and the state at its end. *)
Fixpoint search_from (r : regex) (s : mstate) (fuel : nat)
  : option (nat * mstate) :=
  match match_here r s with
  | Some s' => Some (pos s, s')
  | None =>
      match fuel, rest s with
      | S fuel', c :: l =>
          search_from r (MState (S (pos s)) (Some c) l (caps s)) fuel'
      | _, _ => None
      end
  end.
End Match.

(** A match object: the text searched, the span and the groups. *)
Record match_obj : Type := Match {
  text : string;
  m_start : nat;
  m_end : nat;
  m_caps : list (nat * (nat * nat))
}.

Definition start_state (s : string) : mstate := MState O None (Py.chars s) [].

Definition slice (s : string) (a b : nat) : string :=
  Py.str (firstn (b - a) (skipn a (Py.chars s))).

(** [re.search(r, s)] and [re.search(r, s, re.I)] *)
Definition search (icase : bool) (r : regex) (s : string) : option match_obj :=
  match search_from icase r (start_state s) (String.length s) with
  | Some (a, s') => Some (Match s a (pos s') (caps s'))
  | None => None
  end.

(** [re.match(r, s)] *)
Definition match_ (icase : bool) (r : regex) (s : string) : option match_obj :=
  match match_here icase r (start_state s) with
  | Some s' => Some (Match s O (pos s') (caps s'))
  | None => None
  end.

(** [m.group(i)]; [None] for a group that took no part in the match. *)
Definition group (mo : match_obj) (i : nat) : option string :=
  match i with
  | O => Some (slice (text mo) (m_start mo) (m_end mo))
  | _ =>
      match find (fun c => Nat.eqb (fst c) i) (m_caps mo) with
      | Some (_, (a, b)) => Some (slice (text mo) a b)
      | None => None
      end
  end.
Definition group_str (mo : match_obj) (i : nat) : string :=
  match group mo i with Some g => g | None => "" end.

(** [re.sub(r, repl, s)] where [repl] is computed from the match. A
    pattern that matched the empty string moves on by one character. *)
Fixpoint sub_from (icase : bool) (r : regex) (repl : match_obj -> string)
         (whole : string) (s : mstate) (fuel : nat) : list ascii :=
  match fuel with
  | O => rest s
  | S fuel' =>
      match search_from icase r s (length (rest s)) with
      | None => rest s
      | Some (a, s') =>
          let skipped := firstn (a - pos s) (rest s) in
          let out := Py.chars (repl (Match whole a (pos s') (caps s'))) in
          if Nat.ltb a (pos s')
          then skipped ++ out
                 ++ sub_from icase r repl whole
                      (MState (pos s') (prev s') (rest s') []) fuel'
          else
            match rest s' with
            | [] => skipped ++ out
            | c :: l =>
                skipped ++ out ++ c
                  :: sub_from icase r repl whole
                       (MState (S (pos s')) (Some c) l []) fuel'
            end
      end
  end.
Definition sub (icase : bool) (r : regex) (repl : match_obj -> string)
           (s : string) : string :=
  Py.str (sub_from icase r repl s (start_state s) (S (String.length s))).

End Re.

(* ===================================================================== *)
(** * Dates and times of the [datetime] module *)
(* ===================================================================== *)

(** A naive [datetime] is a number of minutes since 1970-01-01 00:00 on the
    wall clock; a [date] is a number of days since 1970-01-01. *)
Module Cal.

Definition days_from_civil (y m d : Z) : Z :=
  let y' := if m <=? 2 then y - 1 else y in
  let era := y' / 400 in
  let yoe := y' - era * 400 in
  let doy := (153 * (if 2 <? m then m - 3 else m + 9) + 2) / 5 + d - 1 in
  let doe := yoe * 365 + yoe / 4 - yoe / 100 + doy in
  era * 146097 + doe - 719468.

(** year, month, day of a day number *)
Definition civil_from_days (z0 : Z) : Z * Z * Z :=
  let z := z0 + 719468 in
  let era := z / 146097 in
  let doe := z - era * 146097 in
  let yoe := (doe - doe / 1460 + doe / 36524 - doe / 146096) / 365 in
  let doy := doe - (365 * yoe + yoe / 4 - yoe / 100) in
  let mp := (5 * doy + 2) / 153 in
  let d := doy - (153 * mp + 2) / 5 + 1 in
  let m := if mp <? 10 then mp + 3 else mp - 9 in
  ((if m <=? 2 then yoe + era * 400 + 1 else yoe + era * 400), m, d).

(** [d.weekday()]: Monday is 0. *)
Definition weekday (days : Z) : Z := (days + 3) mod 7.

Definition date_of (dt : Z) : Z := dt / 1440.          (* dt.date() *)
Definition minute_of_day (dt : Z) : Z := dt mod 1440.
Definition year_of (dt : Z) : Z := fst (fst (civil_from_days (date_of dt))).

Definition day_names : list string :=
  ["Monday"; "Tuesday"; "Wednesday"; "Thursday"; "Friday"; "Saturday"; "Sunday"].
Definition month_names : list string :=
  ["January"; "February"; "March"; "April"; "May"; "June"; "July"; "August";
   "September"; "October"; "November"; "December"].

(** [dt.strftime("%A, %B %d")] *)
Definition strftime_date (dt : Z) : string :=
  let '(_, m, d) := civil_from_days (date_of dt) in
  nth (Z.to_nat (weekday (date_of dt))) day_names ""
    ++ ", " ++ nth (Z.to_nat (m - 1)) month_names "" ++ " " ++ Py.two_digits d.

(** [dt.strftime('%I:%M %p')] *)
Definition strftime_time (dt : Z) : string :=
  let h := minute_of_day dt / 60 in
  let mi := minute_of_day dt mod 60 in
  let h12 := if h mod 12 =? 0 then 12 else h mod 12 in
  Py.two_digits h12 ++ ":" ++ Py.two_digits mi ++ " "
    ++ (if h <? 12 then "AM" else "PM").

(** The pattern [_strptime] compiles ["%A, %B %d %I:%M %p"] to; names
    are matched without regard to case, longest first. *)
Definition strptime_regex : Re.regex :=
  Re.Seq [
    Re.Group 1 (Re.Alt (map Re.Lit
      ["wednesday"; "thursday"; "saturday"; "tuesday"; "monday"; "friday"; "sunday"]));
    Re.Lit ","; Re.Plus Re.space;
    Re.Group 2 (Re.Alt (map Re.Lit
      ["september"; "february"; "november"; "december"; "january"; "october";
       "august"; "march"; "april"; "june"; "july"; "may"]));
    Re.Plus Re.space;
    Re.Group 3 (Re.Alt [
      Re.Cat (Re.Lit "3") (Re.range "0" "1");
      Re.Cat (Re.range "1" "2") Re.digit;
      Re.Cat (Re.Lit "0") (Re.range "1" "9");
      Re.range "1" "9";
      Re.Cat (Re.Lit " ") (Re.range "1" "9")]);
    Re.Plus Re.space;
    Re.Group 4 (Re.Alt [
      Re.Cat (Re.Lit "1") (Re.range "0" "2");
      Re.Cat (Re.Lit "0") (Re.range "1" "9");
      Re.range "1" "9"]);
    Re.Lit ":";
    Re.Group 5 (Re.Alt [Re.Cat (Re.range "0" "5") Re.digit; Re.digit]);
    Re.Plus Re.space;
    Re.Group 6 (Re.Alt [Re.Lit "am"; Re.Lit "pm"])
  ].

Definition month_number (name : string) : Z :=
  match Py.index (Py.lower name) (map Py.lower month_names) with
  | Some i => Z.of_nat i + 1
  | None => 0
  end.

(** Days of a month of 1900, the year [strptime] assumes. *)
Definition days_in_month_1900 (m : Z) : Z :=
  if m =? 2 then 28
  else if (m =? 4) || (m =? 6) || (m =? 9) || (m =? 11) then 30 else 31.

(** [datetime.strptime(s, "%A, %B %d %I:%M %p")]: month, day, hour and
    minute, or [None] where it raises [ValueError]. *)
Definition strptime (s : string) : option (Z * Z * Z * Z) :=
  match Re.match_ true strptime_regex s with
  | None => None
  | Some mo =>
      if negb (Nat.eqb (Re.m_end mo) (String.length s)) then None
      else
        let month := month_number (Re.group_str mo 2) in
        let day := Py.int_of (Py.strip " " (Re.group_str mo 3)) in
        let hour0 := Py.int_of (Re.group_str mo 4) in
        let minute := Py.int_of (Re.group_str mo 5) in
        let hour :=
          if String.eqb (Py.lower (Re.group_str mo 6)) "am"
          then (if hour0 =? 12 then 0 else hour0)
          else (if hour0 =? 12 then 12 else hour0 + 12) in
        if day <=? days_in_month_1900 month
        then Some (month, day, hour, minute) else None
  end.

(** [dt.replace(year=y)] for the month, day, hour and minute parsed. *)
Definition at_year (y : Z) (f : Z * Z * Z * Z) : Z :=
  let '(m, d, h, mi) := f in days_from_civil y m d * 1440 + h * 60 + mi.

(** [datetime(y, m, d)], or [None] where it raises [ValueError]. *)
Definition is_leap (y : Z) : bool :=
  ((y mod 4 =? 0) && negb (y mod 100 =? 0)) || (y mod 400 =? 0).
Definition days_in_month (y m : Z) : Z :=
  if m =? 2 then (if is_leap y then 29 else 28) else days_in_month_1900 m.
Definition datetime (y m d : Z) : option Z :=
  if (1 <=? m) && (m <=? 12) && (1 <=? d) && (d <=? days_in_month y m)
  then Some (days_from_civil y m d * 1440) else None.

End Cal.

(* ===================================================================== *)
(** * Shared state and effects *)
(* ===================================================================== *)

Module Sys.

(** A value, or the exception raised instead. *)
Inductive Res (A : Type) : Type :=
| Ok (a : A)
| Raise (msg : string).
Arguments Ok {A} a.
Arguments Raise {A} msg.

(** ** Data classes of [app101.py] *)

Record Appointment : Type := mkAppointment {
  customer_name : string;
  phone_number : string;
  a_service : string;
  a_date : string;
  a_time : string;
  notes : string;
  a_call_sid : string;
  google_event_id : string;
  a_created_at : Z;
  status : string
}.

(** What [customer_data] holds: strings, and the list of alternative
    times. *)
Inductive Val : Type :=
| VStr (s : string)
| VList (l : list string)
| VNone.

Record Message : Type := mkMessage {
  role : string;
  content : string;
  timestamp : Z
}.

Record CallSession : Type := mkCallSession {
  call_sid : string;
  state : string;
  customer_data : gmap string Val;
  attempts : Z;
  conversation_history : list Message;
  emotion_state : string;
  urgency_level : Q;
  last_response : string;
  created_at : Z
}.

(** ** The calendar backend *)

(** An event of the calendar: its span in instants, and whether the span
    is given as [dateTime] (a timed event) or as [date] (an all-day one). *)
Record Event : Type := mkEvent {
  ev_id : string;
  ev_start : Z;
  ev_end : Z;
  ev_timed : bool;
  ev_summary : option string
}.

(** The body of an insert. Description, reminders and colour, which
    nothing reads back, are left out. *)
Record EventBody : Type := mkBody {
  b_summary : string;
  b_start : Z;
  b_end : Z
}.

(** The events, the outcome of the coming calls ([true]: the call raises)
    and the counter the ids come from. *)
Record Backend : Type := mkBackend {
  events : list Event;
  faults : list bool;
  next_id : nat
}.

Fixpoint insert_by_start (e : Event) (l : list Event) : list Event :=
  match l with
  | [] => [e]
  | x :: l' => if ev_start e <? ev_start x then e :: l else x :: insert_by_start e l'
  end.
Definition sort_by_start (l : list Event) : list Event :=
  fold_right insert_by_start [] l.

(** [events().list(timeMin, timeMax, singleEvents=True,
    orderBy='startTime', maxResults)]: the events that end after
    [timeMin] and start before [timeMax], by start time. *)
Definition in_window (time_min time_max : Z) (e : Event) : bool :=
  (time_min <? ev_end e) && (ev_start e <? time_max).
Definition list_events (time_min time_max : Z) (max_results : nat)
           (b : Backend) : list Event :=
  firstn max_results (sort_by_start (List.filter (in_window time_min time_max) (events b))).

Definition fresh_id (b : Backend) : string := "evt" ++ pretty (next_id b).

Definition next_fault (b : Backend) : bool * Backend :=
  match faults b with
  | [] => (false, b)
  | f :: fs => (f, mkBackend (events b) fs (next_id b))
  end.

(** ** Locks *)

Inductive LockKind : Type := Lock | RLock.   (* threading.Lock, threading.RLock *)
Inductive LockId : Type := CalLock | StoreLock | SessionLock | BreakerLock.

Record LockSt : Type := mkLock {
  kind : LockKind;
  owner : option nat;
  depth : nat
}.
Definition new_lock (k : LockKind) : LockSt := mkLock k None O.

(** [acquire] by thread [me]: [None] while the thread has to wait. *)
Definition acquire (me : nat) (l : LockSt) : option LockSt :=
  match owner l with
  | None => Some (mkLock (kind l) (Some me) 1)
  | Some o =>
      match kind l with
      | RLock => if Nat.eqb o me then Some (mkLock RLock (Some o) (S (depth l))) else None
      | Lock => None
      end
  end.
Definition release (l : LockSt) : LockSt :=
  match kind l, depth l with
  | RLock, S (S d) => mkLock RLock (owner l) (S d)
  | k, _ => mkLock k None O
  end.

(** ** The world *)

Record World : Type := mkWorld {
  cal_lock : LockSt;            (* GoogleCalendarManager._lock *)
  store_lock : LockSt;          (* DataStore._lock *)
  session_lock : LockSt;        (* TwilioAIReceptionist.session_lock *)
  breaker_lock : LockSt;        (* CircuitBreaker._lock *)
  backend : Backend;
  now : Z;                      (* datetime.now(), minutes on the wall clock *)
  unix_time : Z;                (* time.time() *)
  appointments : list Appointment;        (* DataStore.appointments *)
  appointments_file : list Appointment;   (* data/appointments.json *)
  call_sessions : gmap string CallSession;
  rng : nat;                    (* what random.choice draws from *)
  gemini : string -> option string   (* the answer of the text model *)
}.

Definition lock_of (l : LockId) (w : World) : LockSt :=
  match l with
  | CalLock => cal_lock w
  | StoreLock => store_lock w
  | SessionLock => session_lock w
  | BreakerLock => breaker_lock w
  end.
Definition set_lock (l : LockId) (s : LockSt) (w : World) : World :=
  match l with
  | CalLock =>
      mkWorld s (store_lock w) (session_lock w) (breaker_lock w) (backend w) (now w)
              (unix_time w) (appointments w) (appointments_file w) (call_sessions w)
              (rng w) (gemini w)
  | StoreLock =>
      mkWorld (cal_lock w) s (session_lock w) (breaker_lock w) (backend w) (now w)
              (unix_time w) (appointments w) (appointments_file w) (call_sessions w)
              (rng w) (gemini w)
  | SessionLock =>
      mkWorld (cal_lock w) (store_lock w) s (breaker_lock w) (backend w) (now w)
              (unix_time w) (appointments w) (appointments_file w) (call_sessions w)
              (rng w) (gemini w)
  | BreakerLock =>
      mkWorld (cal_lock w) (store_lock w) (session_lock w) s (backend w) (now w)
              (unix_time w) (appointments w) (appointments_file w) (call_sessions w)
              (rng w) (gemini w)
  end.
Definition set_backend (b : Backend) (w : World) : World :=
  mkWorld (cal_lock w) (store_lock w) (session_lock w) (breaker_lock w) b (now w) (unix_time w)
          (appointments w) (appointments_file w) (call_sessions w) (rng w) (gemini w).
Definition set_appointments (l : list Appointment) (w : World) : World :=
  mkWorld (cal_lock w) (store_lock w) (session_lock w) (breaker_lock w) (backend w) (now w) (unix_time w)
          l (appointments_file w) (call_sessions w) (rng w) (gemini w).
Definition set_appointments_file (l : list Appointment) (w : World) : World :=
  mkWorld (cal_lock w) (store_lock w) (session_lock w) (breaker_lock w) (backend w) (now w) (unix_time w)
          (appointments w) l (call_sessions w) (rng w) (gemini w).
Definition set_call_sessions (m : gmap string CallSession) (w : World) : World :=
  mkWorld (cal_lock w) (store_lock w) (session_lock w) (breaker_lock w) (backend w) (now w) (unix_time w)
          (appointments w) (appointments_file w) m (rng w) (gemini w).

(** ** Effects *)

Inductive Eff : Type -> Type :=
| Acquire (l : LockId) : Eff unit
| Release (l : LockId) : Eff unit
| DatetimeNow : Eff Z
| TimeTime : Eff Z
| EventsList (time_min time_max : Z) (max_results : nat) : Eff (Res (list Event))
| EventsInsert (body : EventBody) : Eff (Res Event)
| StoreAppend (a : Appointment) : Eff unit
| StoreSave : Eff unit
| SessionsGet (id : string) : Eff (option CallSession)
| SessionsSet (id : string) (s : CallSession) : Eff unit
| SessionsDel (id : string) : Eff unit
| RandomChoice (n : nat) : Eff nat
| GenerateText (prompt : string) : Eff (option string).

(** One atomic effect of thread [me]; [None] while it has to wait. *)
Definition handle {X : Type} (me : nat) (e : Eff X) (w : World) : option (X * World) :=
  match e in Eff X0 return option (X0 * World) with
  | Acquire l =>
      match acquire me (lock_of l w) with
      | Some s => Some (tt, set_lock l s w)
      | None => None
      end
  | Release l => Some (tt, set_lock l (release (lock_of l w)) w)
  | DatetimeNow => Some (now w, w)
  | TimeTime => Some (unix_time w, w)
  | EventsList time_min time_max max_results =>
      let '(f, b) := next_fault (backend w) in
      if f then Some (Raise "HttpError", set_backend b w)
      else Some (Ok (list_events time_min time_max max_results b), set_backend b w)
  | EventsInsert body =>
      let '(f, b) := next_fault (backend w) in
      if f then Some (Raise "HttpError", set_backend b w)
      else
        let ev := mkEvent (fresh_id b) (b_start body) (b_end body) true
                          (Some (b_summary body)) in
        Some (Ok ev, set_backend (mkBackend (events b ++ [ev]) (faults b) (S (next_id b))) w)
  | StoreAppend a => Some (tt, set_appointments (appointments w ++ [a]) w)
  | StoreSave => Some (tt, set_appointments_file (appointments w) w)
  | SessionsGet id => Some (call_sessions w !! id, w)
  | SessionsSet id s => Some (tt, set_call_sessions (<[id := s]> (call_sessions w)) w)
  | SessionsDel id => Some (tt, set_call_sessions (delete id (call_sessions w)) w)
  | RandomChoice n => Some (Nat.modulo (rng w) n, w)
  | GenerateText prompt => Some (gemini w prompt, w)
  end.

(** ** Programs *)

Inductive Prog (A : Type) : Type :=
| Ret (a : A)
| Vis {X : Type} (e : Eff X) (k : X -> Prog A).
Arguments Ret {A} a.
Arguments Vis {A X} e k.

Fixpoint bind {A B : Type} (p : Prog A) (f : A -> Prog B) : Prog B :=
  match p with
  | Ret a => f a
  | Vis e k => Vis e (fun x => bind (k x) f)
  end.

Definition trigger {X : Type} (e : Eff X) : Prog X := Vis e Ret.

(** [with lock: body]; the lock is released however the body ends. *)
Definition with_lock {A : Type} (l : LockId) (body : Prog A) : Prog A :=
  Vis (Acquire l) (fun _ => bind body (fun a => Vis (Release l) (fun _ => Ret a))).

(** How a thread running alone ends: with a value, or waiting for a lock
    nobody will release. *)
Inductive Outcome (A : Type) : Type :=
| Done (a : A) (w : World)
| Blocked (l : LockId) (w : World).
Arguments Done {A} a w.
Arguments Blocked {A} l w.

Definition lock_wanted {X : Type} (e : Eff X) : LockId :=
  match e with
  | Acquire l => l
  | _ => CalLock
  end.

Fixpoint run {A : Type} (me : nat) (p : Prog A) (w : World) : Outcome A :=
  match p with
  | Ret a => Done a w
  | Vis e k =>
      match handle me e w with
      | Some (x, w') => run me (k x) w'
      | None => Blocked (lock_wanted e) w
      end
  end.

(** One step of thread [me], for interleaved runs. *)
Definition tstep {A : Type} (me : nat) (p : Prog A) (w : World)
  : option (Prog A * World) :=
  match p with
  | Ret _ => None
  | Vis e k =>
      match handle me e w with
      | Some (x, w') => Some (k x, w')
      | None => None
      end
  end.

(** ** Code that mutates an object

    A block of code that reads and writes the object it was handed (a
    session), may touch shared state, and may raise; what it wrote
    before raising stays written. *)

Definition SM (S A : Type) : Type := S -> Prog (S * Res A).

Definition sret {S A : Type} (a : A) : SM S A := fun s => Ret (s, Ok a).
Definition sbind {S A B : Type} (m : SM S A) (f : A -> SM S B) : SM S B :=
  fun s =>
    bind (m s) (fun sr =>
      match sr with
      | (s', Ok a) => f a s'
      | (s', Raise e) => Ret (s', Raise e)
      end).
Definition lift {S A : Type} (p : Prog A) : SM S A :=
  fun s => bind p (fun a => Ret (s, Ok a)).
Definition lift_res {S A : Type} (p : Prog (Res A)) : SM S A :=
  fun s => bind p (fun r => Ret (s, r)).
Definition get_session {S : Type} : SM S S := fun s => Ret (s, Ok s).
Definition modify {S : Type} (f : S -> S) : SM S unit := fun s => Ret (f s, Ok tt).
Definition when {S : Type} (c : bool) (m : SM S unit) : SM S unit :=
  if c then m else sret tt.

End Sys.

Declare Scope prog_scope.
Delimit Scope prog_scope with prog.
Notation "'let*' x ':=' p 'in' k" := (Sys.bind p (fun x => k))
  (at level 10, x name, p at level 100, k at level 200, only parsing) : prog_scope.
Notation "'let*' ' pat ':=' p 'in' k" :=
  (Sys.bind p (fun x => match x with pat => k end))
  (at level 10, pat pattern, p at level 100, k at level 200, only parsing) : prog_scope.
(** [let? x := p in k]: an exception raised by [p] ends the block. *)
Notation "'let?' x ':=' p 'in' k" :=
  (Sys.bind p (fun r => match r with Sys.Ok x => k | Sys.Raise e => Sys.Ret (Sys.Raise e) end))
  (at level 10, x name, p at level 100, k at level 200, only parsing) : prog_scope.

(** [let! x := m in k]: the same inside code that mutates an object. *)
Notation "'let!' x ':=' m 'in' k" := (Sys.sbind m (fun x => k))
  (at level 10, x name, m at level 100, k at level 200, only parsing) : prog_scope.
Notation "'let!' ' pat ':=' m 'in' k" :=
  (Sys.sbind m (fun x => match x with pat => k end))
  (at level 10, pat pattern, m at level 100, k at level 200, only parsing) : prog_scope.

(* ===================================================================== *)
(** * [app101.py] *)
(* ===================================================================== *)

Module App101.
Import Sys.
Local Open Scope prog_scope.

(** ** [class CircuitBreaker] *)

Record CircuitBreaker : Type := mkBreaker {
  failure_threshold : Z;
  recovery_timeout : Z;
  failure_count : Z;
  last_failure_time : option Z;
  is_open : bool
}.

(** [CircuitBreaker(failure_threshold, recovery_timeout)] *)
Definition new_breaker (failure_threshold recovery_timeout : Z) : CircuitBreaker :=
  mkBreaker failure_threshold recovery_timeout 0 None false.

(** [call(func)]: the breaker afterwards, and what the call returned or
    raised. *)
Definition call {R : Type} (self : CircuitBreaker) (func : Prog (Res R))
  : Prog (CircuitBreaker * Res R) :=
  let* gate := with_lock BreakerLock
    (if is_open self then
       let* t := trigger TimeTime in
       match last_failure_time self with
       | None => Ret (Raise "TypeError")
       | Some last =>
           if recovery_timeout self <? t - last
           then Ret (Ok (mkBreaker (failure_threshold self) (recovery_timeout self)
                                   0 (last_failure_time self) false))
           else Ret (Raise "Circuit breaker is open")
       end
     else Ret (Ok self)) in
  match gate with
  | Raise msg => Ret (self, Raise msg)
  | Ok self1 =>
      let* r := func in
      match r with
      | Ok result =>
          let* self2 := with_lock BreakerLock
            (Ret (mkBreaker (failure_threshold self1) (recovery_timeout self1)
                            0 (last_failure_time self1) (is_open self1))) in
          Ret (self2, Ok result)
      | Raise e =>
          let* self2 := with_lock BreakerLock
            (let* t := trigger TimeTime in
             let n := failure_count self1 + 1 in
             Ret (mkBreaker (failure_threshold self1) (recovery_timeout self1)
                            n (Some t)
                            (if failure_threshold self1 <=? n then true
                             else is_open self1))) in
          Ret (self2, Raise e)
      end
  end.

(** ** [class GoogleCalendarManager] *)

(** [service] tells whether authentication produced a service object;
    [utc_offset] is the offset of [timezone], in minutes. *)
Record GoogleCalendarManager : Type := mkManager {
  calendar_id : string;
  service : bool;
  timezone : string;
  utc_offset : Z;
  appointment_duration : Z
}.

(** [_parse_appointment_datetime(date_str, time_str)] *)
Definition _parse_appointment_datetime (date_str time_str : string) : Prog (Res Z) :=
  match Cal.strptime (date_str ++ " " ++ time_str) with
  | None => Ret (Raise "ValueError")
  | Some fields =>
      let* n1 := trigger DatetimeNow in
      let current_year := Cal.year_of n1 in
      let appointment_date := Cal.at_year current_year fields in
      let* n2 := trigger DatetimeNow in
      let today := Cal.date_of n2 in
      if Cal.date_of appointment_date <? today
      then Ret (Ok (Cal.at_year (current_year + 1) fields))
      else Ret (Ok appointment_date)
  end.

Definition buffer_minutes : Z := 15.

(** The four-way test of [check_availability]. *)
Definition has_overlap (appointment_date appointment_end event_start event_end : Z) : bool :=
  ((event_start <=? appointment_date) && (appointment_date <? event_end))
  || ((event_start <? appointment_end) && (appointment_end <=? event_end))
  || ((appointment_date <=? event_start) && (event_end <=? appointment_end))
  || ((event_start <=? appointment_date) && (appointment_end <=? event_end)).

Definition excluded (exclude_event_id : option string) (ev : Event) : bool :=
  match exclude_event_id with
  | Some x => Py.truthy x && String.eqb (ev_id ev) x
  | None => false
  end.

(** The loop over the listed events. *)
Fixpoint scan_events (self : GoogleCalendarManager) (exclude_event_id : option string)
         (appointment_date appointment_end : Z) (items : list Event)
  : bool * option string :=
  match items with
  | [] => (true, None)
  | ev :: rest =>
      if excluded exclude_event_id ev
      then scan_events self exclude_event_id appointment_date appointment_end rest
      else if ev_timed ev
              && has_overlap appointment_date appointment_end (ev_start ev) (ev_end ev)
      then (false,
            Some ("already booked from "
                    ++ Cal.strftime_time (ev_start ev + utc_offset self)
                    ++ " to " ++ Cal.strftime_time (ev_end ev + utc_offset self)))
      else scan_events self exclude_event_id appointment_date appointment_end rest
  end.

(** [check_availability(date_str, time_str, exclude_event_id)] *)
Definition check_availability (self : GoogleCalendarManager) (date_str time_str : string)
           (exclude_event_id : option string) : Prog (bool * option string) :=
  if negb (service self) then Ret (true, None)
  else
    let* r := with_lock CalLock
      (let? naive := _parse_appointment_datetime date_str time_str in
       let appointment_date := naive - utc_offset self in
       let appointment_end := naive + appointment_duration self - utc_offset self in
       let time_min := appointment_date - buffer_minutes in
       let time_max := appointment_end + buffer_minutes in
       let? items := trigger (EventsList time_min time_max 50) in
       Ret (Ok (scan_events self exclude_event_id appointment_date appointment_end items))) in
    match r with
    | Ok v => Ret v
    | Raise _ => Ret (false, Some "unable to verify availability due to system error")
    end.

Definition time_slots : list string :=
  ["8:00 AM"; "8:30 AM"; "9:00 AM"; "9:30 AM"; "10:00 AM"; "10:30 AM";
   "11:00 AM"; "11:30 AM"; "12:00 PM"; "12:30 PM"; "1:00 PM"; "1:30 PM";
   "2:00 PM"; "2:30 PM"; "3:00 PM"; "3:30 PM"; "4:00 PM"; "4:30 PM"; "5:00 PM"].

(** The reordering loop of [find_next_available_slots]. *)
Definition reordered (slots : list string) (idx : nat) : list string :=
  flat_map
    (fun i =>
       ((if Nat.ltb (idx + i) (length slots) then [nth (idx + i) slots ""] else [])
          ++ (if Nat.leb i idx && Nat.ltb 0 i then [nth (idx - i) slots ""] else []))%list)
    (seq 0 (length slots)).

Definition ordered_slots (preferred_time : option string) : list string :=
  match preferred_time with
  | Some p =>
      if Py.truthy p && Py.mem p time_slots
      then match Py.index p time_slots with
           | Some idx => reordered time_slots idx
           | None => time_slots
           end
      else time_slots
  | None => time_slots
  end.

(** The collecting loop of [find_next_available_slots]. *)
Fixpoint collect_slots (self : GoogleCalendarManager) (date_str : string) (count : Z)
         (slots : list string) (available_slots : list string) : Prog (list string) :=
  match slots with
  | [] => Ret available_slots
  | time_slot :: rest =>
      if count <=? Z.of_nat (length available_slots) then Ret available_slots
      else
        let* ' (is_available, _) := check_availability self date_str time_slot None in
        collect_slots self date_str count rest
          (if is_available then (available_slots ++ [time_slot])%list else available_slots)
  end.

(** [find_next_available_slots(date_str, preferred_time, count)] *)
Definition find_next_available_slots (self : GoogleCalendarManager) (date_str : string)
           (preferred_time : option string) (count : Z) : Prog (list string) :=
  if negb (service self) then Ret []
  else collect_slots self date_str count (ordered_slots preferred_time) [].

Definition show_opt (o : option string) : string :=
  match o with Some s => s | None => "None" end.

(** [create_appointment(appointment)]: success, event id, error. The
    half-second sleep before the second check is not modelled. *)
Definition create_appointment (self : GoogleCalendarManager) (appointment : Appointment)
  : Prog (bool * option string * option string) :=
  if negb (service self) then Ret (false, None, Some "Calendar service not available")
  else
    let* r := with_lock CalLock
      (let* ' (is_available, conflict_details) :=
         check_availability self (a_date appointment) (a_time appointment) None in
       if negb is_available
       then Ret (Ok (false, None,
                     Some ("Cannot book " ++ a_time appointment ++ " on "
                             ++ a_date appointment ++ " - slot is "
                             ++ show_opt conflict_details)))
       else
         let? appointment_datetime :=
           _parse_appointment_datetime (a_date appointment) (a_time appointment) in
         let event :=
           mkBody ("BOOKED: " ++ a_service appointment ++ " - " ++ customer_name appointment)
                  (appointment_datetime - utc_offset self)
                  (appointment_datetime + appointment_duration self - utc_offset self) in
         let? result := trigger (EventsInsert event) in
         let event_id := ev_id result in
         let* _ := check_availability self (a_date appointment) (a_time appointment)
                (Some event_id) in
         Ret (Ok (true, Some event_id, None))) in
    match r with
    | Ok v => Ret v
    | Raise e => Ret (false, None, Some ("Failed to create calendar event: " ++ e))
    end.

(** ** [class DataStore] *)

(** [save_appointments()] *)
Definition save_appointments : Prog unit :=
  with_lock StoreLock (trigger StoreSave).

(** [add_appointment(appointment)] *)
Definition add_appointment (appointment : Appointment) : Prog unit :=
  with_lock StoreLock
    (let* _ := trigger (StoreAppend appointment) in
     save_appointments).

(** ** [class Service], [class BusinessConfig] *)

Record Service : Type := mkService {
  s_name : string;
  price : Q;
  duration : Z;
  description : string;
  keywords : list string;
  priority : Z
}.

(** [matches_input(text)] *)
Definition matches_input (self : Service) (text : string) : bool :=
  let text_lower := Py.lower text in
  if Py.contains (Py.lower (s_name self)) text_lower then true
  else existsb (fun keyword => Py.contains (Py.lower keyword) text_lower) (keywords self).

Record BusinessConfig : Type := mkConfig {
  bc_name : string;
  bc_type : string;
  services : list Service
}.

(** The services [_load_services] falls back to. *)
Definition default_services : list Service :=
  [mkService "Quick Assessment" 100 30 "Quick assessment appointment"
             ["assessment"; "quick"; "evaluation"; "check"; "check-up"] 1;
   mkService "Consultation" 150 60 "Professional consultation"
             ["consultation"; "consult"; "checkup"; "exam"] 1;
   mkService "Cleaning" 200 90 "Professional teeth cleaning"
             ["cleaning"; "clean"; "hygiene"] 2;
   mkService "Emergency" 300 45 "Emergency dental care"
             ["emergency"; "urgent"; "pain"; "hurt"; "ache"] 0].

Definition default_config : BusinessConfig :=
  mkConfig "Bright Smile Dental" "dental" default_services.

(** ** [class TwilioAIReceptionist] *)

Record TwilioAIReceptionist : Type := mkReceptionist {
  business_config : BusinessConfig;
  calendar_manager : option GoogleCalendarManager;
  gemini_enabled : bool                   (* gemini_manager.enabled *)
}.

(** *** Sessions *)

(** [CallSession(call_sid=call_sid)] created at [t]. *)
Definition new_session (call_sid : string) (t : Z) : CallSession :=
  mkCallSession call_sid "greeting" ∅ 0 [] "neutral" (1 # 2) "" t.

Definition set_data (key : string) (v : Val) (session : CallSession) : CallSession :=
  mkCallSession (call_sid session) (state session)
                (<[key := v]> (customer_data session))
                (attempts session) (conversation_history session)
                (emotion_state session) (urgency_level session)
                (last_response session) (created_at session).

(** [customer_data.get(key)] and its truth value. *)
Definition get_data (key : string) (session : CallSession) : Val :=
  match customer_data session !! key with
  | Some v => v
  | None => VNone
  end.
Definition truthy_val (v : Val) : bool :=
  match v with
  | VStr s => Py.truthy s
  | VList l => negb (Nat.eqb (length l) 0)
  | VNone => false
  end.
Definition has (key : string) (session : CallSession) : bool :=
  truthy_val (get_data key session).

(** [str(v)], as an f-string renders it. *)
Definition str_of_val (v : Val) : string :=
  match v with
  | VStr s => s
  | VList l => "[" ++ Py.join ", " (map (fun x => "'" ++ x ++ "'") l) ++ "]"
  | VNone => "None"
  end.

(** [handle_incoming_call()] for the request values [CallSid] and [From]:
    the text of the greeting. Rendering it as TwiML is left out. *)
Definition handle_incoming_call (self : TwilioAIReceptionist)
           (call_sid from_number : string) : Prog string :=
  let* _ := with_lock SessionLock
    (let* t := trigger DatetimeNow in
     let session := new_session call_sid t in
     let session := set_data "from_number" (VStr from_number) session in
     trigger (SessionsSet call_sid session)) in
  Ret ("Thanks for calling " ++ bc_name (business_config self)
         ++ ", this is Sarah. How can I help you today?").

(** [handle_call_status()] for the request values [CallSid] and
    [CallStatus]. *)
Definition handle_call_status (self : TwilioAIReceptionist)
           (call_sid call_status : string) : Prog unit :=
  if Py.mem call_status ["completed"; "failed"; "busy"; "no-answer"]
  then with_lock SessionLock
         (let* s := trigger (SessionsGet call_sid) in
          match s with
          | Some _ => trigger (SessionsDel call_sid)
          | None => Ret tt
          end)
  else Ret tt.

(** [handle_speech_input()] for the request values [CallSid] and [From],
    as far as the session is looked up: the session of the call, or, for
    a call without one, what [handle_incoming_call()], called inside the
    [with self.session_lock] block, returned. The reply to the utterance,
    which follows the lookup, is not part of this definition. *)
Definition handle_speech_input_session (self : TwilioAIReceptionist)
           (call_sid from_number : string) : Prog (string + CallSession) :=
  with_lock SessionLock
    (let* session := trigger (SessionsGet call_sid) in
     match session with
     | None =>
         let* response := handle_incoming_call self call_sid from_number in
         Ret (inl response)
     | Some session => Ret (inr session)
     end).

End App101.

Module App101Extract.
Import Sys App101.
Local Open Scope prog_scope.

Definition az : Re.regex := Re.range "a" "z".
Definition d12 : Re.regex := Re.Cat Re.digit (Re.Opt Re.digit).      (* \d{1,2} *)
Definition d2 : Re.regex := Re.Cat Re.digit Re.digit.                (* \d{2} *)
Definition d3 : Re.regex := Re.Seq [Re.digit; Re.digit; Re.digit].
Definition d4 : Re.regex := Re.Seq [Re.digit; Re.digit; Re.digit; Re.digit].

(** [([a-z]+(?:\s+[a-z]+)?)] *)
Definition name_group : Re.regex :=
  Re.Group 1 (Re.Cat (Re.Plus az) (Re.Opt (Re.Cat (Re.Plus Re.space) (Re.Plus az)))).

(** The name patterns of [extract_booking_info]. *)
Definition name_patterns : list Re.regex :=
  [Re.Seq [Re.Alt [Re.Lit "my name is"; Re.Lit "i'm"; Re.Lit "i am"];
           Re.Plus Re.space; name_group];
   Re.Seq [Re.Lit "the name "; Re.Alt [Re.Lit "could be"; Re.Lit "is"; Re.Lit "would be"];
           Re.Plus Re.space; name_group];
   Re.Seq [Re.Lit "full name is"; Re.Plus Re.space; name_group];
   Re.Seq [Re.Alt [Re.Lit "it's"; Re.Lit "its"]; Re.Plus Re.space; name_group];
   Re.Seq [Re.Alt [Re.Lit "call me"; Re.Lit "i'm called"]; Re.Plus Re.space; name_group]].

(** The first pattern that matches, as the [for ... break] loop finds it. *)
Fixpoint first_match (icase : bool) (patterns : list Re.regex) (text : string)
  : option Re.match_obj :=
  match patterns with
  | [] => None
  | pattern :: rest =>
      match Re.search icase pattern text with
      | Some mo => Some mo
      | None => first_match icase rest text
      end
  end.

(** [m.groups()] of a pattern with [n] groups, and [t[i]] on a tuple. *)
Definition groups (mo : Re.match_obj) (n : nat) : list string :=
  map (fun i => Re.group_str mo i) (seq 1 n).
Definition item (t : list string) (i : nat) : Res string :=
  match nth_error t i with
  | Some x => Ok x
  | None => Raise "IndexError"
  end.
Definition res_bind {A B : Type} (r : Res A) (f : A -> Res B) : Res B :=
  match r with
  | Ok a => f a
  | Raise e => Raise e
  end.

(** The time patterns of [extract_time] with their formatters, each
    applied to [match.groups()]. *)
Definition time_patterns : list (Re.regex * nat * (list string -> Res string)) :=
  [(Re.Seq [Re.Group 1 d12; Re.Lit ":"; Re.Group 2 d2; Re.Star Re.space;
            Re.Group 3 (Re.Alt [Re.Lit "am"; Re.Lit "pm"])],
    3%nat,
    fun m => res_bind (item m 1) (fun a => res_bind (item m 2) (fun b =>
             res_bind (item m 3) (fun c => Ok (a ++ ":" ++ b ++ " " ++ Py.upper c)))));
   (Re.Seq [Re.Group 1 d12; Re.Star Re.space;
            Re.Group 2 (Re.Alt [Re.Lit "am"; Re.Lit "pm"])],
    2%nat,
    fun m => res_bind (item m 1) (fun a => res_bind (item m 2) (fun b =>
             Ok (a ++ ":00 " ++ Py.upper b))));
   (Re.Seq [Re.Group 1 d12; Re.Star Re.space; Re.Lit "00"],
    1%nat,
    fun m => res_bind (item m 1) (fun c =>
             if Py.int_of c <? 12
             then res_bind (item m 1) (fun a => Ok (a ++ ":00 AM"))
             else res_bind (item m 1) (fun a => Ok (a ++ ":00 PM"))))].

Fixpoint first_time (patterns : list (Re.regex * nat * (list string -> Res string)))
         (text_lower : string) : option (Res string) :=
  match patterns with
  | [] => None
  | (pattern, n, formatter) :: rest =>
      match Re.search false pattern text_lower with
      | Some mo => Some (formatter (groups mo n))
      | None => first_time rest text_lower
      end
  end.

Definition quote : string := String (ascii_of_nat 34) "".

(** The head of the prompt [extract_time] sends; the examples that
    follow it in the source are left out. *)
Definition time_prompt (text : string) : string :=
  "Extract the time from this text : " ++ quote ++ text ++ quote.

(** [s.strip()] *)
Definition strip_ws (s : string) : string :=
  let drop := fix drop (l : list ascii) : list ascii :=
    match l with
    | [] => []
    | c :: l' => if Py.is_space c then drop l' else l
    end in
  Py.str (rev (drop (rev (drop (Py.chars s))))).

(** [\d{1,2}:\d{2}\s*(AM|PM)] *)
Definition clock_regex : Re.regex :=
  Re.Seq [d12; Re.Lit ":"; d2; Re.Star Re.space;
          Re.Group 1 (Re.Alt [Re.Lit "AM"; Re.Lit "PM"])].

Definition time_words : list (string * string) :=
  [("morning", "9:00 AM"); ("afternoon", "12:00 PM"); ("evening", "5:00 PM")].

Definition truthy_opt (o : option string) : bool :=
  match o with Some s => Py.truthy s | None => false end.

(** [extract_time(text)] *)
Definition extract_time (self : TwilioAIReceptionist) (text : string)
  : Prog (Res (option string)) :=
  match first_time time_patterns (Py.lower text) with
  | Some (Ok t) => Ret (Ok (Some t))
  | Some (Raise e) => Ret (Raise e)
  | None =>
      let by_words :=
        match find (fun wt => Py.contains (fst wt) (Py.lower text)) time_words with
        | Some (_, t) => Some t
        | None => None
        end in
      if gemini_enabled self then
        let* response := trigger (GenerateText (time_prompt text)) in
        if truthy_opt response
           && negb (String.eqb (strip_ws (show_opt response)) "NONE")
           && (match Re.match_ false clock_regex (strip_ws (show_opt response)) with
               | Some _ => true
               | None => false
               end)
        then Ret (Ok (Some (strip_ws (show_opt response))))
        else Ret (Ok by_words)
      else Ret (Ok by_words)
  end.

Definition days : list string :=
  ["monday"; "tuesday"; "wednesday"; "thursday"; "friday"; "saturday"; "sunday"].

(** [extract_date(text)] *)
Definition extract_date (text : string) : Prog (option string) :=
  let text_lower := Py.lower text in
  let* today := trigger DatetimeNow in
  if Py.contains "today" text_lower then Ret (Some (Cal.strftime_date today))
  else if Py.contains "tomorrow" text_lower
  then Ret (Some (Cal.strftime_date (today + 1440)))
  else
    match find (fun day => Py.contains day text_lower) days with
    | Some day =>
        let idx := match Py.index day days with Some i => Z.of_nat i | None => 0 end in
        let days_ahead := (idx - Cal.weekday (Cal.date_of today)) mod 7 in
        let days_ahead := if days_ahead =? 0 then 7 else days_ahead in
        Ret (Some (Cal.strftime_date (today + days_ahead * 1440)))
    | None => Ret None
    end.

Definition val_of_opt (o : option string) : Val :=
  match o with Some s => VStr s | None => VNone end.

(** [_check_and_set_time(session, time)] *)
Definition _check_and_set_time (self : TwilioAIReceptionist) (time : string) : SM CallSession bool :=
  let! session := get_session in
  let date := get_data "date" session in
  if negb (truthy_val date) then sret false
  else
    match calendar_manager self with
    | Some cm =>
        let! ' (is_available, conflict_details) :=
          lift (check_availability cm (str_of_val date) time None) in
        if is_available
        then let! _ := modify (set_data "time" (VStr time)) in sret true
        else
          let! _ := modify (set_data "unavailable_time" (VStr time)) in
          let! _ := modify (set_data "conflict_reason" (val_of_opt conflict_details)) in
          let! alternatives :=
            lift (find_next_available_slots cm (str_of_val date) (Some time) 3) in
          let! _ := modify (set_data "alternative_times" (VList alternatives)) in
          sret false
    | None =>
        let! _ := modify (set_data "time" (VStr time)) in sret true
    end.

Definition filler_words : list string :=
  ["yes"; "no"; "the"; "is"; "could"; "be"; "name"; "full"; "okay"; "uh"; "um";
   "its"; "it's"; "and"].

(** [\b([a-z])[,.\s]+(?=[a-z]\b)] *)
Definition spelled_regex : Re.regex :=
  Re.Seq [Re.WordB; Re.Group 1 az;
          Re.Plus (Re.Class (fun c => Re.one_of ",." c || Py.is_space c));
          Re.Ahead (Re.Cat az Re.WordB)].

(** The words the fallback of the name block keeps. *)
Definition name_words_of (text : string) : list string :=
  let cleaned_text := Re.sub true spelled_regex (fun mo => Re.group_str mo 1) text in
  let words := Py.split cleaned_text in
  flat_map
    (fun word =>
       let clean_word := Py.lower (Py.strip ".,!?" word) in
       if negb (Py.mem clean_word filler_words)
          && Py.isalpha (Py.replace "'" "" (Py.replace "-" "" clean_word))
          && Nat.ltb 1 (String.length clean_word)
       then [Py.strip ".,!?" word] else [])
    words.

(** [(\d{3})[-.\s]?(\d{3})[-.\s]?(\d{4})] *)
Definition phone_regex : Re.regex :=
  let sep := Re.Opt (Re.Class (fun c => Re.one_of "-." c || Py.is_space c)) in
  Re.Seq [Re.Group 1 d3; sep; Re.Group 2 d3; sep; Re.Group 3 d4].

(** [extract_booking_info(session, text)] *)
Definition extract_booking_info (self : TwilioAIReceptionist) (text : string) : SM CallSession unit :=
  let! session := get_session in
  let! _ := when (negb (has "name" session))
    (let! _ :=
       match first_match true name_patterns text with
       | Some name_match =>
           modify (set_data "name" (VStr (Py.title (Re.group_str name_match 1))))
       | None => sret tt
       end in
     let! session := get_session in
     let! _ := when (negb (has "time" session) && has "date" session)
       (let! time := lift_res (extract_time self text) in
        let time :=
          if negb (truthy_opt time) && Py.contains "9:00" (Py.lower text)
          then Some "9:00 AM" else time in
        if truthy_opt time
        then let! _ := _check_and_set_time self (show_opt time) in sret tt
        else sret tt) in
     let! session := get_session in
     when (negb (has "name" session) && String.eqb (state session) "gathering_name")
       (let name_words := name_words_of text in
        if negb (Nat.eqb (length name_words) 0) && Nat.leb (length name_words) 3
        then modify (set_data "name" (VStr (Py.title (Py.join " " name_words))))
        else sret tt)) in
  let! session := get_session in
  let! _ := when (negb (has "service" session))
    (match find (fun service => matches_input service text)
                (services (business_config self)) with
     | Some service => modify (set_data "service" (VStr (s_name service)))
     | None => sret tt
     end) in
  let! session := get_session in
  let! _ := when (negb (has "date" session))
    (let! date := lift (extract_date text) in
     if truthy_opt date
     then
       let! _ := modify (set_data "date" (VStr (show_opt date))) in
       let! session := get_session in
       if has "preferred_time" session
       then let! _ := _check_and_set_time self
                        (str_of_val (get_data "preferred_time" session)) in
            sret tt
       else sret tt
     else sret tt) in
  let! session := get_session in
  let! _ :=
    if negb (has "time" session) && has "date" session
    then
      let! time := lift_res (extract_time self text) in
      if truthy_opt time
      then let! _ := _check_and_set_time self (show_opt time) in sret tt
      else sret tt
    else if negb (has "time" session) && negb (has "date" session)
    then
      let! time := lift_res (extract_time self text) in
      if truthy_opt time
      then modify (set_data "preferred_time" (VStr (show_opt time)))
      else sret tt
    else sret tt in
  let! session := get_session in
  when (negb (has "phone" session))
    (match Re.search false phone_regex text with
     | Some phone_match =>
         modify (set_data "phone" (VStr (Py.join "" (groups phone_match 3))))
     | None =>
         if has "from_number" session
         then modify (set_data "phone" (get_data "from_number" session))
         else sret tt
     end).

End App101Extract.

Module App101Booking.
Import Sys App101.
Local Open Scope prog_scope.

(** [is_booking_complete(session)] *)
Definition is_booking_complete (session : CallSession) : bool :=
  forallb (fun field => has field session) ["name"; "service"; "date"; "time"].

(** [customer_data[key]] *)
Definition item (session : CallSession) (key : string) : Res Val :=
  match customer_data session !! key with
  | Some v => Ok v
  | None => Raise "KeyError"
  end.

(** [customer_data.get(key, default)] *)
Definition get_default (session : CallSession) (key : string) (default : Val) : Val :=
  match customer_data session !! key with
  | Some v => v
  | None => default
  end.

Definition with_status (status' notes' google_event_id' : string) (a : Appointment)
  : Appointment :=
  mkAppointment (customer_name a) (phone_number a) (a_service a) (a_date a) (a_time a)
                notes' (a_call_sid a) google_event_id' (a_created_at a) status'.

(** The replies of [complete_booking] when the slot turns out taken. *)
Definition taken_at_check (time date : string) (conflict_details : option string)
           (alternatives : list string) : string :=
  match alternatives with
  | [] =>
      "I'm really sorry, but the " ++ time ++ " slot on " ++ date ++ " is "
        ++ show_opt conflict_details ++ ". "
        ++ "Unfortunately, we don't have any other times available that day. "
        ++ "Would you like to try a different day? Tomorrow perhaps?"
  | _ =>
      let alt_text := Py.join ", " (firstn 2 alternatives) in
      let alt_text :=
        if Nat.ltb 2 (length alternatives)
        then alt_text ++ ", or " ++ nth 2 alternatives "" else alt_text in
      "Oh no! I'm so sorry, but someone just booked the " ++ time ++ " slot on "
        ++ date ++ ". " ++ "That time is " ++ show_opt conflict_details ++ ". "
        ++ "However, I have these times available on the same day: " ++ alt_text ++ ". "
        ++ "Which one would work better for you?"
  end.
Definition taken_at_insert (time : string) (error_msg : option string)
           (alternatives : list string) : string :=
  match alternatives with
  | [] =>
      "I'm so sorry, but that time slot just got booked by someone else. "
        ++ "Would you like to try a different day?"
  | _ =>
      let alt_text := Py.join ", " (firstn 2 alternatives) in
      "Oh, I apologize! Someone just booked that " ++ time
        ++ " slot while we were talking. "
        ++ "The system shows it's " ++ show_opt error_msg ++ ". "
        ++ "But don't worry, I have " ++ alt_text
        ++ " still available. Which would you prefer?"
  end.

Definition confirmations (calendar_success : bool) (a : Appointment) : list string :=
  if calendar_success then
    ["Perfect! You're all set for your " ++ a_service a ++ " on " ++ a_date a ++ " at "
       ++ a_time a ++ ". " ++ "This time slot is now reserved exclusively for you!";
     "Wonderful! I've successfully booked your " ++ a_service a ++ " for " ++ a_date a
       ++ " at " ++ a_time a ++ ". " ++ "No one else can book this time - it's all yours!";
     "Excellent! Your appointment is confirmed for " ++ a_date a ++ " at " ++ a_time a
       ++ ". " ++ "I've blocked off this time slot just for you!"]
  else
    ["I've noted your appointment for " ++ a_service a ++ " on " ++ a_date a ++ " at "
       ++ a_time a ++ ". " ++ "We'll send you a confirmation shortly.";
     "Your " ++ a_service a ++ " request for " ++ a_date a ++ " at " ++ a_time a
       ++ " has been received. " ++ "Someone will call you back to confirm."].

(** The part of [complete_booking] after the calendar was dealt with:
    store the appointment and word the confirmation. *)
Definition store_and_confirm (session : CallSession) (calendar_success : bool)
           (appointment : Appointment) : Prog (Res string) :=
  let* _ := add_appointment appointment in
  let texts := confirmations calendar_success appointment in
  let* i := trigger (RandomChoice (length texts)) in
  let confirmation := nth i texts "" in
  let confirmation :=
    if String.eqb (emotion_state session) "pain"
    then confirmation ++ " I hope we can help you feel better soon!"
    else if String.eqb (emotion_state session) "anxiety"
    then confirmation ++ " Don't worry, we'll take great care of you!"
    else confirmation in
  Ret (Ok (confirmation ++ " Is there anything else I can help you with today?")).

(** The part of [complete_booking] from the construction of the
    appointment on. *)
Definition book (self : TwilioAIReceptionist) (session : CallSession)
           (date time : string) : Prog (Res string) :=
  match item session "name", item session "service",
        item session "date", item session "time" with
  | Ok name, Ok service, Ok date', Ok time' =>
      let* created := trigger DatetimeNow in
      let appointment :=
        mkAppointment (str_of_val name)
                      (str_of_val (get_default session "phone"
                                     (get_default session "from_number" (VStr ""))))
                      (str_of_val service) (str_of_val date') (str_of_val time')
                      "" (call_sid session) "" created "pending" in
      match calendar_manager self with
      | Some cm =>
          let* ' (success, event_id, error_msg) := create_appointment cm appointment in
          if success && App101Extract.truthy_opt event_id
          then store_and_confirm session true
                 (with_status "confirmed" (notes appointment) (show_opt event_id) appointment)
          else
            let* alternatives := find_next_available_slots cm date (Some time) 3 in
            if Py.contains "already booked"
                           (Py.lower (match error_msg with Some e => e | None => "" end))
            then Ret (Ok (taken_at_insert time error_msg alternatives))
            else store_and_confirm session false
                   (with_status "pending_manual"
                                ("Calendar sync failed: " ++ show_opt error_msg)
                                (google_event_id appointment) appointment)
      | None => store_and_confirm session false appointment
      end
  | _, _, _, _ => Ret (Raise "KeyError")
  end.

(** [complete_booking(session)] *)
Definition complete_booking (self : TwilioAIReceptionist) (session : CallSession)
  : Prog (Res string) :=
  match item session "date", item session "time" with
  | Ok date, Ok time =>
      let date := str_of_val date in
      let time := str_of_val time in
      match calendar_manager self with
      | Some cm =>
          let* ' (is_available, conflict_details) := check_availability cm date time None in
          if negb is_available
          then
            let* alternatives := find_next_available_slots cm date (Some time) 3 in
            Ret (Ok (taken_at_check time date conflict_details alternatives))
          else book self session date time
      | None => book self session date time
      end
  | _, _ => Ret (Raise "KeyError")
  end.

End App101Booking.

(* ===================================================================== *)
(** * [infobridge.py] *)
(* ===================================================================== *)

Module Infobridge.
Import Sys.
Local Open Scope prog_scope.

(** ** [class CircuitBreaker] *)

Inductive BreakerState : Type := closed | open | half_open.

Record CircuitBreaker : Type := mkBreaker {
  failure_threshold : Z;
  recovery_timeout : Z;
  success_threshold : Z;
  failure_count : Z;
  success_count : Z;
  last_failure_time : option Z;
  state : BreakerState
}.

(** [CircuitBreaker(failure_threshold, recovery_timeout, success_threshold)] *)
Definition new_breaker (failure_threshold recovery_timeout success_threshold : Z)
  : CircuitBreaker :=
  mkBreaker failure_threshold recovery_timeout success_threshold 0 0 None closed.

Definition is_state (s : BreakerState) (self : CircuitBreaker) : bool :=
  match s, state self with
  | closed, closed | open, open | half_open, half_open => true
  | _, _ => false
  end.

(** What the success branch of [call] does to the breaker. *)
Definition on_success (self : CircuitBreaker) : CircuitBreaker :=
  if is_state half_open self then
    let n := success_count self + 1 in
    if success_threshold self <=? n
    then mkBreaker (failure_threshold self) (recovery_timeout self) (success_threshold self)
                   0 n (last_failure_time self) closed
    else mkBreaker (failure_threshold self) (recovery_timeout self) (success_threshold self)
                   (failure_count self) n (last_failure_time self) (state self)
  else self.

(** What the [except] branch of [call] does to the breaker at time [t]. *)
Definition on_failure (t : Z) (self : CircuitBreaker) : CircuitBreaker :=
  let n := failure_count self + 1 in
  mkBreaker (failure_threshold self) (recovery_timeout self) (success_threshold self)
            n (success_count self) (Some t)
            (if failure_threshold self <=? n then open else state self).

(** [call(func)]: the breaker afterwards, and what the call returned or
    raised. *)
Definition call {R : Type} (self : CircuitBreaker) (func : Prog (Res R))
  : Prog (CircuitBreaker * Res R) :=
  let* gate :=
    (if is_state open self then
       let* t := trigger TimeTime in
       match last_failure_time self with
       | None => Ret (Raise "TypeError")
       | Some last =>
           if recovery_timeout self <? t - last
           then Ret (Ok (mkBreaker (failure_threshold self) (recovery_timeout self)
                                   (success_threshold self) (failure_count self) 0
                                   (last_failure_time self) half_open))
           else Ret (Raise "Circuit breaker is open")
       end
     else Ret (Ok self)) in
  match gate with
  | Raise msg => Ret (self, Raise msg)
  | Ok self1 =>
      let* r := func in
      match r with
      | Ok result => Ret (on_success self1, Ok result)
      | Raise e =>
          let* t := trigger TimeTime in
          Ret (on_failure t self1, Raise e)
      end
  end.

(** ** Data classes *)

Record Appointment : Type := mkAppointment {
  customer_name : string;
  phone_number : string;
  service : string;
  date : string;
  time : string;
  notes : string;
  call_sid : string;
  google_event_id : string;
  created_at : Z
}.

(** ** [class GoogleCalendarManager] *)

Record CacheEntry : Type := mkEntry {
  available : bool;
  timestamp : Z
}.

(** [has_service] tells whether authentication produced a service
    object; [pytz_available] is the module flag [PYTZ_AVAILABLE];
    [utc_offset] is the offset of [timezone], in minutes. *)
Record GoogleCalendarManager : Type := mkManager {
  calendar_id : string;
  has_service : bool;
  timezone : string;
  utc_offset : Z;
  pytz_available : bool;
  owner_email : string;
  availability_cache : gmap string CacheEntry;
  cache_ttl : Z
}.

Definition set_cache (c : gmap string CacheEntry) (self : GoogleCalendarManager)
  : GoogleCalendarManager :=
  mkManager (calendar_id self) (has_service self) (timezone self) (utc_offset self)
            (pytz_available self) (owner_email self) c (cache_ttl self).

(** The size of a page of [events().list] when [maxResults] is not given. *)
Definition default_max_results : nat := 250.

(** [_check_availability_internal(date_str, time_str)] *)
Definition _check_availability_internal (self : GoogleCalendarManager)
           (date_str time_str : string) : Prog bool :=
  if negb (has_service self) then Ret true
  else
    let* r :=
      (match Cal.strptime (date_str ++ " " ++ time_str) with
       | None => Ret (Raise "ValueError")
       | Some fields =>
           let* n1 := trigger DatetimeNow in
           let current_year := Cal.year_of n1 in
           let appointment_date := Cal.at_year current_year fields in
           let* n2 := trigger DatetimeNow in
           let today := Cal.date_of n2 in
           let appointment_date :=
             if Cal.date_of appointment_date <? today
             then Cal.at_year (current_year + 1) fields else appointment_date in
           let time_min :=
             if pytz_available self then appointment_date - utc_offset self
             else appointment_date in
           let time_max := time_min + 60 in
           let? items := trigger (EventsList time_min time_max default_max_results) in
           Ret (Ok (Nat.eqb (length items) 0))
       end) in
    match r with
    | Ok v => Ret v
    | Raise _ => Ret true
    end.

Definition cache_key (date_str time_str : string) : string :=
  date_str ++ ":" ++ time_str.

(** [check_availability(date_str, time_str)] *)
Definition check_availability (self : GoogleCalendarManager) (date_str time_str : string)
  : Prog bool :=
  match availability_cache self !! cache_key date_str time_str with
  | Some cached =>
      let* t := trigger TimeTime in
      if t - timestamp cached <? cache_ttl self then Ret (available cached)
      else _check_availability_internal self date_str time_str
  | None => _check_availability_internal self date_str time_str
  end.

(** One pass of the loop of [_refresh_availability_cache] over the slots
    [available_times] of the next seven days. *)
Fixpoint refresh_slots (self : GoogleCalendarManager) (keys : list (string * string))
  : Prog GoogleCalendarManager :=
  match keys with
  | [] => Ret self
  | (date_str, time_slot) :: rest =>
      let* a := _check_availability_internal self date_str time_slot in
      let* t := trigger TimeTime in
      refresh_slots
        (set_cache (<[cache_key date_str time_slot := mkEntry a t]> (availability_cache self))
                   self)
        rest
  end.
Definition _refresh_availability_cache (self : GoogleCalendarManager)
           (available_times : list string) : Prog GoogleCalendarManager :=
  if has_service self then
    let* today := trigger DatetimeNow in
    refresh_slots self
      (flat_map (fun days_ahead =>
                   map (fun time_slot =>
                          (Cal.strftime_date (today + Z.of_nat days_ahead * 1440), time_slot))
                       available_times)
                (seq 0 7))
  else Ret self.

(** [create_appointment(appointment)]: the id of the event, or [None]. *)
Definition create_appointment (self : GoogleCalendarManager) (appointment : Appointment)
  : Prog (option string) :=
  if negb (has_service self) then Ret None
  else
    let* r :=
      (match Cal.strptime (date appointment ++ " " ++ time appointment) with
       | None => Ret (Raise "ValueError")
       | Some fields =>
           (* the year parsed is always 1900 *)
           let* n1 := trigger DatetimeNow in
           let appointment_datetime := Cal.at_year (Cal.year_of n1) fields in
           let* n2 := trigger DatetimeNow in
           let* appointment_datetime :=
             (if appointment_datetime <? n2
              then let* n3 := trigger DatetimeNow in
                   Ret (Cal.at_year (Cal.year_of n3 + 1) fields)
              else Ret appointment_datetime) in
           let duration_minutes := 60 in
           let event :=
             mkBody (service appointment ++ " - " ++ customer_name appointment)
                    (appointment_datetime - utc_offset self)
                    (appointment_datetime + duration_minutes - utc_offset self) in
           let? event_result := trigger (EventsInsert event) in
           Ret (Ok (Some (ev_id event_result)))
       end) in
    match r with
    | Ok v => Ret v
    | Raise _ => Ret None
    end.

End Infobridge.

Module InfobridgeExtract.
Import Sys.
Local Open Scope prog_scope.

(** A session; the fields the extractor never touches (audio queue,
    caller profile, counters of the dialogue) are left out. *)
Record CallSession : Type := mkCallSession {
  call_sid : string;
  state : string;
  customer_data : gmap string Val;
  attempts : Z
}.

Record Service : Type := mkService {
  s_name : string;
  price : Q;
  duration : Z;
  description : string;
  keywords : list string;
  priority : Z
}.

Record BusinessConfig : Type := mkConfig {
  bc_name : string;
  services : list Service;
  hours : gmap string string;
  max_advance_booking_days : nat;
  available_times : list string
}.

Definition default_services : list Service :=
  [mkService "Consultation" 150 60 "Professional consultation service"
             ["consultation"; "consult"; "checkup"; "check-up"; "exam"; "examination"] 1;
   mkService "Full Service" 300 120 "Complete service package"
             ["full"; "complete"; "comprehensive"; "deep cleaning"; "full service"] 2;
   mkService "Quick Assessment" 75 30 "Brief evaluation service"
             ["quick"; "emergency"; "urgent"; "pain"; "hurt"; "ache"; "assessment"] 0].

Definition default_hours : gmap string string :=
  list_to_map
    [("monday", "8:00 AM - 5:00 PM"); ("tuesday", "8:00 AM - 5:00 PM");
     ("wednesday", "8:00 AM - 5:00 PM"); ("thursday", "8:00 AM - 5:00 PM");
     ("friday", "8:00 AM - 5:00 PM"); ("saturday", "10:00 AM - 2:00 PM");
     ("sunday", "Closed")].

Definition default_times : list string :=
  ["8:00 AM"; "8:30 AM"; "9:00 AM"; "9:30 AM"; "10:00 AM"; "10:30 AM";
   "11:00 AM"; "11:30 AM"; "12:00 PM"; "1:00 PM"; "1:30 PM"; "2:00 PM";
   "2:30 PM"; "3:00 PM"; "3:30 PM"; "4:00 PM"; "4:30 PM"].

Definition default_config : BusinessConfig :=
  mkConfig "Bright Smile Dental" default_services default_hours 30 default_times.

Record TwilioAIReceptionist : Type := mkReceptionist {
  business_config : BusinessConfig;
  google_calendar : option Infobridge.GoogleCalendarManager
}.

Definition set_data (key : string) (v : Val) (session : CallSession) : CallSession :=
  mkCallSession (call_sid session) (state session)
                (<[key := v]> (customer_data session)) (attempts session).
Definition get_data (key : string) (session : CallSession) : Val :=
  match customer_data session !! key with
  | Some v => v
  | None => VNone
  end.
Definition has (key : string) (session : CallSession) : bool :=
  App101.truthy_val (get_data key session).

Definition az : Re.regex := Re.range "a" "z".
Definition d12 : Re.regex := Re.Cat Re.digit (Re.Opt Re.digit).
Definition d2 : Re.regex := Re.Cat Re.digit Re.digit.
Definition d3 : Re.regex := Re.Seq [Re.digit; Re.digit; Re.digit].
Definition d4 : Re.regex := Re.Seq [Re.digit; Re.digit; Re.digit; Re.digit].

(** One or more words of [[a-z]+], separated by [\s+], as one group. *)
Definition words_group : Re.regex :=
  Re.Group 1 (Re.Cat (Re.Plus az) (Re.Star (Re.Cat (Re.Plus Re.space) (Re.Plus az)))).

(** The name patterns of [extract_booking_info]. *)
Definition name_patterns : list Re.regex :=
  [Re.Seq [Re.Alt [Re.Lit "my name is"; Re.Lit "i'm"; Re.Lit "i am"; Re.Lit "this is";
                   Re.Lit "it's"];
           Re.Plus Re.space; words_group];
   Re.Seq [Re.Bol; words_group; Re.Opt (Re.Cat (Re.Plus Re.space) (Re.Lit "here")); Re.Eol]].

Definition non_names : list string :=
  ["yes"; "no"; "yeah"; "nope"; "sure"; "okay"; "ok"; "um"; "uh"].

(** The loop over the name patterns: the name to store, if any. *)
Fixpoint find_name (patterns : list Re.regex) (user_input_lower : string) : option string :=
  match patterns with
  | [] => None
  | pattern :: rest =>
      match Re.search false pattern user_input_lower with
      | Some mo =>
          let potential_name := App101Extract.strip_ws (Re.group_str mo 1) in
          if negb (Py.mem potential_name non_names)
             && Nat.ltb 1 (String.length potential_name)
             && Nat.leb (length (Py.split potential_name)) 4
          then Some (Py.title potential_name)
          else find_name rest user_input_lower
      | None => find_name rest user_input_lower
      end
  end.

(** The loop over the services and their keywords: the name stored last,
    if any. The loop goes on to the next service while the name stored
    is not a true value. *)
Fixpoint find_service (services : list Service) (user_input_lower : string)
         (stored : option string) : option string :=
  match services with
  | [] => stored
  | service :: rest =>
      let stored :=
        if existsb (fun keyword => Py.contains keyword user_input_lower)
                   (keywords service ++ [Py.lower (s_name service)])%list
        then Some (s_name service) else stored in
      if App101Extract.truthy_opt stored then stored
      else find_service rest user_input_lower stored
  end.

(** [_get_next_weekday(day_name)] *)
Definition _get_next_weekday (day_name : string) : Prog string :=
  let target_day :=
    match Py.index (Py.lower day_name) App101Extract.days with
    | Some i => Z.of_nat i
    | None => 0
    end in
  let* today := trigger DatetimeNow in
  let current_day := Cal.weekday (Cal.date_of today) in
  let days_ahead := target_day - current_day in
  let days_ahead := if days_ahead <=? 0 then days_ahead + 7 else days_ahead in
  Ret (Cal.strftime_date (today + days_ahead * 1440)).

Definition month_names : list string :=
  ["january"; "february"; "march"; "april"; "may"; "june";
   "july"; "august"; "september"; "october"; "november"; "december"].

(** [\b(\d{1,2})(?:st|nd|rd|th)?\b] *)
Definition day_regex : Re.regex :=
  Re.Seq [Re.WordB; Re.Group 1 d12;
          Re.Opt (Re.Alt [Re.Lit "st"; Re.Lit "nd"; Re.Lit "rd"; Re.Lit "th"]); Re.WordB].

(** The loop over the month names of [extract_date]. *)
Fixpoint find_month_day (months : list (Z * string)) (text : string) (today : Z)
  : option string :=
  match months with
  | [] => None
  | (i, month) :: rest =>
      if Py.contains month text then
        match Re.search false day_regex text with
        | Some day_match =>
            let day := Py.int_of (Re.group_str day_match 1) in
            if (1 <=? day) && (day <=? 31) then
              match Cal.datetime (Cal.year_of today) i day with
              | Some date =>
                  if date <? today then
                    match Cal.datetime (Cal.year_of today + 1) i day with
                    | Some date' => Some (Cal.strftime_date date')
                    | None => find_month_day rest text today
                    end
                  else Some (Cal.strftime_date date)
              | None => find_month_day rest text today
              end
            else find_month_day rest text today
        | None => find_month_day rest text today
        end
      else find_month_day rest text today
  end.

(** [extract_date(text)] *)
Definition extract_date (text : string) : Prog (option string) :=
  let* today := trigger DatetimeNow in
  if existsb (fun word => Py.contains word text) ["today"; "now"; "right now"; "immediately"]
  then Ret (Some (Cal.strftime_date today))
  else if Py.contains "tomorrow" text
  then Ret (Some (Cal.strftime_date (today + 1440)))
  else if Py.contains "day after tomorrow" text
  then Ret (Some (Cal.strftime_date (today + 2 * 1440)))
  else
    match find (fun day_name => Py.contains day_name text) App101Extract.days with
    | Some day_name =>
        let* d := _get_next_weekday day_name in Ret (Some d)
    | None =>
        if Py.contains "next week" text
        then Ret (Some (Cal.strftime_date (today + 7 * 1440)))
        else
          Ret (find_month_day
                 (combine (map Z.of_nat (seq 1 12)) month_names) text today)
    end.

(** The time patterns of [extract_time], matched without regard to case,
    with their numbers of groups. *)
Definition time_patterns : list (Re.regex * nat) :=
  let dot := Re.Opt (Re.Lit ".") in
  [(Re.Seq [Re.WordB; Re.Group 1 d12; Re.Star Re.space;
            Re.Opt (Re.Alt [Re.Lit ":"; Re.Lit "."]);
            Re.Opt (Re.Group 2 d2); Re.Star Re.space;
            Re.Group 3 (Re.Alt [Re.Seq [Re.Lit "a"; dot; Re.Lit "m"; dot];
                                Re.Seq [Re.Lit "p"; dot; Re.Lit "m"; dot];
                                Re.Lit "am"; Re.Lit "pm"]);
            Re.WordB], 3%nat);
   (Re.Seq [Re.WordB; Re.Group 1 d12; Re.Star Re.space;
            Re.Opt (Re.Group 2 (Re.Seq [Re.Lit "o"; Re.Opt (Re.Lit "'"); Re.Lit "clock"]));
            Re.Star Re.space;
            Re.Opt (Re.Group 3 (Re.Cat (Re.Lit "in the") (Re.Plus Re.space)));
            Re.Group 4 (Re.Alt [Re.Lit "morning"; Re.Lit "afternoon"; Re.Lit "evening"]);
            Re.WordB], 4%nat);
   (Re.Seq [Re.WordB;
            Re.Group 1 (Re.Alt [Re.Lit "noon"; Re.Lit "midday"; Re.Lit "midnight"]);
            Re.WordB], 1%nat)].

(** [m.groups()]: [None] for a group that took no part. *)
Definition groups (mo : Re.match_obj) (n : nat) : list (option string) :=
  map (fun i => Re.group mo i) (seq 1 n).

(** [int(s)] on a captured string: [None] where it raises [ValueError]. *)
Definition int_opt (s : string) : option Z :=
  match Py.chars s with
  | [] => None
  | l => if forallb Py.is_digit l then Some (Py.int_of s) else None
  end.

Definition truthy_o (o : option string) : bool := App101Extract.truthy_opt o.

(** [_parse_time_match(match, text)] *)
Definition _parse_time_match (groups : list (option string)) (text : string)
  : option string :=
  if Py.contains "noon" text || Py.contains "midday" text then Some "12:00 PM"
  else if Py.contains "midnight" text then Some "12:00 AM"
  else
    match nth_error groups 0 with
    | Some (Some g0) =>
        match int_opt g0 with
        | None => None
        | Some hour =>
            match nth_error groups 1 with
            | None => None                                  (* IndexError *)
            | Some g1 =>
                let minutes_r :=
                  if truthy_o g1 then int_opt (App101.show_opt g1) else Some 0 in
                match minutes_r with
                | None => None                              (* ValueError *)
                | Some minutes =>
                    let g2 := match nth_error groups 2 with Some g => g | None => None end in
                    let g3 := match nth_error groups 3 with Some g => g | None => None end in
                    let period :=
                      if Nat.ltb 2 (length groups) && truthy_o g2
                      then (if Py.contains "a" (Py.lower (App101.show_opt g2))
                            then "AM" else "PM")
                      else if Nat.ltb 3 (length groups) && truthy_o g3
                      then (if Py.contains "morning" (App101.show_opt g3) then "AM"
                            else if Py.contains "evening" (App101.show_opt g3)
                                    || Py.contains "afternoon" (App101.show_opt g3)
                            then "PM"
                            else if hour <? 8 then "PM" else "AM")
                      else if (1 <=? hour) && (hour <=? 7) then "PM" else "AM" in
                    if minutes =? 0
                    then Some (pretty hour ++ ":00 " ++ period)
                    else Some (pretty hour ++ ":" ++ Py.two_digits minutes ++ " " ++ period)
                end
            end
        end
    | _ => None                                             (* TypeError, IndexError *)
    end.

(** [s.split(':')[0]] and [s.split()[-1]] *)
Definition before_colon (s : string) : string :=
  let take := fix take (l : list ascii) : list ascii :=
    match l with
    | [] => []
    | c :: l' => if Py.eqb_c c ":" then [] else c :: take l'
    end in
  Py.str (take (Py.chars s)).
Definition last_word (s : string) : Res string :=
  match rev (Py.split s) with
  | w :: _ => Ok w
  | [] => Raise "IndexError"
  end.

(** 24-hour clock of an hour with its [AM]/[PM]. *)
Definition hour24 (hour : Z) (period : string) : Z :=
  if String.eqb period "PM" && negb (hour =? 12) then hour + 12
  else if String.eqb period "AM" && (hour =? 12) then 0
  else hour.

(** [int(s)] where a [ValueError] escapes. *)
Definition int_res (s : string) : Res Z :=
  match int_opt (App101Extract.strip_ws s) with
  | Some n => Ok n
  | None => Raise "ValueError"
  end.

(** The loop over the slots of one day of [get_first_available_time]. *)
Fixpoint first_slot (self : TwilioAIReceptionist) (today : Z) (days_ahead : nat)
         (date_str : string) (slots : list string) : Prog (Res (option (string * string))) :=
  match slots with
  | [] => Ret (Ok None)
  | time_slot :: rest =>
      let skip_r :=
        if Nat.eqb days_ahead 0 then
          match int_res (before_colon time_slot), last_word time_slot with
          | Ok slot_hour, Ok slot_period =>
              Ok (hour24 slot_hour slot_period <=? Cal.minute_of_day today / 60)
          | Raise e, _ => Raise e
          | _, Raise e => Raise e
          end
        else Ok false in
      match skip_r with
      | Raise e => Ret (Raise e)
      | Ok true => first_slot self today days_ahead date_str rest
      | Ok false =>
          match google_calendar self with
          | Some cal =>
              let* a := Infobridge.check_availability cal date_str time_slot in
              if a then Ret (Ok (Some (date_str, time_slot)))
              else first_slot self today days_ahead date_str rest
          | None => Ret (Ok (Some (date_str, time_slot)))
          end
      end
  end.

(** The loop over the days of [get_first_available_time]. *)
Fixpoint first_day (self : TwilioAIReceptionist) (today : Z) (days : list nat)
  : Prog (Res (option (string * string))) :=
  match days with
  | [] => Ret (Ok None)
  | days_ahead :: rest =>
      let check_date := today + Z.of_nat days_ahead * 1440 in
      let date_str := Cal.strftime_date check_date in
      let day_name :=
        Py.lower (nth (Z.to_nat (Cal.weekday (Cal.date_of check_date))) Cal.day_names "") in
      let opening :=
        match hours (business_config self) !! day_name with
        | Some h => h
        | None => "Closed"
        end in
      if String.eqb (Py.lower opening) "closed" then first_day self today rest
      else
        let* r := first_slot self today days_ahead date_str
                    (available_times (business_config self)) in
        match r with
        | Ok None => first_day self today rest
        | other => Ret other
        end
  end.

(** [get_first_available_time()]: the date and the time, or [None] for
    the text ["No availability found"]. *)
Definition get_first_available_time (self : TwilioAIReceptionist)
  : Prog (Res (option (string * string))) :=
  let* today := trigger DatetimeNow in
  first_day self today (seq 0 (max_advance_booking_days (business_config self))).

(** [l[0]] and [l[-1]] *)
Definition first_item (l : list string) : Res (option string) :=
  match l with
  | x :: _ => Ok (Some x)
  | [] => Raise "IndexError"
  end.
Definition last_item (l : list string) : Res (option string) :=
  match rev l with
  | x :: _ => Ok (Some x)
  | [] => Raise "IndexError"
  end.

Fixpoint first_pattern (patterns : list (Re.regex * nat)) (text : string)
  : option (list (option string)) :=
  match patterns with
  | [] => None
  | (pattern, n) :: rest =>
      match Re.search true pattern text with
      | Some mo => Some (groups mo n)
      | None => first_pattern rest text
      end
  end.

(** [extract_time(text)] *)
Definition extract_time (self : TwilioAIReceptionist) (text0 : string)
  : Prog (Res (option string)) :=
  let text := Py.replace "." "" text0 in
  match first_pattern time_patterns text with
  | Some gs => Ret (Ok (_parse_time_match gs text))
  | None =>
      let times := available_times (business_config self) in
      if Py.contains "earliest" text || Py.contains "first available" text then
        let? r1 := get_first_available_time self in
        match r1 with
        | Some _ =>
            let? r2 := get_first_available_time self in
            match r2 with
            | Some (_, t) => Ret (Ok (Some t))
            | None => Ret (Ok (Some "o"))       (* "No availability found"[1] *)
            end
        | None => Ret (first_item times)
        end
      else if Py.contains "latest" text || Py.contains "last available" text
      then Ret (last_item times)
      else if Py.contains "morning" text
      then Ret (Ok (find (fun time => Py.contains "AM" time) times))
      else if Py.contains "afternoon" text
      then Ret (Ok (find (fun time => Py.contains "PM" time
                                        && negb (Py.starts_with (Py.chars "12")
                                                                (Py.chars time)))
                         times))
      else Ret (Ok None)
  end.

(** [(\d{1,2}):?(\d{2})?\s*(AM|PM)] and [(\d{1,2}):(\d{2})\s*(AM|PM)] *)
Definition requested_regex : Re.regex :=
  Re.Seq [Re.Group 1 d12; Re.Opt (Re.Lit ":"); Re.Opt (Re.Group 2 d2); Re.Star Re.space;
          Re.Group 3 (Re.Alt [Re.Lit "AM"; Re.Lit "PM"])].
Definition slot_regex : Re.regex :=
  Re.Seq [Re.Group 1 d12; Re.Lit ":"; Re.Group 2 d2; Re.Star Re.space;
          Re.Group 3 (Re.Alt [Re.Lit "AM"; Re.Lit "PM"])].

(** The loop of [find_nearest_available_time]: the best slot so far with
    its distance, [None] standing for infinity. *)
Fixpoint nearest_loop (req_minutes : Z) (slots : list string) (best : option (string * Z))
  : option (string * Z) :=
  match slots with
  | [] => best
  | time_slot :: rest =>
      match Re.search false slot_regex time_slot with
      | Some slot_parts =>
          let slot_hour := Py.int_of (Re.group_str slot_parts 1) in
          let slot_min := Py.int_of (Re.group_str slot_parts 2) in
          let slot_minutes :=
            hour24 slot_hour (Re.group_str slot_parts 3) * 60 + slot_min in
          let diff := Z.abs (slot_minutes - req_minutes) in
          let better :=
            match best with
            | Some (_, min_diff) => diff <? min_diff
            | None => true
            end in
          nearest_loop req_minutes rest (if better then Some (time_slot, diff) else best)
      | None => nearest_loop req_minutes rest best
      end
  end.

(** [find_nearest_available_time(requested_time)] *)
Definition find_nearest_available_time (self : TwilioAIReceptionist)
           (requested_time : string) : option string :=
  match Re.search true requested_regex requested_time with
  | None => None
  | Some time_parts =>
      let req_hour := Py.int_of (Re.group_str time_parts 1) in
      let req_min :=
        if truthy_o (Re.group time_parts 2) then Py.int_of (Re.group_str time_parts 2)
        else 0 in
      let req_period := Py.upper (Re.group_str time_parts 3) in
      let req_minutes := hour24 req_hour req_period * 60 + req_min in
      match nearest_loop req_minutes (available_times (business_config self)) None with
      | Some (best_time, _) => Some best_time
      | None => None
      end
  end.

(** [(\d{3}[-.\s]?\d{3}[-.\s]?\d{4})] *)
Definition phone_regex : Re.regex :=
  let sep := Re.Opt (Re.Class (fun c => Re.one_of "-." c || Py.is_space c)) in
  Re.Group 1 (Re.Seq [d3; sep; d3; sep; d4]).

(** [re.sub(r'[^\d]', '', s)] *)
Definition digits_only (s : string) : string :=
  Py.str (List.filter Py.is_digit (Py.chars s)).

(** [extract_booking_info(session, user_input)] *)
Definition extract_booking_info (self : TwilioAIReceptionist) (user_input : string)
  : SM CallSession unit :=
  let user_input_lower := Py.lower user_input in
  let! session := get_session in
  let! _ := when (negb (has "name" session))
    (match find_name name_patterns user_input_lower with
     | Some name => modify (set_data "name" (VStr name))
     | None => sret tt
     end) in
  let! session := get_session in
  let! _ := when (negb (has "service" session))
    (match find_service (services (business_config self)) user_input_lower None with
     | Some name => modify (set_data "service" (VStr name))
     | None => sret tt
     end) in
  let! session := get_session in
  let! _ := when (negb (has "date" session))
    (let! date := lift (extract_date user_input_lower) in
     if truthy_o date then modify (set_data "date" (VStr (App101.show_opt date)))
     else sret tt) in
  let! session := get_session in
  let! _ := when (negb (has "time" session))
    (let! time := lift_res (extract_time self user_input_lower) in
     if truthy_o time then
       if Py.mem (App101.show_opt time) (available_times (business_config self))
       then modify (set_data "time" (VStr (App101.show_opt time)))
       else
         match find_nearest_available_time self (App101.show_opt time) with
         | Some nearest =>
             if Py.truthy nearest then modify (set_data "time" (VStr nearest)) else sret tt
         | None => sret tt
         end
     else sret tt) in
  match Re.search false phone_regex user_input with
  | Some phone_match =>
      modify (set_data "phone" (VStr (digits_only (Re.group_str phone_match 1))))
  | None => sret tt
  end.

End InfobridgeExtract.

(* ===================================================================== *)
(** * [infobridge.py]: looking up appointments *)
(* ===================================================================== *)

Module InfobridgeLookup.

(** [find_appointment_by_name(name)], on the list [self.appointments] *)
Definition find_appointment_by_name (appointments : list Infobridge.Appointment)
           (name : string) : list Infobridge.Appointment :=
  List.filter
    (fun apt =>
       Py.truthy (Infobridge.customer_name apt)
       && Py.contains (Py.lower name) (Py.lower (Infobridge.customer_name apt)))
    appointments.

(** [find_appointment_by_phone(phone)], on the list [self.appointments] *)
Definition find_appointment_by_phone (appointments : list Infobridge.Appointment)
           (phone : string) : list Infobridge.Appointment :=
  let phone_digits := InfobridgeExtract.digits_only phone in
  List.filter
    (fun apt =>
       let apt_phone_digits := InfobridgeExtract.digits_only (Infobridge.phone_number apt) in
       Py.contains phone_digits apt_phone_digits
       || Py.contains apt_phone_digits phone_digits)
    appointments.

End InfobridgeLookup.

(* ===================================================================== *)
(** * Vocabulary of the properties *)
(* ===================================================================== *)

Module Spec.
Import Sys.
Local Open Scope prog_scope.

(** A lock the thread may take now and that goes back to where it was
    when the thread lets go: a free lock, or a reentrant one it holds. *)
Definition enterable (me : nat) (l : LockSt) : Prop :=
  exists l', acquire me l = Some l' /\ release l' = l.

(** What [_parse_appointment_datetime] returns when the clock reads
    [now]. *)
Definition parse_at (now : Z) (date_str time_str : string) : Res Z :=
  match Cal.strptime (date_str ++ " " ++ time_str) with
  | None => Raise "ValueError"
  | Some fields =>
      let current_year := Cal.year_of now in
      let appointment_date := Cal.at_year current_year fields in
      if Cal.date_of appointment_date <? Cal.date_of now
      then Ok (Cal.at_year (current_year + 1) fields)
      else Ok appointment_date
  end.

Definition unable : string := "unable to verify availability due to system error".

(** What [check_availability] of [app101.py] answers in the world [w],
    and the backend it leaves. *)
Definition check_in (self : App101.GoogleCalendarManager) (w : World)
           (date_str time_str : string) (exclude_event_id : option string)
  : (bool * option string) * Backend :=
  if negb (App101.service self) then ((true, None), backend w)
  else
    match parse_at (now w) date_str time_str with
    | Raise _ => ((false, Some unable), backend w)
    | Ok naive =>
        let appointment_date := naive - App101.utc_offset self in
        let appointment_end :=
          naive + App101.appointment_duration self - App101.utc_offset self in
        let '(f, b) := next_fault (backend w) in
        if f then ((false, Some unable), b)
        else (App101.scan_events self exclude_event_id appointment_date appointment_end
                (list_events (appointment_date - App101.buffer_minutes)
                             (appointment_end + App101.buffer_minutes) 50 b), b)
    end.

(** ** Sample inputs *)

(** Monday 2 June 2025, 09:00 on the wall clock. *)
Definition monday_9am : Z := Cal.days_from_civil 2025 6 2 * 1440 + 9 * 60.

(** A world with the given calendar lock, events and coming faults; every
    other lock is a free [threading.Lock]. *)
Definition world0 (k : LockKind) (evs : list Event) (fs : list bool) : World :=
  mkWorld (new_lock k) (new_lock Lock) (new_lock Lock) (new_lock Lock)
          (mkBackend evs fs 0) monday_9am 0 [] [] ∅ 0 (fun _ => None).

(** The manager of [app101.py] with a service, in New York summer time. *)
Definition manager0 : App101.GoogleCalendarManager :=
  App101.mkManager "primary" true "America/New_York" (-240) 60.

Definition jane : Appointment :=
  mkAppointment "Jane" "5551234567" "Cleaning" "Friday, June 06" "10:00 AM"
                "" "CA1" "" monday_9am "pending".

(** 10:00 on Friday 6 June 2025 in New York, as an instant. *)
Definition friday_10am : Z := Cal.days_from_civil 2025 6 6 * 1440 + 10 * 60 + 240.

(** An event from [a] to [b] minutes after that instant. *)
Definition busy (id : string) (a b : Z) : Event :=
  mkEvent id (friday_10am + a) (friday_10am + b) true (Some "Booked").

(** The manager of [infobridge.py] with a service and the cache [c]. *)
Definition imanager0 (c : gmap string Infobridge.CacheEntry) : Infobridge.GoogleCalendarManager :=
  Infobridge.mkManager "primary" true "America/New_York" (-240) true "" c 300.



(** ** The overlap test *)

(** The four cases of the test, in words: the new start inside the
    existing event, the new end inside it, the new slot containing it, it
    containing the new slot. *)
Definition four_way (s e es ee : Z) : Prop :=
  (es <= s /\ s < ee) \/ (es < e /\ e <= ee) \/ (s <= es /\ ee <= e) \/ (es <= s /\ e <= ee).

(** The test after both intervals were widened by the buffer on each
    side. *)
Definition widened_overlap (s e es ee : Z) : bool :=
  App101.has_overlap (s - App101.buffer_minutes) (e + App101.buffer_minutes)
                     (es - App101.buffer_minutes) (ee + App101.buffer_minutes).

(** ** Alternative slots *)

(** Minutes after midnight of a slot of the grid, written [H:MM AM]. *)
Definition slot_minutes (t : string) : Z :=
  match Re.search false InfobridgeExtract.slot_regex t with
  | Some mo =>
      InfobridgeExtract.hour24 (Py.int_of (Re.group_str mo 1)) (Re.group_str mo 3) * 60
      + Py.int_of (Re.group_str mo 2)
  | None => 0
  end.

Definition distance (preferred t : string) : Z :=
  Z.abs (slot_minutes t - slot_minutes preferred).

(** [t1] comes before [t2]: it is nearer to the preferred time, or as
    near and later in the day. *)
Definition closer (preferred t1 t2 : string) : Prop :=
  distance preferred t1 < distance preferred t2
  \/ (distance preferred t1 = distance preferred t2 /\ slot_minutes t2 < slot_minutes t1).

Definition closerb (preferred t1 t2 : string) : bool :=
  (distance preferred t1 <? distance preferred t2)
  || ((distance preferred t1 =? distance preferred t2)
      && (slot_minutes t2 <? slot_minutes t1)).

Fixpoint sortedb (preferred : string) (l : list string) : bool :=
  match l with
  | [] => true
  | x :: l' => forallb (closerb preferred x) l' && sortedb preferred l'
  end.

(** What the collecting loop of [find_next_available_slots] returns in the
    world [w], and the world it leaves. *)
Fixpoint collect_in (self : App101.GoogleCalendarManager) (date_str : string) (count : Z)
         (slots : list string) (available_slots : list string) (w : World)
  : list string * World :=
  match slots with
  | [] => (available_slots, w)
  | time_slot :: rest =>
      if count <=? Z.of_nat (length available_slots) then (available_slots, w)
      else
        let c := check_in self w date_str time_slot None in
        collect_in self date_str count rest
          (if fst (fst c) then (available_slots ++ [time_slot])%list else available_slots)
          (set_backend (snd c) w)
  end.

(** Whether [check_availability] reports the slot free in the world [w]. *)
Definition free_in (self : App101.GoogleCalendarManager) (w : World) (date_str : string)
           (time_slot : string) : bool :=
  fst (fst (check_in self w date_str time_slot None)).

(** ** Sessions *)

(** A session in progress for the call [CA1]: name and service collected,
    one message exchanged. *)
Definition live_session : CallSession :=
  mkCallSession "CA1" "gathering_date"
                (<["service" := VStr "Cleaning"]>
                   (<["name" := VStr "Jane"]> {["from_number" := VStr "5551234567"]}))
                0 [mkMessage "user" "My name is Jane, I need a cleaning" monday_9am]
                "neutral" (1 # 2) "" monday_9am.

(** The world [world0] with the given sessions. *)
Definition with_sessions (m : gmap string CallSession) (w : World) : World :=
  set_call_sessions m w.

Definition receptionist0 : App101.TwilioAIReceptionist :=
  App101.mkReceptionist App101.default_config None false.

(** ** Circuit breakers *)

(** The world [w] when [time.time()] reads [t]. *)
Definition at_time (t : Z) (w : World) : World :=
  mkWorld (cal_lock w) (store_lock w) (session_lock w) (breaker_lock w) (backend w) (now w)
          t (appointments w) (appointments_file w) (call_sessions w) (rng w) (gemini w).

(** A protected operation that succeeds, or fails, at once. *)
Definition answers (ok : bool) : Prog (Res unit) :=
  Ret (if ok then Ok tt else Raise "timeout").

(** The gate of [CircuitBreaker.call] of [app101.py] at time [t]: the
    breaker the operation runs under, or the exception raised instead of
    running it. *)
Definition a_gate (t : Z) (self : App101.CircuitBreaker) : Res App101.CircuitBreaker :=
  if App101.is_open self then
    match App101.last_failure_time self with
    | None => Raise "TypeError"
    | Some last =>
        if App101.recovery_timeout self <? t - last
        then Ok (App101.mkBreaker (App101.failure_threshold self)
                                  (App101.recovery_timeout self) 0
                                  (App101.last_failure_time self) false)
        else Raise "Circuit breaker is open"
    end
  else Ok self.

Definition a_success (self : App101.CircuitBreaker) : App101.CircuitBreaker :=
  App101.mkBreaker (App101.failure_threshold self) (App101.recovery_timeout self) 0
                   (App101.last_failure_time self) (App101.is_open self).

Definition a_failure (t : Z) (self : App101.CircuitBreaker) : App101.CircuitBreaker :=
  App101.mkBreaker (App101.failure_threshold self) (App101.recovery_timeout self)
                   (App101.failure_count self + 1) (Some t)
                   (if App101.failure_threshold self <=? App101.failure_count self + 1
                    then true else App101.is_open self).

(** The gate of [CircuitBreaker.call] of [infobridge.py] at time [t]. *)
Definition i_gate (t : Z) (self : Infobridge.CircuitBreaker) : Res Infobridge.CircuitBreaker :=
  if Infobridge.is_state Infobridge.open self then
    match Infobridge.last_failure_time self with
    | None => Raise "TypeError"
    | Some last =>
        if Infobridge.recovery_timeout self <? t - last
        then Ok (Infobridge.mkBreaker
                   (Infobridge.failure_threshold self) (Infobridge.recovery_timeout self)
                   (Infobridge.success_threshold self) (Infobridge.failure_count self) 0
                   (Infobridge.last_failure_time self) Infobridge.half_open)
        else Raise "Circuit breaker is open"
    end
  else Ok self.

(** The breaker after a series of calls, each made at a given time with
    an operation that succeeds ([true]) or fails ([false]) at once. *)
Fixpoint a_calls (me : nat) (self : App101.CircuitBreaker) (script : list (Z * bool))
         (w : World) : App101.CircuitBreaker :=
  match script with
  | [] => self
  | (t, ok) :: rest =>
      match run me (App101.call self (answers ok)) (at_time t w) with
      | Done (self', _) w' => a_calls me self' rest w'
      | Blocked _ _ => self
      end
  end.
Fixpoint i_calls (me : nat) (self : Infobridge.CircuitBreaker) (script : list (Z * bool))
         (w : World) : Infobridge.CircuitBreaker :=
  match script with
  | [] => self
  | (t, ok) :: rest =>
      match run me (Infobridge.call self (answers ok)) (at_time t w) with
      | Done (self', _) w' => i_calls me self' rest w'
      | Blocked _ _ => self
      end
  end.

(** Calls that all fail, or all succeed, at the given times. *)
Definition failing (times : list Z) : list (Z * bool) := map (fun t => (t, false)) times.
Definition succeeding (times : list Z) : list (Z * bool) := map (fun t => (t, true)) times.

(** Breakers with a threshold of 2 and a timeout of 60: open since a
    failure at time 0. *)
Definition i_open : Infobridge.CircuitBreaker :=
  Infobridge.mkBreaker 2 60 2 2 0 (Some 0) Infobridge.open.
Definition i_half : Infobridge.CircuitBreaker :=
  Infobridge.mkBreaker 2 60 2 2 0 (Some 0) Infobridge.half_open.
Definition a_open : App101.CircuitBreaker :=
  App101.mkBreaker 2 60 2 (Some 0) true.

(** ** Completing a booking *)

(** What [find_next_available_slots] returns in the world [w], and the
    world it leaves. *)
Definition find_in (self : App101.GoogleCalendarManager) (date_str : string)
           (preferred_time : option string) (count : Z) (w : World) : list string * World :=
  if negb (App101.service self) then ([], w)
  else collect_in self date_str count (App101.ordered_slots preferred_time) [] w.

(** A receptionist with the calendar manager [manager0]. *)
Definition receptionist1 : App101.TwilioAIReceptionist :=
  App101.mkReceptionist App101.default_config (Some manager0) false.

(** A session with every field of a booking collected, for Friday at
    10:00 AM. *)
Definition ready_session : CallSession :=
  mkCallSession "CA1" "confirming"
                (list_to_map [("name", VStr "Jane"); ("service", VStr "Cleaning");
                              ("date", VStr "Friday, June 06"); ("time", VStr "10:00 AM");
                              ("phone", VStr "5551234567")])
                0 [] "neutral" (1 # 2) "" monday_9am.

(** The appointment [complete_booking] builds from a session at time [t]. *)
Definition appointment_of (session : CallSession) (t : Z) : Appointment :=
  mkAppointment (App101.str_of_val (App101.get_data "name" session))
                (App101.str_of_val
                   (App101Booking.get_default session "phone"
                      (App101Booking.get_default session "from_number" (VStr ""))))
                (App101.str_of_val (App101.get_data "service" session))
                (App101.str_of_val (App101.get_data "date" session))
                (App101.str_of_val (App101.get_data "time" session))
                "" (call_sid session) "" t "pending".

(** Effects on the calendar, its lock and the clock only. *)
Definition calendar_effect {X : Type} (e : Eff X) : Prop :=
  match e with
  | Acquire CalLock | Release CalLock | DatetimeNow | EventsList _ _ _ | EventsInsert _ => True
  | _ => False
  end.

(** Programs made of such effects. *)
Inductive calendar_only {A : Type} : Prog A -> Prop :=
| co_ret (a : A) : calendar_only (Ret a)
| co_vis (X : Type) (e : Eff X) (k : X -> Prog A) :
    calendar_effect e -> (forall x, calendar_only (k x)) -> calendar_only (Vis e k).

(** What such programs leave alone. *)
Definition same_store (w w' : World) : Prop :=
  appointments w' = appointments w
  /\ appointments_file w' = appointments_file w
  /\ call_sessions w' = call_sessions w
  /\ store_lock w' = store_lock w
  /\ now w' = now w.

(** ** Two callers at once *)

(** Two threads, numbered 1 and 2, and the world they share; one step of
    the pair is one atomic effect of either thread. *)
Inductive cstep {A B : Type} : Prog A * Prog B * World -> Prog A * Prog B * World -> Prop :=
| step_first (p1 p1' : Prog A) (p2 : Prog B) (w w' : World) :
    tstep 1 p1 w = Some (p1', w') -> cstep (p1, p2, w) (p1', p2, w')
| step_second (p1 : Prog A) (p2 p2' : Prog B) (w w' : World) :
    tstep 2 p2 w = Some (p2', w') -> cstep (p1, p2, w) (p1, p2', w').

(** What a thread has returned, if it has. *)
Definition returned {A : Type} (p : Prog A) : option A :=
  match p with
  | Ret a => Some a
  | Vis _ _ => None
  end.

(** A thread whose next effect is to take the calendar lock. *)
Definition wants_cal_lock {A : Type} (p : Prog A) : Prop :=
  match p with
  | Vis e _ => match e with Acquire CalLock => True | _ => False end
  | Ret _ => False
  end.

(** Where the interleavings of two threads can end: what each thread
    returned, [None] for a thread left waiting. *)
Fixpoint outcomes {A B : Type} (fuel : nat) (p1 : Prog A) (p2 : Prog B) (w : World)
  : list (option A * option B) :=
  match fuel with
  | O => []
  | S n =>
      match tstep 1 p1 w, tstep 2 p2 w with
      | None, None => [(returned p1, returned p2)]
      | s1, s2 =>
          (match s1 with Some (p1', w') => outcomes n p1' p2 w' | None => [] end)
            ++ (match s2 with Some (p2', w') => outcomes n p1 p2' w' | None => [] end)
      end
  end%list.

(** A second caller for the slot of [jane]. *)
Definition john : Appointment :=
  mkAppointment "John" "5557654321" "Consultation" "Friday, June 06" "10:00 AM"
                "" "CA2" "" monday_9am "pending".

(** ** Extraction *)

(** A session of [app101.py] as [handle_incoming_call] stores it and
    [process_user_input] finds it on the first turn: no field but the
    caller's number, state [gathering_name]. *)
Definition first_turn_session : CallSession :=
  mkCallSession "CA1" "gathering_name" {["from_number" := VStr "5551234567"]}
                0 [] "neutral" (1 # 2) "" monday_9am.

(** The session an extraction leaves, if it returns. *)
Definition session_after {S : Type} (o : Outcome (S * Res unit)) : option S :=
  match o with
  | Done (s, _) _ => Some s
  | Blocked _ _ => None
  end.

(** [extract_booking_info] of [app101.py], run once and run twice in a
    row on the same utterance. *)
Definition a_extract_once (self : App101.TwilioAIReceptionist) (text : string)
           (session : CallSession) (w : World) : option CallSession :=
  session_after (run 1 (App101Extract.extract_booking_info self text session) w).
Definition a_extract_twice (self : App101.TwilioAIReceptionist) (text : string)
           (session : CallSession) (w : World) : option CallSession :=
  match run 1 (App101Extract.extract_booking_info self text session) w with
  | Done (s, _) w' =>
      session_after (run 1 (App101Extract.extract_booking_info self text s) w')
  | Blocked _ _ => None
  end.

Definition ireceptionist0 : InfobridgeExtract.TwilioAIReceptionist :=
  InfobridgeExtract.mkReceptionist InfobridgeExtract.default_config None.

(** A session of [infobridge.py] whose phone number is filled. *)
Definition phoned_session : InfobridgeExtract.CallSession :=
  InfobridgeExtract.mkCallSession "CA1" "greeting" {["phone" := VStr "5551234567"]} 0.

(** The five fields of a booking, in the order name, phone, service,
    date, time. *)
Definition booking_fields (session : CallSession) : list Val :=
  map (fun key => App101.get_data key session) ["name"; "phone"; "service"; "date"; "time"].
Definition ibooking_fields (session : InfobridgeExtract.CallSession) : list Val :=
  map (fun key => InfobridgeExtract.get_data key session)
      ["name"; "phone"; "service"; "date"; "time"].

(** The five fields of a booking. *)
Definition fields : list string := ["name"; "phone"; "service"; "date"; "time"].

Section Keeps.
Context {S : Type} (data : S -> gmap string Val).

(** [s] holds under each of [keys] what [s0] holds. *)
Definition unchanged (keys : list string) (s0 s : S) : Prop :=
  forall key, In key keys -> data s !! key = data s0 !! key.

(** A block that, whenever it returns (with a value or an exception),
    leaves under [keys] what [s0] holds, if it found it so. *)
Definition keeps {A : Type} (keys : list string) (s0 : S) (m : SM S A) : Prop :=
  forall me s w sr w',
    unchanged keys s0 s -> run me (m s) w = Done sr w' -> unchanged keys s0 (fst sr).

End Keeps.

(** The keys a filled field protects: a filled time is protected along
    with the date. *)
Definition guard_keys (key : string) : list string :=
  if String.eqb key "time" then ["time"; "date"] else [key].

(** A session of [app101.py] whose name is filled. *)
Definition named_session : CallSession :=
  App101.set_data "name" (VStr "Jane Doe") first_turn_session.

(** ** Times in an utterance *)

(** One of the three time patterns of [extract_time] of [app101.py] is
    found in the lowered text. *)
Definition time_pattern_found (text : string) : Prop :=
  exists pattern n formatter mo,
    In (pattern, n, formatter) App101Extract.time_patterns
    /\ Re.search false pattern (Py.lower text) = Some mo.

(** No time and no preferred time collected yet. *)
Definition time_unset (s : CallSession) : Prop :=
  App101.has "time" s = false /\ App101.has "preferred_time" s = false.

(** A block that returns, with a value or raising [e], and a block that
    returns raising [e]; both leave a session for which [I] still holds. *)
Definition raises_or_keeps {A : Type} (e : string) (I : CallSession -> Prop)
           (m : SM CallSession A) : Prop :=
  forall me s w,
    I s ->
    exists s' r w',
      run me (m s) w = Done (s', r) w' /\ I s' /\ (r = Raise e \/ exists a, r = Ok a).
Definition raises {A : Type} (e : string) (I : CallSession -> Prop)
           (m : SM CallSession A) : Prop :=
  forall me s w, I s -> exists s' w', run me (m s) w = Done (s', Raise e) w' /\ I s'.

(** Whether two lists of slots hold the same slots the same number of
    times. *)
Definition same_slots (l1 l2 : list string) : bool :=
  forallb (fun x => Nat.eqb (count_occ string_dec l1 x) (count_occ string_dec l2 x))
          (l1 ++ l2)%list.

(** The number of calls of a series that fail. *)
Definition failures (script : list (Z * bool)) : Z :=
  Z.of_nat (length (List.filter (fun c => negb (snd c)) script)).

(** ** The nearest slot *)

(** Minutes after midnight of a requested time, as
    [find_nearest_available_time] reads it; whether a slot of the
    configuration is read by the loop. *)
Definition requested_minutes (requested_time : string) : option Z :=
  match Re.search true InfobridgeExtract.requested_regex requested_time with
  | None => None
  | Some time_parts =>
      let req_hour := Py.int_of (Re.group_str time_parts 1) in
      let req_min :=
        if InfobridgeExtract.truthy_o (Re.group time_parts 2)
        then Py.int_of (Re.group_str time_parts 2) else 0 in
      Some (InfobridgeExtract.hour24 req_hour (Py.upper (Re.group_str time_parts 3)) * 60
            + req_min)
  end.
Definition slot_parses (time_slot : string) : bool :=
  match Re.search false InfobridgeExtract.slot_regex time_slot with
  | Some _ => true
  | None => false
  end.

(** The best slot so far is the nearest of the slots seen that are read,
    the first of them when several are as near. *)
Definition nearest_of (req : Z) (seen : list string) (best : option (string * Z)) : Prop :=
  match best with
  | None => forall s, In s seen -> slot_parses s = false
  | Some (b, d) =>
      In b seen /\ slot_parses b = true /\ d = Z.abs (slot_minutes b - req)
      /\ forall s, In s seen -> slot_parses s = true -> d <= Z.abs (slot_minutes s - req)
  end.

(** ** The stored time *)

(** The time of [s] is the time of [s0], or a slot of [slots]. *)
Definition time_kept_or_offered (slots : list string)
           (s0 s : InfobridgeExtract.CallSession) : Prop :=
  InfobridgeExtract.customer_data s !! "time" = InfobridgeExtract.customer_data s0 !! "time"
  \/ exists t, InfobridgeExtract.customer_data s !! "time" = Some (VStr t) /\ In t slots.

(** ** Looking up appointments *)

(** A string without a decimal digit. *)
Definition no_digit (s : string) : Prop :=
  forall c, In c (Py.chars s) -> Py.is_digit c = false.

(** ** Replies *)


(** ** The first free slot *)

(** The business is closed on the day of [check_date], as
    [get_first_available_time] reads the configured hours. *)
Definition closed_on (self : InfobridgeExtract.TwilioAIReceptionist) (check_date : Z) : bool :=
  let day_name :=
    Py.lower (nth (Z.to_nat (Cal.weekday (Cal.date_of check_date))) Cal.day_names "") in
  String.eqb
    (Py.lower match InfobridgeExtract.hours (InfobridgeExtract.business_config self)
                    !! day_name with
              | Some h => h
              | None => "Closed"
              end)
    "closed".

(** The hour of [time_slot] on the 24-hour clock comes after the hour of
    [today]. *)
Definition later_hour (today : Z) (time_slot : string) : Prop :=
  exists slot_hour slot_period,
    InfobridgeExtract.int_res (InfobridgeExtract.before_colon time_slot) = Ok slot_hour
    /\ InfobridgeExtract.last_word time_slot = Ok slot_period
    /\ Cal.minute_of_day today / 60 < InfobridgeExtract.hour24 slot_hour slot_period.

(** [time_slot] on [date_str] is a configured slot of an open day at most
    [max_advance_booking_days - 1] days after [today], and of a later
    hour if the day is [today]. *)
Definition offered_from (self : InfobridgeExtract.TwilioAIReceptionist) (today : Z)
           (date_str time_slot : string) : Prop :=
  In time_slot (InfobridgeExtract.available_times (InfobridgeExtract.business_config self))
  /\ exists days_ahead : nat,
       (days_ahead < InfobridgeExtract.max_advance_booking_days
                       (InfobridgeExtract.business_config self))%nat
       /\ date_str = Cal.strftime_date (today + Z.of_nat days_ahead * 1440)
       /\ closed_on self (today + Z.of_nat days_ahead * 1440) = false
       /\ (days_ahead = 0%nat -> later_hour today time_slot).

End Spec.

(* ===================================================================== *)
(** * Properties *)
(* ===================================================================== *)

(** ** Running programs *)

Import Sys Spec.
Local Open Scope prog_scope.

Lemma run_bind {A B : Type} (me : nat) (p : Prog A) (f : A -> Prog B) (w : World) :
  run me (bind p f) w =
  match run me p w with
  | Done a w' => run me (f a) w'
  | Blocked l w' => Blocked l w'
  end.
Proof.
  revert w. induction p as [a | X e k IH]; intros w; simpl.
  - reflexivity.
  - destruct (handle me e w) as [[x w'] |]; [apply IH | reflexivity].
Qed.

Lemma free_enterable (me : nat) (k : LockKind) : enterable me (new_lock k).
Proof. exists (mkLock k (Some me) 1). split; [reflexivity | destruct k; reflexivity]. Qed.

Lemma set_lock_same (l : LockId) (w : World) : set_lock l (lock_of l w) w = w.
Proof. destruct w, l; reflexivity. Qed.

Lemma set_lock_twice (l : LockId) (s1 s2 : LockSt) (w : World) :
  set_lock l s2 (set_lock l s1 w) = set_lock l s2 w.
Proof. destruct l; reflexivity. Qed.

Lemma lock_of_set_lock (l : LockId) (s : LockSt) (w : World) :
  lock_of l (set_lock l s w) = s.
Proof. destruct l; reflexivity. Qed.

(** A body that keeps the lock as it found it runs between the acquire
    and the release, and the lock ends as it began. *)
Lemma run_with_lock {A : Type} (me : nat) (l : LockId) (body : Prog A) (w : World) l' :
  acquire me (lock_of l w) = Some l' ->
  run me (with_lock l body) w =
  match run me body (set_lock l l' w) with
  | Done a w1 => Done a (set_lock l (release (lock_of l w1)) w1)
  | Blocked x w1 => Blocked x w1
  end.
Proof.
  intros Hacq. unfold with_lock. simpl. rewrite Hacq. rewrite run_bind.
  destruct (run me body (set_lock l l' w)) as [a w1 | x w1]; reflexivity.
Qed.

Lemma run_with_lock_blocked {A : Type} (me : nat) (l : LockId) (body : Prog A) (w : World) :
  acquire me (lock_of l w) = None ->
  run me (with_lock l body) w = Blocked l w.
Proof. intros Hacq. unfold with_lock. simpl. rewrite Hacq. reflexivity. Qed.

Lemma set_backend_set_lock (l : LockId) (s : LockSt) (b : Backend) (w : World) :
  set_backend b (set_lock l s w) = set_lock l s (set_backend b w).
Proof. destruct l; reflexivity. Qed.

Lemma lock_of_set_backend (l : LockId) (b : Backend) (w : World) :
  lock_of l (set_backend b w) = lock_of l w.
Proof. destruct l; reflexivity. Qed.

Lemma set_backend_same (w : World) : set_backend (backend w) w = w.
Proof. destruct w; reflexivity. Qed.

Lemma set_backend_twice (b1 b2 : Backend) (w : World) :
  set_backend b2 (set_backend b1 w) = set_backend b2 w.
Proof. reflexivity. Qed.

Lemma backend_set_backend (b : Backend) (w : World) : backend (set_backend b w) = b.
Proof. reflexivity. Qed.

Lemma backend_set_lock (l : LockId) (s : LockSt) (w : World) :
  backend (set_lock l s w) = backend w.
Proof. destruct l; reflexivity. Qed.

Lemma now_set_lock (l : LockId) (s : LockSt) (w : World) : now (set_lock l s w) = now w.
Proof. destruct l; reflexivity. Qed.

(** ** The calendar manager of [app101.py] *)

Lemma run_parse (me : nat) (date_str time_str : string) (w : World) :
  run me (App101._parse_appointment_datetime date_str time_str) w
  = Done (parse_at (now w) date_str time_str) w.
Proof.
  unfold App101._parse_appointment_datetime, parse_at.
  destruct (Cal.strptime _) as [fields |]; simpl; [| reflexivity].
  destruct (_ <? _); reflexivity.
Qed.

(** With the lock within reach, [check_availability] returns, leaves the
    lock as it was, and answers what [check_in] says. *)
Lemma run_check (me : nat) (self : App101.GoogleCalendarManager) (w : World)
      (date_str time_str : string) (ex : option string) :
  enterable me (cal_lock w) ->
  run me (App101.check_availability self date_str time_str ex) w
  = Done (fst (check_in self w date_str time_str ex))
         (set_backend (snd (check_in self w date_str time_str ex)) w).
Proof.
  intros (l' & Hacq & Hrel).
  unfold App101.check_availability, check_in.
  destruct (App101.service self); cbn [negb].
  2: { cbn [run fst snd]. now rewrite set_backend_same. }
  rewrite run_bind.
  rewrite (run_with_lock me CalLock _ w l') by exact Hacq.
  rewrite run_bind, run_parse, now_set_lock.
  destruct (parse_at (now w) date_str time_str) as [naive | e].
  - cbn [run bind trigger handle]. rewrite backend_set_lock.
    destruct (next_fault (backend w)) as [f b] eqn:Hf.
    destruct f; cbn [run fst snd];
      rewrite set_backend_set_lock, lock_of_set_lock, set_lock_twice, Hrel;
      change (cal_lock w) with (lock_of CalLock (set_backend b w));
      rewrite set_lock_same; reflexivity.
  - cbn [run fst snd]. rewrite lock_of_set_lock, set_lock_twice, Hrel.
    change (cal_lock w) with (lock_of CalLock w).
    now rewrite set_lock_same, set_backend_same.
Qed.

(** With the lock held and not reentrant, [check_availability] never
    returns. *)
Lemma run_check_blocked (me : nat) (self : App101.GoogleCalendarManager) (w : World)
      (date_str time_str : string) (ex : option string) :
  App101.service self = true ->
  acquire me (cal_lock w) = None ->
  run me (App101.check_availability self date_str time_str ex) w = Blocked CalLock w.
Proof.
  intros Hs Hacq. unfold App101.check_availability. rewrite Hs. simpl negb. cbv iota.
  rewrite run_bind, run_with_lock_blocked by exact Hacq. reflexivity.
Qed.

Lemma events_next_fault (b : Backend) : events (snd (next_fault b)) = events b.
Proof. unfold next_fault. destruct (faults b); reflexivity. Qed.

Lemma check_in_events (self : App101.GoogleCalendarManager) (w : World)
      (date_str time_str : string) (ex : option string) :
  events (snd (check_in self w date_str time_str ex)) = events (backend w).
Proof.
  unfold check_in. destruct (App101.service self); cbn [negb snd]; [| reflexivity].
  destruct (parse_at _ _ _); [| reflexivity].
  pose proof (events_next_fault (backend w)) as H.
  destruct (next_fault (backend w)) as [f b]. cbn [snd] in H.
  destruct f; exact H.
Qed.

Lemma check_in_set_lock (self : App101.GoogleCalendarManager) (w : World) (l : LockId)
      (s : LockSt) (date_str time_str : string) (ex : option string) :
  check_in self (set_lock l s w) date_str time_str ex = check_in self w date_str time_str ex.
Proof. unfold check_in. now rewrite now_set_lock, backend_set_lock. Qed.

(** *** The lock of [create_appointment] *)

(** Holding a [threading.Lock], the thread cannot take it again. *)
Lemma acquire_held_lock (me o : nat) (d : nat) : acquire me (mkLock Lock (Some o) d) = None.
Proof. reflexivity. Qed.

Lemma acquire_free (me : nat) (l : LockSt) :
  owner l = None -> acquire me l = Some (mkLock (kind l) (Some me) 1).
Proof. intros H. unfold acquire. now rewrite H. Qed.

(** [create_appointment] under a free [threading.Lock]: the lock is
    taken, and the check inside waits for it. *)
Lemma run_create_blocked
      (me : nat) (self : App101.GoogleCalendarManager) (appointment : Appointment)
      (w : World) :
  App101.service self = true ->
  kind (cal_lock w) = Lock ->
  owner (cal_lock w) = None ->
  run me (App101.create_appointment self appointment) w
  = Blocked CalLock (set_lock CalLock (mkLock Lock (Some me) 1) w).
Proof.
  intros Hs Hk Ho. unfold App101.create_appointment. rewrite Hs. cbn [negb].
  rewrite run_bind.
  rewrite (run_with_lock me CalLock _ w (mkLock Lock (Some me) 1)).
  2: { change (lock_of CalLock w) with (cal_lock w). rewrite acquire_free, Hk; auto. }
  rewrite run_bind, run_check_blocked; auto.
Qed.

(** C3. With a calendar service configured and the manager's lock the
    [threading.Lock] its constructor creates, [create_appointment] takes
    the lock, calls [check_availability], which waits for the same lock,
    and never returns: nothing was listed and nothing inserted. *)
Theorem create_appointment_never_returns
        (me : nat) (self : App101.GoogleCalendarManager) (appointment : Appointment)
        (w : World) :
  App101.service self = true ->
  kind (cal_lock w) = Lock ->
  owner (cal_lock w) = None ->
  run me (App101.create_appointment self appointment) w
  = Blocked CalLock (set_lock CalLock (mkLock Lock (Some me) 1) w).
Proof.
  intros Hs Hk Ho. unfold App101.create_appointment. rewrite Hs. cbn [negb].
  rewrite run_bind.
  rewrite (run_with_lock me CalLock _ w (mkLock Lock (Some me) 1)).
  2: { change (lock_of CalLock w) with (cal_lock w). rewrite acquire_free, Hk; auto. }
  rewrite run_bind, run_check_blocked; auto.
Qed.

Lemma create_appointment_never_returns_witness :
  run 1 (App101.create_appointment manager0 jane) (world0 Lock [] [])
  = Blocked CalLock (set_lock CalLock (mkLock Lock (Some 1%nat) 1) (world0 Lock [] [])).
Proof. apply create_appointment_never_returns; reflexivity. Defined.

(** Had the lock been a [threading.RLock], the same call would return:
    here it books the free slot. *)
Example create_appointment_returns_with_RLock :
  exists w',
    run 1 (App101.create_appointment manager0 jane) (world0 RLock [] [])
    = Done (true, Some "evt0", None) w'
    /\ map ev_start (events (backend w')) = [friday_10am].
Proof. eexists. split; vm_compute; reflexivity. Qed.

Lemma enterable_held_rlock (me : nat) :
  enterable me (mkLock RLock (Some me) 1).
Proof.
  exists (mkLock RLock (Some me) 2). split; [| reflexivity].
  unfold acquire. cbn. now rewrite Nat.eqb_refl.
Qed.

(** What [create_appointment] does to the calendar, whatever the kind of
    its lock: it leaves the events alone, or it adds one event after a
    check against the calendar that answered available. *)
Lemma create_appointment_guarded
      (me : nat) (self : App101.GoogleCalendarManager) (appointment : Appointment)
      (w : World) (k : LockKind) :
  cal_lock w = new_lock k ->
  match run me (App101.create_appointment self appointment) w with
  | Blocked _ w' => events (backend w') = events (backend w)
  | Done r w' =>
      events (backend w') = events (backend w)
      \/ (fst (fst (check_in self w (a_date appointment) (a_time appointment) None)) = true
          /\ exists ev,
               events (backend w') = (events (backend w) ++ [ev])%list
               /\ r = (true, Some (ev_id ev), None))
  end.
Proof.
  intros Hl. destruct (App101.service self) eqn:Hs.
  2: { unfold App101.create_appointment. rewrite Hs. cbn. now left. }
  destruct k.
  { rewrite run_create_blocked by (rewrite ?Hl; auto).
    now rewrite backend_set_lock. }
  unfold App101.create_appointment. rewrite Hs. cbn [negb].
  rewrite run_bind.
  rewrite (run_with_lock me CalLock _ w (mkLock RLock (Some me) 1)).
  2: { change (lock_of CalLock w) with (cal_lock w). now rewrite Hl. }
  rewrite run_bind, run_check.
  2: { change (cal_lock (set_lock CalLock ?s w)) with s. apply enterable_held_rlock. }
  rewrite check_in_set_lock.
  pose proof (check_in_events self w (a_date appointment) (a_time appointment) None) as Hev.
  destruct (check_in self w (a_date appointment) (a_time appointment) None)
    as [[ok details] b1] eqn:Hc.
  cbn [fst snd] in *. destruct ok; cbn [negb].
  2: { cbn [run]. left. rewrite backend_set_lock. exact Hev. }
  rewrite run_bind, run_parse.
  destruct (parse_at _ _ _) as [naive | e].
  2: { cbn [run]. left. rewrite backend_set_lock. exact Hev. }
  cbn [run bind trigger handle].
  rewrite backend_set_backend.
  pose proof (events_next_fault b1) as Hf.
  destruct (next_fault b1) as [f b2]. cbn [snd] in Hf.
  destruct f.
  { cbn [run]. left. rewrite backend_set_lock. cbn. congruence. }
  rewrite run_bind, run_check.
  2: { change (cal_lock (set_backend ?b (set_backend ?b' (set_lock CalLock ?s w)))) with s.
       apply enterable_held_rlock. }
  cbn [run]. right. split; [reflexivity |].
  eexists. split; [| reflexivity].
  rewrite backend_set_lock, backend_set_backend, check_in_events.
  cbn. congruence.
Qed.

(** ** The calendar manager of [infobridge.py] *)







(** ** The availability check of [app101.py] *)

Lemma has_overlap_four_way (s e es ee : Z) :
  App101.has_overlap s e es ee = true <-> four_way s e es ee.
Proof. unfold App101.has_overlap, four_way. lia. Qed.

(** With a slot of positive length and an event that does not end before
    it starts, the test is the intersection of the two half-open
    intervals, plus the events of no length that sit on the slot or on its
    ends. *)
Lemma has_overlap_intersection (s e es ee : Z) :
  s < e -> es <= ee ->
  (App101.has_overlap s e es ee = true
   <-> (s < ee /\ es < e) \/ (es = ee /\ s <= es /\ es <= e)).
Proof. intros H H'. rewrite has_overlap_four_way. unfold four_way. lia. Qed.

Lemma scan_events_conflict (self : App101.GoogleCalendarManager) (ex : option string)
      (s e : Z) (items : list Event) :
  fst (App101.scan_events self ex s e items) = false
  <-> exists ev, In ev items /\ App101.excluded ex ev = false /\ ev_timed ev = true
                 /\ App101.has_overlap s e (ev_start ev) (ev_end ev) = true.
Proof.
  induction items as [| ev items IH]; cbn [App101.scan_events].
  - split; [discriminate | intros (ev & [] & _)].
  - destruct (App101.excluded ex ev) eqn:Hx.
    { rewrite IH. split; intros (ev' & Hin & H).
      - exists ev'. split; [now right | exact H].
      - destruct Hin as [-> | Hin]; [destruct H; congruence | eauto]. }
    destruct (ev_timed ev) eqn:Ht; cbn [andb].
    2: { rewrite IH. split; intros (ev' & Hin & H).
         - exists ev'. split; [now right | exact H].
         - destruct Hin as [-> | Hin]; [destruct H as (_ & ? & _); congruence | eauto]. }
    destruct (App101.has_overlap s e (ev_start ev) (ev_end ev)) eqn:Ho; cbn [fst].
    + split; [intros _ | reflexivity]. exists ev. auto using in_eq.
    + rewrite IH. split; intros (ev' & Hin & H).
      * exists ev'. split; [now right | exact H].
      * destruct Hin as [-> | Hin]; [destruct H as (_ & _ & ?); congruence | eauto].
Qed.

(** C5, as stated, fails: an event from 9:00 to 10:00 and a request for
    10:00 to 11:00 overlap once both are widened by 15 minutes, and the
    event is among those listed, yet [check_availability] reports the slot
    available. *)
Lemma buffer_not_applied_counterexample :
  let w := world0 Lock [busy "e1" (-60) 0] [] in
  run 1 (App101.check_availability manager0 "Friday, June 06" "10:00 AM" None) w
  = Done (true, None) w
  /\ list_events (friday_10am - 15) (friday_10am + 60 + 15) 50 (backend w)
     = [busy "e1" (-60) 0]
  /\ widened_overlap friday_10am (friday_10am + 60)
                     (ev_start (busy "e1" (-60) 0)) (ev_end (busy "e1" (-60) 0)) = true.
Proof. cbv zeta. repeat split; vm_compute; reflexivity. Qed.

(** C5, amended. With a service, the date parsed and the listing
    answered, [check_availability] reports a conflict exactly when one of
    the events listed for the window from 15 minutes before the slot to 15
    minutes after it is timed, not excluded, and passes the four-way test
    against the slot itself; neither interval is widened. *)
Theorem check_reports_raw_overlap
        (me : nat) (self : App101.GoogleCalendarManager) (w : World)
        (date_str time_str : string) (ex : option string) (naive : Z) (b : Backend) :
  App101.service self = true ->
  enterable me (cal_lock w) ->
  parse_at (now w) date_str time_str = Ok naive ->
  next_fault (backend w) = (false, b) ->
  let s := naive - App101.utc_offset self in
  let e := naive + App101.appointment_duration self - App101.utc_offset self in
  exists r,
    run me (App101.check_availability self date_str time_str ex) w = Done r (set_backend b w)
    /\ (fst r = false
        <-> exists ev,
              In ev (list_events (s - 15) (e + 15) 50 b)
              /\ App101.excluded ex ev = false /\ ev_timed ev = true
              /\ four_way s e (ev_start ev) (ev_end ev)).
Proof.
  intros Hs Hl Hp Hf s e. rewrite run_check by exact Hl.
  unfold check_in. rewrite Hs, Hp, Hf. cbn [negb fst snd].
  eexists. split; [reflexivity |].
  rewrite scan_events_conflict. fold s e.
  split; intros (ev & Hin & Hx & Ht & Ho); exists ev; repeat split; auto;
    now apply has_overlap_four_way.
Qed.

Lemma check_reports_raw_overlap_witness :
  exists r,
    run 1 (App101.check_availability manager0 "Friday, June 06" "10:00 AM" None)
        (world0 Lock [busy "e1" (-30) 30] [])
    = Done r (world0 Lock [busy "e1" (-30) 30] [])
    /\ (fst r = false
        <-> exists ev,
              In ev (list_events (friday_10am - 15) (friday_10am + 60 + 15) 50
                                 (mkBackend [busy "e1" (-30) 30] [] 0))
              /\ App101.excluded None ev = false /\ ev_timed ev = true
              /\ four_way friday_10am (friday_10am + 60) (ev_start ev) (ev_end ev)).
Proof.
  apply (check_reports_raw_overlap 1%nat manager0 (world0 Lock [busy "e1" (-30) 30] [])
           "Friday, June 06" "10:00 AM" None (friday_10am - 240)
           (mkBackend [busy "e1" (-30) 30] [] 0)).
  - reflexivity.
  - apply free_enterable.
  - vm_compute. reflexivity.
  - reflexivity.
Defined.

(** An event that passes the test lies in the window asked for, so
    while the window holds at most 50 events the conflict is with an event
    of the calendar itself. *)
Lemma in_insert_by_start (x e : Event) (l : list Event) :
  In x (insert_by_start e l) <-> x = e \/ In x l.
Proof.
  induction l as [| y l IH]; cbn [insert_by_start].
  - cbn. intuition.
  - destruct (ev_start e <? ev_start y); cbn [In]; [| rewrite IH]; intuition.
Qed.

Lemma in_sort_by_start (x : Event) (l : list Event) : In x (sort_by_start l) <-> In x l.
Proof.
  induction l as [| y l IH]; cbn [sort_by_start fold_right]; [reflexivity |].
  fold (sort_by_start l). rewrite in_insert_by_start, IH. cbn. intuition.
Qed.

Lemma length_insert_by_start (e : Event) (l : list Event) :
  length (insert_by_start e l) = S (length l).
Proof.
  induction l as [| y l IH]; cbn [insert_by_start]; [reflexivity |].
  destruct (_ <? _); cbn [length]; [reflexivity | now rewrite IH].
Qed.

Lemma length_sort_by_start (l : list Event) : length (sort_by_start l) = length l.
Proof.
  induction l as [| y l IH]; cbn [sort_by_start fold_right]; [reflexivity |].
  fold (sort_by_start l). rewrite length_insert_by_start. cbn. now rewrite IH.
Qed.

Lemma check_conflict_with_calendar
      (me : nat) (self : App101.GoogleCalendarManager) (w : World)
      (date_str time_str : string) (ex : option string) (naive : Z) (b : Backend) :
  App101.service self = true ->
  enterable me (cal_lock w) ->
  parse_at (now w) date_str time_str = Ok naive ->
  next_fault (backend w) = (false, b) ->
  0 <= App101.appointment_duration self ->
  Forall (fun ev => ev_start ev <= ev_end ev) (events b) ->
  let s := naive - App101.utc_offset self in
  let e := naive + App101.appointment_duration self - App101.utc_offset self in
  (length (List.filter (in_window (s - 15) (e + 15)) (events b)) <= 50)%nat ->
  exists r,
    run me (App101.check_availability self date_str time_str ex) w = Done r (set_backend b w)
    /\ (fst r = false
        <-> exists ev,
              In ev (events b)
              /\ App101.excluded ex ev = false /\ ev_timed ev = true
              /\ four_way s e (ev_start ev) (ev_end ev)).
Proof.
  intros Hs Hl Hp Hf Hd Hwf s e Hn. rewrite run_check by exact Hl.
  unfold check_in. rewrite Hs, Hp, Hf. cbn [negb fst snd].
  eexists. split; [reflexivity |].
  rewrite scan_events_conflict. fold s e.
  assert (Hlist : forall ev, In ev (list_events (s - 15) (e + 15) 50 b)
                             <-> In ev (events b) /\ in_window (s - 15) (e + 15) ev = true).
  { intros ev. unfold list_events. rewrite firstn_all2.
    - rewrite in_sort_by_start. apply filter_In.
    - now rewrite length_sort_by_start. }
  split; intros (ev & Hin & Hx & Ht & Ho); exists ev; repeat split; auto.
  - now apply Hlist in Hin.
  - now apply has_overlap_four_way.
  - apply Hlist. split; [exact Hin |].
    rewrite List.Forall_forall in Hwf. specialize (Hwf ev Hin).
    unfold in_window, four_way in *. subst s e. lia.
  - now apply has_overlap_four_way.
Qed.

(** ** The availability check when the backend raises *)

(** C6, as stated, fails on [app101.py]: when the listing raises,
    [check_availability] reports the slot unavailable. *)
Lemma check_fails_closed_counterexample :
  run 1 (App101.check_availability manager0 "Friday, June 06" "10:00 AM" None)
      (world0 Lock [] [true])
  = Done (false, Some "unable to verify availability due to system error")
         (world0 Lock [] []).
Proof. vm_compute. reflexivity. Qed.

Lemma infobridge_internal_fails_open
      (me : nat) (self : Infobridge.GoogleCalendarManager) (date_str time_str : string)
      (w : World) (b : Backend) :
  next_fault (backend w) = (true, b) ->
  exists w', run me (Infobridge._check_availability_internal self date_str time_str) w
             = Done true w'.
Proof.
  intros Hf. unfold Infobridge._check_availability_internal.
  destruct (Infobridge.has_service self); cbn [negb]; [| eexists; reflexivity].
  destruct (Cal.strptime _) as [fields |]; [| eexists; reflexivity].
  cbn [run bind trigger handle]. rewrite Hf. cbn [run]. eexists. reflexivity.
Qed.

(** C6, amended. When the listing raises, the check of [infobridge.py]
    ([_check_availability_internal], and [check_availability] where no
    cache entry younger than [cache_ttl] answers) reports the slot
    available, and the check of [app101.py] reports it unavailable, with
    the reason that availability could not be verified. *)
Theorem check_when_backend_raises :
  (forall (me : nat) (self : Infobridge.GoogleCalendarManager) (date_str time_str : string)
          (w : World) (b : Backend),
      next_fault (backend w) = (true, b) ->
      (exists w', run me (Infobridge._check_availability_internal self date_str time_str) w
                  = Done true w')
      /\ ((forall cached,
              Infobridge.availability_cache self !! Infobridge.cache_key date_str time_str
              = Some cached ->
              Infobridge.cache_ttl self <= unix_time w - Infobridge.timestamp cached) ->
          exists w', run me (Infobridge.check_availability self date_str time_str) w
                     = Done true w'))
  /\ (forall (me : nat) (self : App101.GoogleCalendarManager) (date_str time_str : string)
             (ex : option string) (w : World) (b : Backend),
         App101.service self = true ->
         enterable me (cal_lock w) ->
         next_fault (backend w) = (true, b) ->
         exists w', run me (App101.check_availability self date_str time_str ex) w
                    = Done (false, Some unable) w').
Proof.
  split.
  - intros me self date_str time_str w b Hf. split.
    + now apply infobridge_internal_fails_open with (b := b).
    + intros Hstale. unfold Infobridge.check_availability.
      destruct (Infobridge.availability_cache self !! _) as [cached |] eqn:Hc.
      * cbn [run bind trigger handle]. specialize (Hstale cached eq_refl).
        destruct (Z.ltb_spec (unix_time w - Infobridge.timestamp cached)
                             (Infobridge.cache_ttl self)); [lia |].
        now apply infobridge_internal_fails_open with (b := b).
      * now apply infobridge_internal_fails_open with (b := b).
  - intros me self date_str time_str ex w b Hs Hl Hf.
    rewrite run_check by exact Hl. unfold check_in. rewrite Hs. cbn [negb].
    destruct (parse_at _ _ _); [rewrite Hf |]; eexists; reflexivity.
Qed.

Lemma check_when_backend_raises_witness :
  (exists w', run 1 (Infobridge._check_availability_internal (imanager0 ∅)
                       "Friday, June 06" "10:00 AM") (world0 Lock [] [true])
              = Done true w')
  /\ (exists w', run 1 (App101.check_availability manager0 "Friday, June 06" "10:00 AM" None)
                     (world0 Lock [] [true])
                 = Done (false, Some unable) w').
Proof.
  destruct check_when_backend_raises as (A & B). split.
  - destruct (A 1%nat (imanager0 ∅) "Friday, June 06" "10:00 AM" (world0 Lock [] [true])
                (mkBackend [] [] 0) eq_refl) as [H _].
    exact H.
  - exact (B 1%nat manager0 "Friday, June 06" "10:00 AM" None (world0 Lock [] [true])
             (mkBackend [] [] 0) eq_refl (free_enterable 1 Lock) eq_refl).
Defined.

(** ** Alternative slots *)

Lemma run_collect (me : nat) (self : App101.GoogleCalendarManager) (date_str : string)
      (count : Z) (slots avail : list string) (w : World) :
  enterable me (cal_lock w) ->
  run me (App101.collect_slots self date_str count slots avail) w
  = Done (fst (collect_in self date_str count slots avail w))
         (snd (collect_in self date_str count slots avail w)).
Proof.
  revert avail w. induction slots as [| t rest IH]; intros avail w Hl;
    cbn [App101.collect_slots collect_in].
  - reflexivity.
  - destruct (count <=? Z.of_nat (length avail)); [reflexivity |].
    rewrite run_bind, run_check by exact Hl.
    destruct (check_in self w date_str t None) as [[ok details] b].
    cbn [fst snd]. apply IH.
    change (cal_lock (set_backend b w)) with (cal_lock w). exact Hl.
Qed.

Lemma sublist_Forall_list {A : Type} (P : A -> Prop) (l1 l2 : list A) :
  sublist l1 l2 -> List.Forall P l2 -> List.Forall P l1.
Proof.
  induction 1 as [| x l1 l2 _ IH | x l1 l2 _ IH]; intros H.
  - constructor.
  - inversion H; subst. constructor; auto.
  - inversion H; subst. auto.
Qed.

Lemma sublist_StronglySorted {A : Type} (R : A -> A -> Prop) (l1 l2 : list A) :
  sublist l1 l2 -> StronglySorted R l2 -> StronglySorted R l1.
Proof.
  induction 1 as [| x l1 l2 Hs IH | x l1 l2 Hs IH]; intros H.
  - constructor.
  - inversion H; subst. constructor; [auto |].
    eapply sublist_Forall_list; eauto.
  - inversion H; subst. auto.
Qed.

Lemma sublist_In {A : Type} (l1 l2 : list A) (x : A) :
  sublist l1 l2 -> In x l1 -> In x l2.
Proof.
  induction 1 as [| y l1 l2 _ IH | y l1 l2 _ IH]; cbn; intuition.
Qed.

(** The loop returns what it had, followed by slots picked in order from
    those it was given: no more than [count] in all, each reported free
    by the check made for it, on the events the loop started with. *)
Lemma collect_in_shape (self : App101.GoogleCalendarManager) (date_str : string) (count : Z)
      (slots avail : list string) (w : World) :
  exists picked,
    fst (collect_in self date_str count slots avail w) = (avail ++ picked)%list
    /\ sublist picked slots
    /\ Z.of_nat (length picked) <= Z.max 0 (count - Z.of_nat (length avail))
    /\ (forall t, In t picked ->
          exists b, events b = events (backend w)
                    /\ free_in self (set_backend b w) date_str t = true)
    /\ events (backend (snd (collect_in self date_str count slots avail w)))
       = events (backend w)
    /\ cal_lock (snd (collect_in self date_str count slots avail w)) = cal_lock w.
Proof.
  revert avail w. induction slots as [| t rest IH]; intros avail w; cbn [collect_in].
  - exists []. cbn [fst snd length]. rewrite app_nil_r.
    repeat split; [constructor | lia | intros ? []].
  - destruct (Z.leb_spec count (Z.of_nat (length avail))) as [Hc | Hc].
    { exists []. cbn [fst snd length]. rewrite app_nil_r.
      repeat split; [apply sublist_nil_l | lia | intros ? []]. }
    pose proof (check_in_events self w date_str t None) as Hev.
    destruct (check_in self w date_str t None) as [[ok details] b] eqn:Hchk.
    cbn [fst snd] in *.
    destruct (IH (if ok then (avail ++ [t])%list else avail) (set_backend b w))
      as (picked & Hres & Hsub & Hlen & Hfree & Hevs & Hlock).
    rewrite backend_set_backend in Hevs.
    assert (Hfree' : forall t', In t' picked ->
              exists b', events b' = events (backend w)
                         /\ free_in self (set_backend b' w) date_str t' = true).
    { intros t' Hin. destruct (Hfree t' Hin) as (b' & He & Hf).
      exists b'. rewrite backend_set_backend in He. split; [congruence | exact Hf]. }
    destruct ok.
    + exists (t :: picked). rewrite Hres, <- app_assoc. cbn [app].
      repeat split; auto.
      * now constructor.
      * rewrite length_app in Hlen. cbn [length] in *. lia.
      * intros t' [<- | Hin]; [| auto].
        exists (backend w). split; [reflexivity |].
        rewrite set_backend_same. unfold free_in. now rewrite Hchk.
      * congruence.
    + exists picked. rewrite Hres.
      repeat split; auto.
      * now constructor.
      * congruence.
Qed.

Lemma next_fault_none (b : Backend) : faults b = [] -> next_fault b = (false, b).
Proof. intros H. unfold next_fault. now rewrite H. Qed.

Lemma check_in_no_faults (self : App101.GoogleCalendarManager) (w : World)
      (date_str time_str : string) (ex : option string) :
  faults (backend w) = [] ->
  snd (check_in self w date_str time_str ex) = backend w.
Proof.
  intros H. unfold check_in. destruct (App101.service self); cbn [negb snd]; [| reflexivity].
  destruct (parse_at _ _ _); [| reflexivity].
  rewrite next_fault_none by exact H. reflexivity.
Qed.

(** While no call of the backend raises, the loop returns the first
    [count] free slots of the list, in the order of the list. *)
Lemma collect_in_no_faults (self : App101.GoogleCalendarManager) (date_str : string)
      (count : Z) (slots avail : list string) (w : World) :
  faults (backend w) = [] ->
  collect_in self date_str count slots avail w
  = ((avail ++ firstn (Z.to_nat (count - Z.of_nat (length avail)))
                      (List.filter (free_in self w date_str) slots))%list, w).
Proof.
  intros Hf. revert avail. induction slots as [| t rest IH]; intros avail;
    cbn [collect_in List.filter].
  - now rewrite firstn_nil, app_nil_r.
  - destruct (Z.leb_spec count (Z.of_nat (length avail))) as [Hc | Hc].
    { replace (Z.to_nat (count - Z.of_nat (length avail))) with O by lia.
      cbn [firstn]. now rewrite app_nil_r. }
    rewrite check_in_no_faults, set_backend_same by exact Hf.
    rewrite IH. unfold free_in at 2.
    destruct (fst (fst (check_in self w date_str t None))).
    + rewrite length_app. cbn [length].
      replace (Z.to_nat (count - Z.of_nat (length avail)))
        with (S (Z.to_nat (count - Z.of_nat (length avail + 1)))) by lia.
      cbn [firstn]. now rewrite <- app_assoc.
    + reflexivity.
Qed.

Lemma sortedb_sound (preferred : string) (l : list string) :
  sortedb preferred l = true -> StronglySorted (closer preferred) l.
Proof.
  induction l as [| x l IH]; cbn [sortedb]; intros H; [constructor |].
  apply andb_prop in H. destruct H as [Hx Hl]. constructor; [auto |].
  rewrite List.Forall_forall. intros y Hy.
  rewrite forallb_forall in Hx. specialize (Hx y Hy).
  unfold closerb, closer in *. lia.
Qed.

(** The order in which the slots are tried, around 2:00 PM. *)
Lemma ordered_slots_2pm :
  App101.ordered_slots (Some "2:00 PM")
  = ["2:00 PM"; "2:30 PM"; "1:30 PM"; "3:00 PM"; "1:00 PM"; "3:30 PM"; "12:30 PM";
     "4:00 PM"; "12:00 PM"; "4:30 PM"; "11:30 AM"; "5:00 PM"; "11:00 AM"; "10:30 AM";
     "10:00 AM"; "9:30 AM"; "9:00 AM"; "8:30 AM"; "8:00 AM"].
Proof. vm_compute. reflexivity. Qed.

(** Around any slot of the grid, the slots are tried nearest first, the
    later of two equally near ones first. *)
Lemma ordered_slots_sorted (preferred : string) :
  In preferred App101.time_slots ->
  StronglySorted (closer preferred) (App101.ordered_slots (Some preferred)).
Proof.
  intros H. apply sortedb_sound.
  assert (Hall : forallb (fun p => sortedb p (App101.ordered_slots (Some p)))
                         App101.time_slots = true) by (vm_compute; reflexivity).
  rewrite forallb_forall in Hall. now apply Hall.
Qed.

(** The first [n] elements that pass a test, of a list sorted by [R]:
    every element that passes is among them, or comes after all [n] of
    them. *)
Lemma firstn_filter_nearest {A : Type} (R : A -> A -> Prop) (f : A -> bool)
      (l : list A) (n : nat) (t : A) :
  StronglySorted R l -> In t l -> f t = true ->
  In t (firstn n (List.filter f l))
  \/ (length (firstn n (List.filter f l)) = n
      /\ forall s, In s (firstn n (List.filter f l)) -> R s t).
Proof.
  intros Hs. revert n. induction Hs as [| x l Hs IH Hx]; intros n Hin Hf; [destruct Hin |].
  destruct n as [| n].
  { right. split; [reflexivity | intros s []]. }
  cbn [List.filter]. destruct (f x) eqn:Hfx.
  - cbn [firstn]. destruct Hin as [-> | Hin]; [left; now left |].
    destruct (IH n Hin Hf) as [H | [Hlen Hall]]; [left; now right |].
    right. split; [cbn [length]; now rewrite Hlen |].
    intros s [<- | Hs']; [| now apply Hall].
    rewrite List.Forall_forall in Hx. now apply Hx.
  - destruct Hin as [-> | Hin]; [congruence |].
    exact (IH (S n) Hin Hf).
Qed.

Lemma in_firstn {A : Type} (n : nat) (l : list A) (x : A) : In x (firstn n l) -> In x l.
Proof.
  revert l. induction n as [| n IH]; intros [| y l] H; cbn in *; try contradiction.
  destruct H; [now left | right; auto].
Qed.

(** C9. [find_next_available_slots(date, "2:00 PM", 3)] returns slots of
    the grid in strictly increasing order of distance from 2:00 PM, the
    later of two equally distant slots first; at most three of them; each
    reported free by the check made for it. The grid is the nineteen half
    hours from 8:00 AM to 5:00 PM. With a service configured and while no
    call of the backend raises, every slot returned is free and every free
    slot of the grid is returned, unless three slots are returned that all
    come before it in that order: the search stops at three slots or at
    the end of the grid. *)
Theorem find_alternatives_ordered
        (me : nat) (self : App101.GoogleCalendarManager) (date_str : string) (w : World) :
  enterable me (cal_lock w) ->
  exists slots w',
    run me (App101.find_next_available_slots self date_str (Some "2:00 PM") 3) w
    = Done slots w'
    /\ StronglySorted (closer "2:00 PM") slots
    /\ (length slots <= 3)%nat
    /\ (forall t, In t slots ->
          In t App101.time_slots
          /\ exists b, events b = events (backend w)
                       /\ free_in self (set_backend b w) date_str t = true)
    /\ map slot_minutes App101.time_slots
       = map (fun i => 480 + 30 * Z.of_nat i) (seq 0 19)
    /\ (App101.service self = true -> faults (backend w) = [] ->
        w' = w
        /\ slots = firstn 3 (List.filter (free_in self w date_str)
                                         (App101.ordered_slots (Some "2:00 PM")))
        /\ (forall t, In t slots -> free_in self w date_str t = true)
        /\ (forall t, In t App101.time_slots -> free_in self w date_str t = true ->
              In t slots
              \/ (length slots = 3%nat /\ forall s, In s slots -> closer "2:00 PM" s t))).
Proof.
  intros Hl. unfold App101.find_next_available_slots.
  destruct (App101.service self) eqn:Hs; cbn [negb].
  2: { exists [], w. cbn [run length].
       split; [reflexivity |]. split; [constructor |]. split; [lia |].
       split; [intros ? [] |]. split; [vm_compute; reflexivity | discriminate]. }
  rewrite run_collect by exact Hl.
  destruct (collect_in_shape self date_str 3 (App101.ordered_slots (Some "2:00 PM")) [] w)
    as (picked & Hres & Hsub & Hlen & Hfree & _ & _).
  cbn [app length] in Hres, Hlen.
  eexists. eexists. split; [reflexivity |]. rewrite Hres.
  split; [| split; [| split; [| split]]].
  - eapply sublist_StronglySorted; [exact Hsub |].
    apply ordered_slots_sorted. vm_compute. tauto.
  - lia.
  - intros t Ht. split; [| now apply Hfree].
    apply (sublist_In _ _ t Hsub) in Ht. rewrite ordered_slots_2pm in Ht.
    cbn in Ht. unfold App101.time_slots. cbn. tauto.
  - vm_compute. reflexivity.
  - intros _ Hf. rewrite <- Hres. rewrite collect_in_no_faults by exact Hf.
    cbn [fst snd app length]. split; [reflexivity |]. split; [reflexivity |].
    change (Z.to_nat (3 - Z.of_nat 0)) with 3%nat. split.
    + intros t Ht. apply in_firstn in Ht. apply filter_In in Ht. tauto.
    + intros t Ht Hfr.
      apply firstn_filter_nearest; [| | exact Hfr].
      * apply ordered_slots_sorted. vm_compute. tauto.
      * rewrite ordered_slots_2pm. unfold App101.time_slots in Ht. cbn in Ht |- *. tauto.
Qed.

Lemma find_alternatives_ordered_witness :
  exists slots w',
    run 1 (App101.find_next_available_slots manager0 "Friday, June 06" (Some "2:00 PM") 3)
        (world0 Lock [busy "e1" 240 300] [])
    = Done slots w'
    /\ StronglySorted (closer "2:00 PM") slots
    /\ (length slots <= 3)%nat
    /\ (forall t, In t slots ->
          In t App101.time_slots
          /\ exists b, events b = [busy "e1" 240 300]
                       /\ free_in manager0 (set_backend b (world0 Lock [busy "e1" 240 300] []))
                                  "Friday, June 06" t = true)
    /\ map slot_minutes App101.time_slots
       = map (fun i => 480 + 30 * Z.of_nat i) (seq 0 19)
    /\ (App101.service manager0 = true -> @nil bool = [] ->
        w' = world0 Lock [busy "e1" 240 300] []
        /\ slots = firstn 3 (List.filter
                               (free_in manager0 (world0 Lock [busy "e1" 240 300] [])
                                        "Friday, June 06")
                               (App101.ordered_slots (Some "2:00 PM")))
        /\ (forall t, In t slots ->
              free_in manager0 (world0 Lock [busy "e1" 240 300] []) "Friday, June 06" t
              = true)
        /\ (forall t, In t App101.time_slots ->
              free_in manager0 (world0 Lock [busy "e1" 240 300] []) "Friday, June 06" t
              = true ->
              In t slots
              \/ (length slots = 3%nat /\ forall s, In s slots -> closer "2:00 PM" s t))).
Proof.
  exact (find_alternatives_ordered 1%nat manager0 "Friday, June 06"
           (world0 Lock [busy "e1" 240 300] []) (free_enterable 1 Lock)).
Defined.

(** With 2:00 PM to 3:00 PM taken, the three alternatives are 3:00 PM,
    1:00 PM and 3:30 PM. *)
Example find_alternatives_sample :
  exists w',
    run 1 (App101.find_next_available_slots manager0 "Friday, June 06" (Some "2:00 PM") 3)
        (world0 Lock [busy "e1" 240 300] [])
    = Done ["3:00 PM"; "1:00 PM"; "3:30 PM"] w'.
Proof. eexists. vm_compute. reflexivity. Qed.

(** ** The session store *)

Lemma lookup_set_call_sessions (m : gmap string CallSession) (w : World) :
  call_sessions (set_call_sessions m w) = m.
Proof. reflexivity. Qed.

Lemma run_handle_incoming_call (me : nat) (self : App101.TwilioAIReceptionist)
      (call_sid from_number : string) (w : World) :
  enterable me (session_lock w) ->
  run me (App101.handle_incoming_call self call_sid from_number) w
  = Done ("Thanks for calling " ++ App101.bc_name (App101.business_config self)
            ++ ", this is Sarah. How can I help you today?")
         (set_call_sessions
            (<[call_sid := App101.set_data "from_number" (VStr from_number)
                             (App101.new_session call_sid (now w))]> (call_sessions w))
            w).
Proof.
  intros (l' & Hacq & Hrel). unfold App101.handle_incoming_call.
  rewrite run_bind.
  rewrite (run_with_lock me SessionLock _ w l') by exact Hacq.
  cbn [run bind trigger handle]. f_equal.
  destruct w; cbn in *. now rewrite Hrel.
Qed.

(** While somebody holds the session lock, a [threading.Lock],
    [handle_incoming_call] waits. *)
Lemma run_handle_incoming_call_held (me : nat) (self : App101.TwilioAIReceptionist)
      (call_sid from_number : string) (w : World) (o : nat) :
  kind (session_lock w) = Lock ->
  owner (session_lock w) = Some o ->
  run me (App101.handle_incoming_call self call_sid from_number) w = Blocked SessionLock w.
Proof.
  intros Hk Ho. unfold App101.handle_incoming_call.
  rewrite run_bind, run_with_lock_blocked; [reflexivity |].
  change (lock_of SessionLock w) with (session_lock w). unfold acquire. now rewrite Ho, Hk.
Qed.

(** [handle_speech_input] for a call without a session takes the session
    lock and calls [handle_incoming_call], which waits for it. *)
Lemma run_speech_unknown_call (me : nat) (self : App101.TwilioAIReceptionist)
      (call_sid from_number : string) (w : World) :
  kind (session_lock w) = Lock ->
  owner (session_lock w) = None ->
  call_sessions w !! call_sid = None ->
  run me (App101.handle_speech_input_session self call_sid from_number) w
  = Blocked SessionLock (set_lock SessionLock (mkLock Lock (Some me) 1) w).
Proof.
  intros Hk Ho Hs. unfold App101.handle_speech_input_session.
  rewrite (run_with_lock me SessionLock _ w (mkLock Lock (Some me) 1)).
  2: { change (lock_of SessionLock w) with (session_lock w). rewrite acquire_free, Hk; auto. }
  cbn [bind trigger run handle].
  change (call_sessions (set_lock SessionLock ?l w)) with (call_sessions w). rewrite Hs.
  rewrite run_bind, (run_handle_incoming_call_held me self call_sid from_number _ me);
    reflexivity.
Qed.

(** C8, as stated, fails: a second "call started" for the call [CA1]
    returns the greeting and leaves under [CA1] a fresh session, without
    the name, the service and the history of the session in progress. *)
Lemma call_started_overwrites_counterexample :
  let w := with_sessions {["CA1" := live_session]} (world0 Lock [] []) in
  exists greeting w',
    run 1 (App101.handle_incoming_call receptionist0 "CA1" "5551234567") w
    = Done greeting w'
    /\ call_sessions w !! "CA1" = Some live_session
    /\ call_sessions w' !! "CA1"
       = Some (mkCallSession "CA1" "greeting" {["from_number" := VStr "5551234567"]}
                             0 [] "neutral" (1 # 2) "" monday_9am)
    /\ call_sessions w' !! "CA1" <> Some live_session.
Proof.
  cbv zeta. eexists. eexists.
  split; [apply run_handle_incoming_call; apply free_enterable |].
  split; [apply lookup_singleton_eq |].
  rewrite lookup_set_call_sessions, lookup_insert_eq.
  split; [reflexivity |].
  intros H. inversion H.
Qed.

(** C8, amended. A "call started" event is not refused for a call id
    that has a session. When the session lock is free,
    [handle_incoming_call] returns the greeting and stores a fresh session
    (state [greeting], only the caller's number recorded, no history)
    under its call id, in place of whatever session was stored there, and
    leaves the sessions of the other calls as they were. When the lock, a
    [threading.Lock], is held, the call waits and nothing is stored. The
    lock is held for good once [handle_speech_input] has been called for
    a call without a session: it takes the lock and calls
    [handle_incoming_call] inside the [with] block, which waits for the
    lock its caller holds; from then on every "call started" event
    waits. *)
Theorem call_started_replaces_session
        (me : nat) (self : App101.TwilioAIReceptionist) (call_sid from_number : string)
        (w : World) :
  (enterable me (session_lock w) ->
   exists w',
     run me (App101.handle_incoming_call self call_sid from_number) w
     = Done ("Thanks for calling " ++ App101.bc_name (App101.business_config self)
               ++ ", this is Sarah. How can I help you today?") w'
     /\ call_sessions w' !! call_sid
        = Some (mkCallSession call_sid "greeting" {["from_number" := VStr from_number]}
                              0 [] "neutral" (1 # 2) "" (now w))
     /\ (forall other, other <> call_sid ->
           call_sessions w' !! other = call_sessions w !! other)
     /\ session_lock w' = session_lock w)
  /\ (kind (session_lock w) = Lock -> owner (session_lock w) <> None ->
      run me (App101.handle_incoming_call self call_sid from_number) w
      = Blocked SessionLock w)
  /\ (kind (session_lock w) = Lock -> owner (session_lock w) = None ->
      call_sessions w !! call_sid = None ->
      exists w1,
        run me (App101.handle_speech_input_session self call_sid from_number) w
        = Blocked SessionLock w1
        /\ session_lock w1 = mkLock Lock (Some me) 1
        /\ call_sessions w1 = call_sessions w
        /\ forall (caller : nat) (sid number : string),
             run caller (App101.handle_incoming_call self sid number) w1
             = Blocked SessionLock w1).
Proof.
  split; [| split].
  - intros Hl. eexists.
    split; [now apply run_handle_incoming_call |].
    rewrite lookup_set_call_sessions. split; [| split].
    + rewrite lookup_insert_eq. reflexivity.
    + intros other Hne. now rewrite lookup_insert_ne.
    + reflexivity.
  - intros Hk Ho. destruct (owner (session_lock w)) as [o |] eqn:E; [| congruence].
    now apply run_handle_incoming_call_held with (o := o).
  - intros Hk Ho Hs. eexists.
    split; [now apply run_speech_unknown_call |].
    split; [reflexivity |]. split; [reflexivity |].
    intros caller sid number.
    now apply run_handle_incoming_call_held with (o := me).
Qed.

Lemma call_started_replaces_session_witness :
  (exists w',
     run 1 (App101.handle_incoming_call receptionist0 "CA1" "5551234567")
         (with_sessions {["CA1" := live_session]} (world0 Lock [] []))
     = Done "Thanks for calling Bright Smile Dental, this is Sarah. How can I help you today?"
            w'
     /\ call_sessions w' !! "CA1"
        = Some (mkCallSession "CA1" "greeting" {["from_number" := VStr "5551234567"]}
                              0 [] "neutral" (1 # 2) "" monday_9am)
     /\ (forall other, other <> "CA1" ->
           call_sessions w' !! other
           = call_sessions (with_sessions {["CA1" := live_session]} (world0 Lock [] []))
               !! other)
     /\ session_lock w' = new_lock Lock)
  /\ run 2 (App101.handle_incoming_call receptionist0 "CA1" "5551234567")
         (set_lock SessionLock (mkLock Lock (Some 1%nat) 1) (world0 Lock [] []))
     = Blocked SessionLock
               (set_lock SessionLock (mkLock Lock (Some 1%nat) 1) (world0 Lock [] []))
  /\ (exists w1,
        run 1 (App101.handle_speech_input_session receptionist0 "CA2" "5559876543")
            (with_sessions {["CA1" := live_session]} (world0 Lock [] []))
        = Blocked SessionLock w1
        /\ session_lock w1 = mkLock Lock (Some 1%nat) 1
        /\ call_sessions w1 = {["CA1" := live_session]}
        /\ forall (caller : nat) (sid number : string),
             run caller (App101.handle_incoming_call receptionist0 sid number) w1
             = Blocked SessionLock w1).
Proof.
  split; [| split].
  - exact (proj1 (call_started_replaces_session 1%nat receptionist0 "CA1" "5551234567"
                    (with_sessions {["CA1" := live_session]} (world0 Lock [] [])))
                 (free_enterable 1 Lock)).
  - refine (proj1 (proj2 (call_started_replaces_session 2%nat receptionist0 "CA1"
                            "5551234567"
                            (set_lock SessionLock (mkLock Lock (Some 1%nat) 1)
                                      (world0 Lock [] [])))) eq_refl _).
    discriminate.
  - exact (proj2 (proj2 (call_started_replaces_session 1%nat receptionist0 "CA2" "5559876543"
                           (with_sessions {["CA1" := live_session]} (world0 Lock [] []))))
                 eq_refl eq_refl eq_refl).
Defined.

(** ** The circuit breakers *)

Lemma run_a_call {R : Type} (me : nat) (self : App101.CircuitBreaker) (func : Prog (Res R))
      (w : World) :
  enterable me (breaker_lock w) ->
  run me (App101.call self func) w
  = match a_gate (unix_time w) self with
    | Raise msg => Done (self, Raise msg) w
    | Ok self1 =>
        match run me func w with
        | Done r w' =>
            match acquire me (breaker_lock w') with
            | Some l' =>
                Done (match r with
                      | Ok v => (a_success self1, Ok v)
                      | Raise e => (a_failure (unix_time w') self1, Raise e)
                      end)
                     (set_lock BreakerLock (release l') w')
            | None => Blocked BreakerLock w'
            end
        | Blocked l w' => Blocked l w'
        end
    end.
Proof.
  intros (l1 & Hacq & Hrel). unfold App101.call, a_gate.
  rewrite run_bind, (run_with_lock me BreakerLock _ w l1) by exact Hacq.
  assert (Hback : set_lock BreakerLock (release l1) w = w).
  { rewrite Hrel. apply (set_lock_same BreakerLock). }
  destruct (App101.is_open self).
  - cbn [run bind trigger handle].
    change (unix_time (set_lock BreakerLock l1 w)) with (unix_time w).
    destruct (App101.last_failure_time self) as [last |];
      [destruct (_ <? _) |]; cbn [run];
      rewrite lock_of_set_lock, set_lock_twice, Hback; try reflexivity.
    rewrite run_bind. destruct (run me func w) as [r w' | l w']; [| reflexivity].
    destruct r as [v | e]; rewrite run_bind; unfold with_lock; cbn [run bind trigger handle];
      change (lock_of BreakerLock w') with (breaker_lock w');
      destruct (acquire me (breaker_lock w')) as [l' |]; cbn [run];
      try reflexivity; now rewrite lock_of_set_lock, set_lock_twice.
  - cbn [run]. rewrite lock_of_set_lock, set_lock_twice, Hback.
    rewrite run_bind. destruct (run me func w) as [r w' | l w']; [| reflexivity].
    destruct r as [v | e]; rewrite run_bind; unfold with_lock; cbn [run bind trigger handle];
      change (lock_of BreakerLock w') with (breaker_lock w');
      destruct (acquire me (breaker_lock w')) as [l' |]; cbn [run];
      try reflexivity; now rewrite lock_of_set_lock, set_lock_twice.
Qed.

Lemma run_i_call {R : Type} (me : nat) (self : Infobridge.CircuitBreaker)
      (func : Prog (Res R)) (w : World) :
  run me (Infobridge.call self func) w
  = match i_gate (unix_time w) self with
    | Raise msg => Done (self, Raise msg) w
    | Ok self1 =>
        match run me func w with
        | Done (Ok v) w' => Done (Infobridge.on_success self1, Ok v) w'
        | Done (Raise e) w' => Done (Infobridge.on_failure (unix_time w') self1, Raise e) w'
        | Blocked l w' => Blocked l w'
        end
    end.
Proof.
  unfold Infobridge.call, i_gate. rewrite run_bind.
  destruct (Infobridge.is_state Infobridge.open self).
  - cbn [run bind trigger handle].
    destruct (Infobridge.last_failure_time self) as [last |];
      [destruct (_ <? _) |]; cbn [run]; try reflexivity.
    rewrite run_bind. destruct (run me func w) as [[v | e] w' | l w']; reflexivity.
  - cbn [run]. rewrite run_bind.
    destruct (run me func w) as [[v | e] w' | l w']; reflexivity.
Qed.

Lemma run_a_call_answers (me : nat) (self : App101.CircuitBreaker) (ok : bool) (w : World) :
  enterable me (breaker_lock w) ->
  run me (App101.call self (answers ok)) w
  = match a_gate (unix_time w) self with
    | Raise msg => Done (self, Raise msg) w
    | Ok self1 =>
        Done (if ok then (a_success self1, Ok tt)
              else (a_failure (unix_time w) self1, Raise "timeout")) w
    end.
Proof.
  intros Hl. rewrite run_a_call by exact Hl.
  destruct Hl as (l1 & Hacq & Hrel).
  destruct (a_gate (unix_time w) self) as [self1 | msg]; [| reflexivity].
  unfold answers. cbn [run]. rewrite Hacq, Hrel.
  change (breaker_lock w) with (lock_of BreakerLock w). rewrite set_lock_same.
  destruct ok; reflexivity.
Qed.

Lemma run_i_call_answers (me : nat) (self : Infobridge.CircuitBreaker) (ok : bool) (w : World) :
  run me (Infobridge.call self (answers ok)) w
  = match i_gate (unix_time w) self with
    | Raise msg => Done (self, Raise msg) w
    | Ok self1 =>
        Done (if ok then (Infobridge.on_success self1, Ok tt)
              else (Infobridge.on_failure (unix_time w) self1, Raise "timeout")) w
    end.
Proof.
  rewrite run_i_call. destruct (i_gate _ _); [| reflexivity].
  unfold answers. destruct ok; reflexivity.
Qed.

Lemma a_gate_closed (t : Z) (self : App101.CircuitBreaker) :
  App101.is_open self = false -> a_gate t self = Ok self.
Proof. intros H. unfold a_gate. now rewrite H. Qed.

Lemma i_gate_not_open (t : Z) (self : Infobridge.CircuitBreaker) :
  Infobridge.state self <> Infobridge.open -> i_gate t self = Ok self.
Proof.
  intros H. unfold i_gate, Infobridge.is_state.
  destruct (Infobridge.state self); congruence.
Qed.

(** Consecutive failures of a closed breaker of [app101.py], up to the
    threshold: each is counted, and the one that reaches the threshold
    opens the breaker. *)
Lemma a_calls_failing (me : nat) (times : list Z) (self : App101.CircuitBreaker) (w : World) :
  enterable me (breaker_lock w) ->
  App101.is_open self = false ->
  App101.failure_count self < App101.failure_threshold self ->
  App101.failure_count self + Z.of_nat (length times) <= App101.failure_threshold self ->
  let cb := a_calls me self (failing times) w in
  App101.failure_count cb = App101.failure_count self + Z.of_nat (length times)
  /\ App101.is_open cb
     = (App101.failure_threshold self
        <=? App101.failure_count self + Z.of_nat (length times))
  /\ App101.failure_threshold cb = App101.failure_threshold self.
Proof.
  revert self w. induction times as [| t rest IH]; intros self w Hl Ho Hlt Hle; cbn zeta.
  - cbn [failing map a_calls length]. rewrite Z.add_0_r, Ho.
    repeat split; auto. symmetry. apply Z.leb_gt. lia.
  - cbn [failing map a_calls]. fold (failing rest).
    rewrite run_a_call_answers by exact Hl. rewrite a_gate_closed by exact Ho.
    cbn [length] in *.
    destruct rest as [| t' rest'].
    + cbn [failing map a_calls length a_failure App101.failure_count App101.is_open
           App101.failure_threshold].
      repeat split; auto.
      destruct (Z.leb_spec (App101.failure_threshold self) (App101.failure_count self + 1));
        [| rewrite Ho]; symmetry; [apply Z.leb_le | apply Z.leb_gt]; lia.
    + assert (Hlt' : App101.failure_count self + 1 < App101.failure_threshold self)
        by (cbn [length] in Hle; lia).
      destruct (IH (a_failure (unix_time (at_time t w)) self) (at_time t w)) as (H1 & H2 & H3).
      * exact Hl.
      * cbn [a_failure App101.is_open].
        destruct (Z.leb_spec (App101.failure_threshold self) (App101.failure_count self + 1));
          [lia | exact Ho].
      * cbn [a_failure App101.failure_count App101.failure_threshold]. exact Hlt'.
      * cbn [a_failure App101.failure_count App101.failure_threshold]. lia.
      * cbn [a_failure App101.failure_count App101.failure_threshold] in *.
        rewrite H1, H2, H3. repeat split; try lia. f_equal. lia.
Qed.

(** Consecutive successes of a half-open breaker of [infobridge.py], up
    to the threshold: each is counted, and the one that reaches the
    threshold closes the breaker and clears its failure count. *)
Lemma i_calls_succeeding (me : nat) (times : list Z) (self : Infobridge.CircuitBreaker)
      (w : World) :
  Infobridge.state self = Infobridge.half_open ->
  Infobridge.success_count self < Infobridge.success_threshold self ->
  Infobridge.success_count self + Z.of_nat (length times)
  <= Infobridge.success_threshold self ->
  let cb := i_calls me self (succeeding times) w in
  let reached :=
    Infobridge.success_threshold self
    <=? Infobridge.success_count self + Z.of_nat (length times) in
  Infobridge.state cb = (if reached then Infobridge.closed else Infobridge.half_open)
  /\ Infobridge.failure_count cb = (if reached then 0 else Infobridge.failure_count self)
  /\ Infobridge.success_count cb = Infobridge.success_count self + Z.of_nat (length times).
Proof.
  revert self w. induction times as [| t rest IH]; intros self w Hs Hlt Hle; cbn zeta.
  - cbn [succeeding map i_calls length]. rewrite Z.add_0_r.
    destruct (Z.leb_spec (Infobridge.success_threshold self) (Infobridge.success_count self));
      [lia | auto].
  - cbn [succeeding map i_calls]. fold (succeeding rest).
    rewrite run_i_call_answers. rewrite i_gate_not_open by (rewrite Hs; discriminate).
    cbn [length] in *.
    unfold Infobridge.on_success, Infobridge.is_state. rewrite Hs.
    destruct (Z.leb_spec (Infobridge.success_threshold self)
                         (Infobridge.success_count self + 1)) as [Hr | Hr].
    + destruct rest as [| t' rest']; [| cbn [length] in Hle; lia].
      cbn [succeeding map i_calls length Infobridge.state Infobridge.failure_count
           Infobridge.success_count].
      destruct (Z.leb_spec (Infobridge.success_threshold self)
                           (Infobridge.success_count self + Z.of_nat 1)); [auto | lia].
    + match goal with
      | |- context [i_calls me ?cb' _ ?w'] =>
          destruct (IH cb' w') as (H1 & H2 & H3);
            [cbn; first [reflexivity | exact Hs] | cbn; lia | cbn; lia |]
      end.
      cbn [Infobridge.state Infobridge.failure_count Infobridge.success_count
           Infobridge.success_threshold] in *.
      rewrite H1, H2, H3.
      replace (Infobridge.success_count self + 1 + Z.of_nat (length rest))
        with (Infobridge.success_count self + Z.of_nat (S (length rest))) by lia.
      auto.
Qed.

(** A breaker of [infobridge.py] that is not closed has its failure
    count at the threshold or above, wherever the calls have taken it
    from a breaker for which this held. *)
Lemma i_call_keeps_count (me : nat) (self : Infobridge.CircuitBreaker) (ok : bool)
      (w : World) (cb : Infobridge.CircuitBreaker) (r : Res unit) (w' : World) :
  (Infobridge.state self <> Infobridge.closed ->
   Infobridge.failure_threshold self <= Infobridge.failure_count self) ->
  run me (Infobridge.call self (answers ok)) w = Done (cb, r) w' ->
  (Infobridge.state cb <> Infobridge.closed ->
   Infobridge.failure_threshold cb <= Infobridge.failure_count cb)
  /\ Infobridge.failure_threshold cb = Infobridge.failure_threshold self.
Proof.
  intros Hinv. rewrite run_i_call_answers. unfold i_gate, Infobridge.is_state.
  destruct self as [ft rt st fc sc lf s]; cbn in *.
  destruct s; cbn.
  - destruct ok; intros [= <- _ _]; cbn; [tauto |].
    destruct (Z.leb_spec ft (fc + 1)); cbn; [split; [lia | auto] | tauto].
  - destruct lf as [last |]; [destruct (_ <? _) |].
    + destruct ok; intros [= <- _ _]; cbn.
      * unfold Infobridge.on_success, Infobridge.is_state. cbn.
        destruct (st <=? 0 + 1); cbn; [tauto |].
        split; [intros _; apply Hinv; discriminate | auto].
      * assert (ft <= fc) by (apply Hinv; discriminate).
        destruct (Z.leb_spec ft (fc + 1)); cbn; split; auto; lia.
    + intros [= <- _ _]; cbn. auto.
    + intros [= <- _ _]; cbn. auto.
  - destruct ok; intros [= <- _ _]; cbn.
    + unfold Infobridge.on_success, Infobridge.is_state. cbn.
      destruct (st <=? sc + 1); cbn; [tauto |].
      split; [intros _; apply Hinv; discriminate | auto].
    + assert (ft <= fc) by (apply Hinv; discriminate).
      destruct (Z.leb_spec ft (fc + 1)); cbn; split; auto; lia.
Qed.

Lemma i_calls_keep_count (me : nat) (script : list (Z * bool))
      (self : Infobridge.CircuitBreaker) (w : World) :
  (Infobridge.state self <> Infobridge.closed ->
   Infobridge.failure_threshold self <= Infobridge.failure_count self) ->
  let cb := i_calls me self script w in
  (Infobridge.state cb <> Infobridge.closed ->
   Infobridge.failure_threshold cb <= Infobridge.failure_count cb)
  /\ Infobridge.failure_threshold cb = Infobridge.failure_threshold self.
Proof.
  revert self w. induction script as [| [t ok] rest IH]; intros self w Hinv; cbn zeta.
  - cbn [i_calls]. auto.
  - cbn [i_calls].
    destruct (run me (Infobridge.call self (answers ok)) (at_time t w))
      as [[cb r] w' | l w'] eqn:Hrun; [| auto].
    destruct (i_call_keeps_count me self ok (at_time t w) cb r w' Hinv Hrun) as [Hinv' Hft].
    destruct (IH cb w' Hinv') as [H1 H2]. split; [exact H1 | congruence].
Qed.

Lemma run_a_call_done {R : Type} (me : nat) (self self1 : App101.CircuitBreaker)
      (func : Prog (Res R)) (w w' : World) (r : Res R) :
  enterable me (breaker_lock w) ->
  a_gate (unix_time w) self = Ok self1 ->
  run me func w = Done r w' ->
  breaker_lock w' = breaker_lock w ->
  run me (App101.call self func) w
  = Done (match r with
          | Ok v => (a_success self1, Ok v)
          | Raise e => (a_failure (unix_time w') self1, Raise e)
          end) w'.
Proof.
  intros Hl Hg Hf Hsame. rewrite run_a_call by exact Hl. rewrite Hg, Hf.
  destruct Hl as (l1 & Hacq & Hrel). rewrite Hsame, Hacq, Hrel, <- Hsame.
  change (breaker_lock w') with (lock_of BreakerLock w'). now rewrite set_lock_same.
Qed.

(** C4, as stated, fails on both breakers. In [infobridge.py], with a
    threshold of 2, a failure, a success and a failure open the breaker:
    the success did not reset the count. In [app101.py], with a threshold
    of 2, the breaker opened by two failures is closed again by the call
    that comes after the recovery timeout, and stays closed though that
    call fails. *)
Lemma breaker_counterexample :
  Infobridge.state
    (i_calls 1 (Infobridge.new_breaker 2 60 2) [(0, false); (1, true); (2, false)]
             (world0 Lock [] []))
  = Infobridge.open
  /\ App101.is_open
       (a_calls 1 (App101.new_breaker 2 60) [(0, false); (1, false)] (world0 Lock [] []))
     = true
  /\ a_calls 1 (App101.new_breaker 2 60) [(0, false); (1, false); (100, false)]
             (world0 Lock [] [])
     = App101.mkBreaker 2 60 1 (Some 100) false.
Proof. repeat split; vm_compute; reflexivity. Qed.

(** C4, amended.

    [infobridge.py]: a success while closed leaves the breaker as it is,
    failure count included; a failure while closed or half-open adds one
    to the count and opens the breaker when the count has reached
    [failure_threshold]; while open, a call made no later than
    [recovery_timeout] after the last failure fails at once and the
    operation is not invoked; a later call is made as by a half-open
    breaker with no success counted; [success_threshold] successes in a
    row close a half-open breaker and clear its failure count, and fewer
    leave it half-open; a failure while half-open reopens it.

    [app101.py]: a success clears the failure count, so the breaker opens
    at [failure_threshold] failures in a row; while open, a call made no
    later than [recovery_timeout] after the last failure fails at once and
    the operation is not invoked; a later call is made as by a closed
    breaker with no failure counted, there being no half-open state, so
    that a failure of it reopens the breaker only when
    [failure_threshold] is 1 or less. *)
Theorem breaker_transitions :
  (* infobridge.py *)
  (forall (R : Type) (me : nat) (self : Infobridge.CircuitBreaker) (func : Prog (Res R))
          (w w' : World) (v : R),
      Infobridge.state self = Infobridge.closed ->
      run me func w = Done (Ok v) w' ->
      run me (Infobridge.call self func) w = Done (self, Ok v) w')
  /\ (forall (R : Type) (me : nat) (self : Infobridge.CircuitBreaker) (func : Prog (Res R))
             (w w' : World) (e : string),
         Infobridge.state self <> Infobridge.open ->
         run me func w = Done (Raise e) w' ->
         exists cb,
           run me (Infobridge.call self func) w = Done (cb, Raise e) w'
           /\ Infobridge.failure_count cb = Infobridge.failure_count self + 1
           /\ Infobridge.last_failure_time cb = Some (unix_time w')
           /\ Infobridge.state cb
              = (if Infobridge.failure_threshold self <=? Infobridge.failure_count self + 1
                 then Infobridge.open else Infobridge.state self))
  /\ (forall (R : Type) (me : nat) (self : Infobridge.CircuitBreaker) (func : Prog (Res R))
             (w : World) (last : Z),
         Infobridge.state self = Infobridge.open ->
         Infobridge.last_failure_time self = Some last ->
         (unix_time w - last <= Infobridge.recovery_timeout self ->
          run me (Infobridge.call self func) w
          = Done (self, Raise "Circuit breaker is open") w)
         /\ (Infobridge.recovery_timeout self < unix_time w - last ->
             run me (Infobridge.call self func) w
             = run me (Infobridge.call
                         (Infobridge.mkBreaker
                            (Infobridge.failure_threshold self)
                            (Infobridge.recovery_timeout self)
                            (Infobridge.success_threshold self)
                            (Infobridge.failure_count self) 0
                            (Infobridge.last_failure_time self) Infobridge.half_open)
                         func) w))
  /\ (forall (me : nat) (self : Infobridge.CircuitBreaker) (times : list Z) (w : World),
         Infobridge.state self = Infobridge.half_open ->
         Infobridge.success_count self = 0 ->
         1 <= Infobridge.success_threshold self ->
         Z.of_nat (length times) <= Infobridge.success_threshold self ->
         let cb := i_calls me self (succeeding times) w in
         if Z.of_nat (length times) =? Infobridge.success_threshold self
         then Infobridge.state cb = Infobridge.closed /\ Infobridge.failure_count cb = 0
         else Infobridge.state cb = Infobridge.half_open)
  /\ (forall (R : Type) (me : nat) (ft rt st : Z) (script : list (Z * bool)) (w0 : World)
             (func : Prog (Res R)) (w w' : World) (e : string),
         let self := i_calls me (Infobridge.new_breaker ft rt st) script w0 in
         Infobridge.state self = Infobridge.half_open ->
         run me func w = Done (Raise e) w' ->
         exists cb,
           run me (Infobridge.call self func) w = Done (cb, Raise e) w'
           /\ Infobridge.state cb = Infobridge.open)
  (* app101.py *)
  /\ (forall (R : Type) (me : nat) (self : App101.CircuitBreaker) (func : Prog (Res R))
             (w w' : World) (r : Res R),
         enterable me (breaker_lock w) ->
         App101.is_open self = false ->
         run me func w = Done r w' ->
         breaker_lock w' = breaker_lock w ->
         exists cb,
           run me (App101.call self func) w = Done (cb, r) w'
           /\ match r with
              | Ok _ => App101.failure_count cb = 0 /\ App101.is_open cb = false
              | Raise _ =>
                  App101.failure_count cb = App101.failure_count self + 1
                  /\ App101.last_failure_time cb = Some (unix_time w')
                  /\ App101.is_open cb
                     = (App101.failure_threshold self <=? App101.failure_count self + 1)
              end)
  /\ (forall (me : nat) (n rt : Z) (times : list Z) (w : World),
         enterable me (breaker_lock w) ->
         1 <= n ->
         Z.of_nat (length times) <= n ->
         App101.is_open (a_calls me (App101.new_breaker n rt) (failing times) w)
         = (Z.of_nat (length times) =? n))
  /\ (forall (R : Type) (me : nat) (self : App101.CircuitBreaker) (func : Prog (Res R))
             (w : World) (last : Z),
         enterable me (breaker_lock w) ->
         App101.is_open self = true ->
         App101.last_failure_time self = Some last ->
         (unix_time w - last <= App101.recovery_timeout self ->
          run me (App101.call self func) w
          = Done (self, Raise "Circuit breaker is open") w)
         /\ (App101.recovery_timeout self < unix_time w - last ->
             run me (App101.call self func) w
             = run me (App101.call
                         (App101.mkBreaker (App101.failure_threshold self)
                                           (App101.recovery_timeout self) 0
                                           (App101.last_failure_time self) false)
                         func) w)).
Proof.
  split; [| split; [| split; [| split; [| split; [| split; [| split]]]]]].
  - intros R me self func w w' v Hs Hf. rewrite run_i_call.
    rewrite i_gate_not_open by (rewrite Hs; discriminate). rewrite Hf.
    unfold Infobridge.on_success, Infobridge.is_state. now rewrite Hs.
  - intros R me self func w w' e Hs Hf. rewrite run_i_call.
    rewrite i_gate_not_open by exact Hs. rewrite Hf.
    eexists. split; [reflexivity |]. cbn. auto.
  - intros R me self func w last Hs Hlast. split; intros Ht.
    + rewrite run_i_call. unfold i_gate, Infobridge.is_state. rewrite Hs, Hlast.
      destruct (Z.ltb_spec (Infobridge.recovery_timeout self) (unix_time w - last));
        [lia | reflexivity].
    + rewrite !run_i_call. unfold i_gate, Infobridge.is_state. rewrite Hs, Hlast. cbn.
      destruct (Z.ltb_spec (Infobridge.recovery_timeout self) (unix_time w - last));
        [reflexivity | lia].
  - intros me self times w Hs Hc Hth Hlen. cbn zeta.
    destruct (i_calls_succeeding me times self w Hs) as (H1 & H2 & _); [lia | lia |].
    rewrite Hc, Z.add_0_l in H1, H2.
    destruct (Z.eqb_spec (Z.of_nat (length times)) (Infobridge.success_threshold self))
      as [Heq | Hne].
    + rewrite Heq, Z.leb_refl in H1, H2. auto.
    + destruct (Z.leb_spec (Infobridge.success_threshold self) (Z.of_nat (length times)));
        [lia | auto].
  - intros R me ft rt st script w0 func w w' e self Hs Hf.
    destruct (i_calls_keep_count me script (Infobridge.new_breaker ft rt st) w0) as [Hinv _].
    { intros H. now contradiction H. }
    fold self in Hinv. rewrite run_i_call.
    rewrite i_gate_not_open by (rewrite Hs; discriminate). rewrite Hf.
    eexists. split; [reflexivity |]. cbn.
    destruct (Z.leb_spec (Infobridge.failure_threshold self)
                         (Infobridge.failure_count self + 1)); [reflexivity |].
    assert (Infobridge.failure_threshold self <= Infobridge.failure_count self)
      by (apply Hinv; rewrite Hs; discriminate).
    lia.
  - intros R me self func w w' r Hl Ho Hf Hsame.
    rewrite (run_a_call_done me self self func w w' r Hl (a_gate_closed _ _ Ho) Hf Hsame).
    destruct r as [v | e]; eexists; (split; [reflexivity |]); cbn; auto.
    repeat split. rewrite Ho. now destruct (_ <=? _).
  - intros me n rt times w Hl Hn Hlen.
    assert (H : App101.is_open (a_calls me (App101.new_breaker n rt) (failing times) w)
                = (n <=? 0 + Z.of_nat (length times))).
    { apply (a_calls_failing me times (App101.new_breaker n rt) w Hl);
        cbn; first [reflexivity | lia]. }
    rewrite H.
    destruct (Z.eqb_spec (Z.of_nat (length times)) n);
      [apply Z.leb_le | apply Z.leb_gt]; lia.
  - intros R me self func w last Hl Ho Hlast. split; intros Ht.
    + rewrite run_a_call by exact Hl. unfold a_gate. rewrite Ho, Hlast.
      destruct (Z.ltb_spec (App101.recovery_timeout self) (unix_time w - last));
        [lia | reflexivity].
    + rewrite !run_a_call by exact Hl. unfold a_gate. rewrite Ho, Hlast. cbn.
      destruct (Z.ltb_spec (App101.recovery_timeout self) (unix_time w - last));
        [reflexivity | lia].
Qed.

Lemma breaker_transitions_witness :
  let w := world0 Lock [] [] in
  run 1 (Infobridge.call (Infobridge.new_breaker 2 60 2) (answers true)) w
  = Done (Infobridge.new_breaker 2 60 2, Ok tt) w
  /\ (exists cb,
        run 1 (Infobridge.call (Infobridge.new_breaker 2 60 2) (answers false)) w
        = Done (cb, Raise "timeout") w
        /\ Infobridge.failure_count cb = 0 + 1
        /\ Infobridge.last_failure_time cb = Some (unix_time w)
        /\ Infobridge.state cb = (if 2 <=? 0 + 1 then Infobridge.open else Infobridge.closed))
  /\ run 1 (Infobridge.call i_open (answers true)) (at_time 60 w)
     = Done (i_open, Raise "Circuit breaker is open") (at_time 60 w)
  /\ run 1 (Infobridge.call i_open (answers true)) (at_time 61 w)
     = run 1 (Infobridge.call i_half (answers true)) (at_time 61 w)
  /\ (Infobridge.state (i_calls 1 i_half (succeeding [61; 62]) w) = Infobridge.closed
      /\ Infobridge.failure_count (i_calls 1 i_half (succeeding [61; 62]) w) = 0)
  /\ (exists cb,
        run 1 (Infobridge.call
                 (i_calls 1 (Infobridge.new_breaker 2 60 2)
                          [(0, false); (1, false); (70, true)] w)
                 (answers false)) (at_time 71 w)
        = Done (cb, Raise "timeout") (at_time 71 w)
        /\ Infobridge.state cb = Infobridge.open)
  /\ (exists cb,
        run 1 (App101.call (App101.new_breaker 2 60) (answers true)) w
        = Done (cb, Ok tt) w
        /\ App101.failure_count cb = 0 /\ App101.is_open cb = false)
  /\ App101.is_open (a_calls 1 (App101.new_breaker 2 60) (failing [0; 1]) w) = true
  /\ run 1 (App101.call a_open (answers true)) (at_time 60 w)
     = Done (a_open, Raise "Circuit breaker is open") (at_time 60 w)
  /\ run 1 (App101.call a_open (answers true)) (at_time 61 w)
     = run 1 (App101.call (App101.mkBreaker 2 60 0 (Some 0) false) (answers true))
           (at_time 61 w).
Proof.
  cbv zeta.
  destruct breaker_transitions as (I1 & I2 & I3 & I4 & I5 & A1 & A2 & A3).
  split; [| split; [| split; [| split; [| split; [| split; [| split; [| split; [| split]]]]]]]].
  - exact (I1 unit 1%nat (Infobridge.new_breaker 2 60 2) (answers true)
              (world0 Lock [] []) (world0 Lock [] []) tt eq_refl eq_refl).
  - refine (I2 unit 1%nat (Infobridge.new_breaker 2 60 2) (answers false)
               (world0 Lock [] []) (world0 Lock [] []) "timeout" _ eq_refl).
    discriminate.
  - refine (proj1 (I3 unit 1%nat i_open (answers true) (at_time 60 (world0 Lock [] [])) 0
                      eq_refl eq_refl) _).
    vm_compute. discriminate.
  - refine (proj2 (I3 unit 1%nat i_open (answers true) (at_time 61 (world0 Lock [] [])) 0
                      eq_refl eq_refl) _).
    reflexivity.
  - refine (I4 1%nat i_half [61; 62] (world0 Lock [] []) eq_refl eq_refl _ _).
    + vm_compute. discriminate.
    + vm_compute. discriminate.
  - exact (I5 unit 1%nat 2 60 2 [(0, false); (1, false); (70, true)] (world0 Lock [] [])
              (answers false) (at_time 71 (world0 Lock [] [])) (at_time 71 (world0 Lock [] []))
              "timeout" eq_refl eq_refl).
  - exact (A1 unit 1%nat (App101.new_breaker 2 60) (answers true)
              (world0 Lock [] []) (world0 Lock [] []) (Ok tt)
              (free_enterable 1 Lock) eq_refl eq_refl eq_refl).
  - refine (A2 1%nat 2 60 [0; 1] (world0 Lock [] []) (free_enterable 1 Lock) _ _).
    + vm_compute. discriminate.
    + vm_compute. discriminate.
  - refine (proj1 (A3 unit 1%nat a_open (answers true) (at_time 60 (world0 Lock [] [])) 0
                      (free_enterable 1 Lock) eq_refl eq_refl) _).
    vm_compute. discriminate.
  - refine (proj2 (A3 unit 1%nat a_open (answers true) (at_time 61 (world0 Lock [] [])) 0
                      (free_enterable 1 Lock) eq_refl eq_refl) _).
    reflexivity.
Defined.

(** ** Completing a booking *)

Lemma collect_in_world (self : App101.GoogleCalendarManager) (date_str : string) (count : Z)
      (slots avail : list string) (w : World) :
  exists b, snd (collect_in self date_str count slots avail w) = set_backend b w.
Proof.
  revert avail w. induction slots as [| t rest IH]; intros avail w; cbn [collect_in].
  - exists (backend w). cbn [snd]. now rewrite set_backend_same.
  - destruct (count <=? _).
    + exists (backend w). cbn [snd]. now rewrite set_backend_same.
    + match goal with
      | |- context [collect_in _ _ _ _ ?a (set_backend ?b0 w)] =>
          destruct (IH a (set_backend b0 w)) as (b & Hb)
      end.
      exists b. rewrite Hb. apply set_backend_twice.
Qed.

Lemma run_find (me : nat) (self : App101.GoogleCalendarManager) (date_str : string)
      (preferred_time : option string) (count : Z) (w : World) :
  enterable me (cal_lock w) ->
  run me (App101.find_next_available_slots self date_str preferred_time count) w
  = Done (fst (find_in self date_str preferred_time count w))
         (snd (find_in self date_str preferred_time count w)).
Proof.
  intros Hl. unfold App101.find_next_available_slots, find_in.
  destruct (App101.service self); cbn [negb]; [| reflexivity].
  now apply run_collect.
Qed.

Lemma find_in_world (self : App101.GoogleCalendarManager) (date_str : string)
      (preferred_time : option string) (count : Z) (w : World) :
  exists b, snd (find_in self date_str preferred_time count w) = set_backend b w.
Proof.
  unfold find_in. destruct (App101.service self); cbn [negb].
  - apply collect_in_world.
  - exists (backend w). cbn [snd]. now rewrite set_backend_same.
Qed.

Lemma chars_append (a b : string) : Py.chars (a ++ b) = (Py.chars a ++ Py.chars b)%list.
Proof.
  unfold Py.chars. induction a as [| c a IH]; [reflexivity |].
  change (c :: list_ascii_of_string (a ++ b)
          = c :: (list_ascii_of_string a ++ list_ascii_of_string b)%list).
  now rewrite IH.
Qed.

Lemma starts_with_app (p l : list ascii) : Py.starts_with p (p ++ l) = true.
Proof.
  induction p as [| c p IH]; cbn; [reflexivity |].
  unfold Py.eqb_c. now rewrite Ascii.eqb_refl, IH.
Qed.

Lemma contains_from_app (p a l : list ascii) :
  Py.contains_from p l = true -> Py.contains_from p (a ++ l) = true.
Proof.
  intros H. induction a as [| c a IH]; cbn [app]; [exact H |].
  cbn [Py.contains_from]. rewrite IH. apply orb_true_r.
Qed.

Lemma contains_here (x rest : string) : Py.contains x (x ++ rest) = true.
Proof.
  unfold Py.contains. rewrite chars_append.
  destruct (Py.chars x ++ Py.chars rest)%list eqn:E; cbn [Py.contains_from];
    rewrite <- E, starts_with_app; reflexivity.
Qed.

Lemma contains_later (x a s : string) :
  Py.contains x s = true -> Py.contains x (a ++ s) = true.
Proof.
  unfold Py.contains. rewrite chars_append. apply contains_from_app.
Qed.

Lemma append_assoc (a b c : string) : (a ++ b) ++ c = a ++ (b ++ c).
Proof.
  induction a as [| x a IH]; [reflexivity |].
  change (String x ((a ++ b) ++ c) = String x (a ++ (b ++ c))). now rewrite IH.
Qed.

(** The reply to a slot found taken names the first two alternatives. *)
Lemma taken_at_check_offers (time date : string) (details : option string)
      (alternatives : list string) :
  alternatives <> [] ->
  Py.contains (Py.join ", " (firstn 2 alternatives))
              (App101Booking.taken_at_check time date details alternatives) = true.
Proof.
  intros Hne. unfold App101Booking.taken_at_check.
  destruct alternatives as [| a rest]; [congruence |].
  cbv zeta. do 9 (apply contains_later).
  destruct (Nat.ltb 2 (length (a :: rest))); [rewrite append_assoc |]; apply contains_here.
Qed.

Lemma taken_at_insert_offers (time : string) (error_msg : option string)
      (alternatives : list string) :
  alternatives <> [] ->
  Py.contains (Py.join ", " (firstn 2 alternatives))
              (App101Booking.taken_at_insert time error_msg alternatives) = true.
Proof.
  intros Hne. unfold App101Booking.taken_at_insert.
  destruct alternatives as [| a rest]; [congruence |].
  cbv zeta. do 7 (apply contains_later). apply contains_here.
Qed.

Lemma calendar_only_bind {A B : Type} (p : Prog A) (f : A -> Prog B) :
  calendar_only p -> (forall a, calendar_only (f a)) -> calendar_only (bind p f).
Proof.
  intros Hp Hf. induction Hp as [a | X e k He Hk IH]; cbn [bind]; [apply Hf |].
  constructor; auto.
Qed.

Lemma calendar_only_check (self : App101.GoogleCalendarManager) (d t : string)
      (ex : option string) :
  calendar_only (App101.check_availability self d t ex).
Proof.
  unfold App101.check_availability. destruct (negb _); [constructor |].
  apply calendar_only_bind.
  - unfold with_lock. constructor; [exact I |]. intros _.
    apply calendar_only_bind.
    + apply calendar_only_bind.
      * unfold App101._parse_appointment_datetime.
        destruct (Cal.strptime _); [| constructor].
        cbn. constructor; [exact I |]. intros n1. constructor; [exact I |]. intros n2.
        destruct (_ <? _); constructor.
      * intros [naive | e]; [| constructor].
        cbn. constructor; [exact I |]. intros [items | e]; constructor.
    + intros r. constructor; [exact I |]. intros _. constructor.
  - intros [v | e]; constructor.
Qed.

Lemma calendar_only_collect (self : App101.GoogleCalendarManager) (d : string) (count : Z)
      (slots avail : list string) :
  calendar_only (App101.collect_slots self d count slots avail).
Proof.
  revert avail. induction slots as [| t rest IH]; intros avail; cbn [App101.collect_slots].
  - constructor.
  - destruct (_ <=? _); [constructor |].
    apply calendar_only_bind; [apply calendar_only_check |].
    intros [ok details]. apply IH.
Qed.

Lemma calendar_only_find (self : App101.GoogleCalendarManager) (d : string)
      (p : option string) (count : Z) :
  calendar_only (App101.find_next_available_slots self d p count).
Proof.
  unfold App101.find_next_available_slots. destruct (negb _); [constructor |].
  apply calendar_only_collect.
Qed.

Lemma calendar_only_create (self : App101.GoogleCalendarManager) (appointment : Appointment) :
  calendar_only (App101.create_appointment self appointment).
Proof.
  unfold App101.create_appointment. destruct (negb _); [constructor |].
  apply calendar_only_bind.
  - unfold with_lock. constructor; [exact I |]. intros _.
    apply calendar_only_bind.
    + apply calendar_only_bind; [apply calendar_only_check |].
      intros [ok details]. destruct (negb ok); [constructor |].
      apply calendar_only_bind.
      * unfold App101._parse_appointment_datetime.
        destruct (Cal.strptime _); [| constructor].
        cbn. constructor; [exact I |]. intros n1. constructor; [exact I |]. intros n2.
        destruct (_ <? _); constructor.
      * intros [naive | e]; [| constructor].
        apply calendar_only_bind.
        -- cbn. constructor; [exact I |]. intros x. constructor.
        -- intros [result | e]; [| constructor].
           apply calendar_only_bind; [apply calendar_only_check |].
           intros _. constructor.
    + intros r. constructor; [exact I |]. intros _. constructor.
  - intros [v | e]; constructor.
Qed.

Lemma same_store_refl (w : World) : same_store w w.
Proof. repeat split. Qed.

Lemma same_store_trans (w1 w2 w3 : World) :
  same_store w1 w2 -> same_store w2 w3 -> same_store w1 w3.
Proof. unfold same_store. intuition congruence. Qed.

(** A program of calendar effects leaves the appointment store, the
    sessions and the clock as they were, however it ends. *)
Lemma run_calendar_only {A : Type} (me : nat) (p : Prog A) (w : World) :
  calendar_only p ->
  match run me p w with
  | Done _ w' => same_store w w'
  | Blocked _ w' => same_store w w'
  end.
Proof.
  intros Hp. revert w. induction Hp as [a | X e k He Hk IH]; intros w; cbn [run].
  - apply same_store_refl.
  - destruct (handle me e w) as [[x w1] |] eqn:Hh; [| apply same_store_refl].
    assert (Hs : same_store w w1).
    { destruct e; try destruct l; cbn in He; try contradiction; cbn in Hh.
      - destruct (acquire me (cal_lock w)); inversion Hh; subst. repeat split.
      - inversion Hh; subst. repeat split.
      - inversion Hh; subst. repeat split.
      - destruct (next_fault (backend w)) as [f b]. destruct f; inversion Hh; subst;
          repeat split.
      - destruct (next_fault (backend w)) as [f b]. destruct f; inversion Hh; subst;
          repeat split. }
    specialize (IH x w1).
    destruct (run me (k x) w1); eapply same_store_trans; eauto.
Qed.

(** When [create_appointment] returns, its lock is free again. *)
Lemma create_appointment_lock
      (me : nat) (self : App101.GoogleCalendarManager) (appointment : Appointment)
      (w w' : World) (k : LockKind) (r : bool * option string * option string) :
  cal_lock w = new_lock k ->
  run me (App101.create_appointment self appointment) w = Done r w' ->
  cal_lock w' = new_lock k.
Proof.
  intros Hl. destruct (App101.service self) eqn:Hs.
  2: { unfold App101.create_appointment. rewrite Hs. cbn. intros [= _ <-]. exact Hl. }
  destruct k.
  { rewrite run_create_blocked by (rewrite ?Hl; auto). discriminate. }
  unfold App101.create_appointment. rewrite Hs. cbn [negb].
  rewrite run_bind.
  rewrite (run_with_lock me CalLock _ w (mkLock RLock (Some me) 1)).
  2: { change (lock_of CalLock w) with (cal_lock w). now rewrite Hl. }
  rewrite run_bind, run_check.
  2: { change (cal_lock (set_lock CalLock ?s w)) with s. apply enterable_held_rlock. }
  destruct (check_in self (set_lock CalLock _ w) (a_date appointment) (a_time appointment) None)
    as [[ok details] b1].
  cbn [fst snd]. destruct ok; cbn [negb].
  2: { cbn [run]. intros [= _ <-]. reflexivity. }
  rewrite run_bind, run_parse.
  destruct (parse_at _ _ _) as [naive | e].
  2: { cbn [run]. intros [= _ <-]. reflexivity. }
  cbn [run bind trigger handle].
  rewrite backend_set_backend.
  destruct (next_fault b1) as [f b2].
  destruct f.
  { cbn [run]. intros [= _ <-]. reflexivity. }
  rewrite run_bind, run_check.
  2: { change (cal_lock (set_backend ?b (set_backend ?b' (set_lock CalLock ?s w)))) with s.
       apply enterable_held_rlock. }
  cbn [run]. intros [= _ <-]. reflexivity.
Qed.

Lemma find_in_events (self : App101.GoogleCalendarManager) (date_str : string)
      (preferred_time : option string) (count : Z) (w : World) :
  events (backend (snd (find_in self date_str preferred_time count w))) = events (backend w).
Proof.
  unfold find_in. destruct (App101.service self); cbn [negb snd]; [| reflexivity].
  destruct (collect_in_shape self date_str count (App101.ordered_slots preferred_time) [] w)
    as (_ & _ & _ & _ & _ & H & _).
  exact H.
Qed.







(** Whatever the preferred time, the slots tried are the slots of the
    grid. *)
Lemma ordered_slots_grid (preferred : option string) (t : string) :
  In t (App101.ordered_slots preferred) <-> In t App101.time_slots.
Proof.
  assert (Hmem : forall x l, Py.mem x l = true <-> In x l).
  { intros x l. unfold Py.mem. rewrite existsb_exists. split.
    - intros (y & Hy & He). apply String.eqb_eq in He. now subst.
    - intros Hx. exists x. split; [exact Hx | apply String.eqb_refl]. }
  destruct preferred as [p |]; [| reflexivity].
  destruct (Py.mem p App101.time_slots) eqn:E.
  2: { unfold App101.ordered_slots. rewrite E, Bool.andb_false_r. reflexivity. }
  apply Hmem in E.
  assert (Hall : forallb
                   (fun p =>
                      forallb (fun x => Py.mem x App101.time_slots)
                              (App101.ordered_slots (Some p))
                      && forallb (fun x => Py.mem x (App101.ordered_slots (Some p)))
                                 App101.time_slots)
                   App101.time_slots = true) by (vm_compute; reflexivity).
  rewrite forallb_forall in Hall. specialize (Hall p E).
  apply andb_prop in Hall. destruct Hall as [H1 H2].
  rewrite forallb_forall in H1, H2. split; intros H.
  - apply Hmem. now apply H1.
  - apply Hmem. now apply H2.
Qed.

Lemma free_lock_enterable (me : nat) (l : LockSt) :
  kind l = Lock -> owner l = None -> depth l = O -> enterable me l.
Proof.
  destruct l as [k o d]. cbn. intros -> -> ->. apply (free_enterable me Lock).
Qed.




(** With 10:00 AM taken on Friday, the final check of [complete_booking]
    answers with the three nearest free slots and stores nothing. *)
Example complete_booking_sample :
  run 1 (App101Booking.complete_booking receptionist1 ready_session)
      (world0 Lock [busy "e1" 0 60] [])
  = Done (Ok ("Oh no! I'm so sorry, but someone just booked the 10:00 AM slot on "
                ++ "Friday, June 06. That time is already booked from 10:00 AM to 11:00 AM. "
                ++ "However, I have these times available on the same day: "
                ++ "11:00 AM, 9:00 AM, or 11:30 AM. Which one would work better for you?"))
         (world0 Lock [busy "e1" 0 60] []).
Proof. vm_compute. reflexivity. Qed.

(** ** Two callers at once *)

(** The first step of [create_appointment] takes the calendar lock, and
    the step after it wants the lock again. *)
Lemma create_first_step (me : nat) (self : App101.GoogleCalendarManager)
      (appointment : Appointment) (w w' : World)
      (p' : Prog (bool * option string * option string)) :
  App101.service self = true ->
  tstep me (App101.create_appointment self appointment) w = Some (p', w') ->
  wants_cal_lock p'
  /\ acquire me (cal_lock w) = Some (cal_lock w')
  /\ backend w' = backend w.
Proof.
  intros Hs. unfold App101.create_appointment. rewrite Hs. cbn [negb].
  unfold with_lock. cbn [bind tstep handle].
  change (lock_of CalLock w) with (cal_lock w).
  destruct (acquire me (cal_lock w)) as [l' |]; [| discriminate].
  intros [= <- <-]. split; [| split; reflexivity].
  unfold App101.check_availability. rewrite Hs. cbn [negb].
  unfold with_lock. cbn [bind wants_cal_lock]. exact I.
Qed.

Lemma create_wants_lock (self : App101.GoogleCalendarManager) (appointment : Appointment) :
  App101.service self = true ->
  wants_cal_lock (App101.create_appointment self appointment).
Proof.
  intros Hs. unfold App101.create_appointment. rewrite Hs. cbn [negb].
  unfold with_lock. cbn [bind wants_cal_lock]. exact I.
Qed.

(** A thread that wants a [threading.Lock] somebody holds cannot move. *)
Lemma wants_held_lock_stuck {A : Type} (me : nat) (p : Prog A) (w : World) (o : nat) :
  wants_cal_lock p ->
  kind (cal_lock w) = Lock ->
  owner (cal_lock w) = Some o ->
  tstep me p w = None.
Proof.
  intros Hw Hk Ho. destruct p as [a | X e k]; [contradiction |].
  destruct e; try contradiction. destruct l; try contradiction.
  cbn [tstep handle]. change (lock_of CalLock w) with (cal_lock w).
  unfold acquire. now rewrite Ho, Hk.
Qed.

(** C2. Two calls of [create_appointment] for the same slot, started
    together with a service configured and the manager's
    [threading.Lock] free: however their steps interleave, neither call
    ever returns and the calendar stays as it was; after the first step,
    which takes the lock, no step is possible. *)
Theorem concurrent_create_deadlock
        (self : App101.GoogleCalendarManager) (a1 a2 : Appointment) (w : World)
        (c : Prog (bool * option string * option string)
             * Prog (bool * option string * option string) * World) :
  App101.service self = true ->
  cal_lock w = new_lock Lock ->
  rtc cstep (App101.create_appointment self a1, App101.create_appointment self a2, w) c ->
  returned (fst (fst c)) = None
  /\ returned (snd (fst c)) = None
  /\ backend (snd c) = backend w
  /\ (c = (App101.create_appointment self a1, App101.create_appointment self a2, w)
      \/ forall c', ~ cstep c c').
Proof.
  intros Hs Hl Hreach.
  set (c0 := (App101.create_appointment self a1, App101.create_appointment self a2, w)) in *.
  assert (Hinv :
    c = c0
    \/ (wants_cal_lock (fst (fst c)) /\ wants_cal_lock (snd (fst c))
        /\ backend (snd c) = backend w
        /\ kind (cal_lock (snd c)) = Lock
        /\ exists o, owner (cal_lock (snd c)) = Some o)).
  { revert c Hreach.
    apply (rtc_ind_r
             (fun c => c = c0
                       \/ (wants_cal_lock (fst (fst c)) /\ wants_cal_lock (snd (fst c))
                           /\ backend (snd c) = backend w
                           /\ kind (cal_lock (snd c)) = Lock
                           /\ exists o, owner (cal_lock (snd c)) = Some o)));
      [now left | intros x y Hxy Hstep IH].
    right. destruct IH as [-> | (H1 & H2 & Hb & Hk & o & Ho)].
    - unfold c0 in Hstep. inversion Hstep as [p1 p1' p2 w0 w' Ht | p1 p2 p2' w0 w' Ht]; subst;
        cbn [fst snd];
        destruct (create_first_step _ self _ w w' _ Hs Ht) as (Hw & Hacq & Hb);
        rewrite Hl in Hacq; cbn in Hacq; injection Hacq as Hacq; rewrite <- Hacq; cbn;
        repeat split; auto using create_wants_lock; eauto.
    - destruct x as [[p1 p2] wx]. cbn [fst snd] in *.
      inversion Hstep as [q1 q1' q2 w0 w' Ht | q1 q2 q2' w0 w' Ht]; subst.
      + rewrite (wants_held_lock_stuck 1 p1 wx o H1 Hk Ho) in Ht. discriminate.
      + rewrite (wants_held_lock_stuck 2 p2 wx o H2 Hk Ho) in Ht. discriminate. }
  destruct Hinv as [-> | (H1 & H2 & Hb & Hk & o & Ho)].
  - unfold c0. cbn [fst snd].
    pose proof (create_wants_lock self a1 Hs) as W1.
    pose proof (create_wants_lock self a2 Hs) as W2.
    destruct (App101.create_appointment self a1); [contradiction |].
    destruct (App101.create_appointment self a2); [contradiction |].
    repeat split; auto.
  - destruct c as [[p1 p2] wc]. cbn [fst snd] in *.
    repeat split.
    + destruct p1; [contradiction | reflexivity].
    + destruct p2; [contradiction | reflexivity].
    + exact Hb.
    + right. intros c' Hstep.
      inversion Hstep as [q1 q1' q2 w0 w' Ht | q1 q2 q2' w0 w' Ht]; subst.
      * rewrite (wants_held_lock_stuck 1 p1 wc o H1 Hk Ho) in Ht. discriminate.
      * rewrite (wants_held_lock_stuck 2 p2 wc o H2 Hk Ho) in Ht. discriminate.
Qed.

Lemma concurrent_create_deadlock_witness :
  let c0 := (App101.create_appointment manager0 jane,
             App101.create_appointment manager0 john, world0 Lock [] []) in
  returned (fst (fst c0)) = None
  /\ returned (snd (fst c0)) = None
  /\ backend (snd c0) = backend (world0 Lock [] [])
  /\ (c0 = (App101.create_appointment manager0 jane,
            App101.create_appointment manager0 john, world0 Lock [] [])
      \/ forall c', ~ cstep c0 c').
Proof.
  exact (concurrent_create_deadlock manager0 jane john (world0 Lock [] []) _
           eq_refl eq_refl (rtc_refl _ _)).
Defined.

(** The two callers of the slot of Friday 10:00 AM: whichever takes the
    lock first, both are left waiting. *)
Example two_callers_with_Lock :
  outcomes 100 (App101.create_appointment manager0 jane)
           (App101.create_appointment manager0 john) (world0 Lock [] [])
  = [(None, None); (None, None)].
Proof. vm_compute. reflexivity. Qed.

(** Had the lock been a [threading.RLock], whichever caller took it first
    would have got the event and the other the conflict. *)
Example two_callers_with_RLock :
  outcomes 100 (App101.create_appointment manager0 jane)
           (App101.create_appointment manager0 john) (world0 RLock [] [])
  = [(Some (true, Some "evt0", None),
      Some (false, None,
            Some ("Cannot book 10:00 AM on Friday, June 06 - slot is "
                    ++ "already booked from 10:00 AM to 11:00 AM")));
     (Some (false, None,
            Some ("Cannot book 10:00 AM on Friday, June 06 - slot is "
                    ++ "already booked from 10:00 AM to 11:00 AM")),
      Some (true, Some "evt0", None))].
Proof. vm_compute. reflexivity. Qed.

(** ** Extraction *)

Section KeepsRules.
Context {S : Type} (data : S -> gmap string Val).

Lemma keeps_sret {A : Type} (keys : list string) (s0 : S) (a : A) :
  keeps data keys s0 (sret a).
Proof. intros me s w sr w' Hs Hrun. cbn in Hrun. injection Hrun as <- _. exact Hs. Qed.

Lemma keeps_sbind {A B : Type} (keys : list string) (s0 : S)
      (m : SM S A) (f : A -> SM S B) :
  keeps data keys s0 m -> (forall a, keeps data keys s0 (f a)) ->
  keeps data keys s0 (sbind m f).
Proof.
  intros Hm Hf me s w sr w' Hs Hrun. unfold sbind in Hrun. rewrite run_bind in Hrun.
  destruct (run me (m s) w) as [[s1 r1] w1 | l w1] eqn:E; [| discriminate].
  pose proof (Hm me s w _ _ Hs E) as H1. cbn in H1.
  destruct r1 as [a | e].
  - exact (Hf a me s1 w1 sr w' H1 Hrun).
  - cbn in Hrun. injection Hrun as <- _. exact H1.
Qed.

(** Reading the session: what follows runs on a session that holds
    under [keys] what [s0] holds. *)
Lemma keeps_get {B : Type} (keys : list string) (s0 : S) (f : S -> SM S B) :
  (forall session, unchanged data keys s0 session -> keeps data keys s0 (f session)) ->
  keeps data keys s0 (sbind get_session f).
Proof.
  intros H me s w sr w' Hs Hrun.
  change (run me (f s s) w = Done sr w') in Hrun.
  exact (H s Hs me s w sr w' Hs Hrun).
Qed.

Lemma keeps_lift {A : Type} (keys : list string) (s0 : S) (p : Prog A) :
  keeps data keys s0 (lift p).
Proof.
  intros me s w sr w' Hs Hrun. unfold lift in Hrun. rewrite run_bind in Hrun.
  destruct (run me p w) as [a w1 | l w1]; [| discriminate].
  cbn in Hrun. injection Hrun as <- _. exact Hs.
Qed.

Lemma keeps_lift_res {A : Type} (keys : list string) (s0 : S) (p : Prog (Res A)) :
  keeps data keys s0 (lift_res p).
Proof.
  intros me s w sr w' Hs Hrun. unfold lift_res in Hrun. rewrite run_bind in Hrun.
  destruct (run me p w) as [a w1 | l w1]; [| discriminate].
  cbn in Hrun. injection Hrun as <- _. exact Hs.
Qed.

Lemma keeps_modify (keys : list string) (s0 : S) (f : S -> S) :
  (forall s key, In key keys -> data (f s) !! key = data s !! key) ->
  keeps data keys s0 (modify f).
Proof.
  intros Hf me s w sr w' Hs Hrun. cbn in Hrun. injection Hrun as <- _.
  intros key Hin. cbn. rewrite (Hf s key Hin). exact (Hs key Hin).
Qed.

End KeepsRules.

Lemma keeps_set_data (keys : list string) (s0 : CallSession) (k : string) (v : Val) :
  ~ In k keys -> keeps customer_data keys s0 (modify (App101.set_data k v)).
Proof.
  intros Hk. apply keeps_modify. intros s key Hin. cbn.
  apply lookup_insert_ne. intros ->. exact (Hk Hin).
Qed.

Lemma has_unchanged (keys : list string) (s0 s : CallSession) (k : string) :
  unchanged customer_data keys s0 s -> In k keys -> App101.has k s = App101.has k s0.
Proof.
  intros H Hin. unfold App101.has, App101.get_data. rewrite (H k Hin). reflexivity.
Qed.

Ltac not_in := cbn; intuition discriminate.

Ltac use_has Hs :=
  repeat match goal with
         | |- context [App101.has ?k ?s] =>
             match type of Hs with
             | unchanged _ _ _ s => rewrite (has_unchanged _ _ s k Hs) by (cbn; auto)
             end
         end;
  repeat match goal with
         | H : App101.has _ _ = true |- _ => rewrite H
         end.

(** [_check_and_set_time] writes the time, or the unavailable time, the
    reason and the alternatives, and nothing else. *)
Lemma keeps_check_and_set_time (keys : list string) (s0 : CallSession)
      (self : App101.TwilioAIReceptionist) (time : string) :
  ~ In "time" keys -> ~ In "unavailable_time" keys -> ~ In "conflict_reason" keys ->
  ~ In "alternative_times" keys ->
  keeps customer_data keys s0 (App101Extract._check_and_set_time self time).
Proof.
  intros H1 H2 H3 H4. unfold App101Extract._check_and_set_time.
  apply keeps_get. intros session Hs. cbv beta zeta.
  destruct (negb _); [apply keeps_sret |].
  destruct (App101.calendar_manager self) as [cm |].
  - apply keeps_sbind; [apply keeps_lift | intros [is_available conflict_details]].
    destruct is_available.
    + apply keeps_sbind; [apply keeps_set_data; assumption | intros _; apply keeps_sret].
    + repeat (apply keeps_sbind;
              [first [apply keeps_set_data; assumption | apply keeps_lift] | intros ?]).
      apply keeps_sret.
  - apply keeps_sbind; [apply keeps_set_data; assumption | intros _; apply keeps_sret].
Qed.

Ltac keeps_step :=
  cbv beta iota zeta;
  lazymatch goal with
  | |- keeps _ _ _ (sbind get_session _) =>
      apply keeps_get;
      let session := fresh "session" in
      let Hs := fresh "Hs" in
      intros session Hs; use_has Hs; cbn [negb andb]
  | |- keeps _ _ _ (sbind _ _) => apply keeps_sbind; [| intros ?]
  | |- keeps _ _ _ (sret _) => apply keeps_sret
  | |- keeps _ _ _ (lift _) => apply keeps_lift
  | |- keeps _ _ _ (lift_res _) => apply keeps_lift_res
  | |- keeps _ _ _ (modify (App101.set_data _ _)) => apply keeps_set_data; not_in
  | |- keeps _ _ _ (App101Extract._check_and_set_time _ _) =>
      apply keeps_check_and_set_time; not_in
  | |- keeps _ _ _ (when _ _) => unfold when
  | |- keeps _ _ _ (if ?c then _ else _) => destruct c eqn:?
  | |- keeps _ _ _ (match ?x with _ => _ end) => destruct x eqn:?
  end.

(** In [app101.py], [extract_booking_info] leaves a filled name, phone,
    service or date as it is, and a filled time too when the date is
    filled, whatever the utterance. *)
Lemma app101_extract_keeps (self : App101.TwilioAIReceptionist) (text : string)
      (s0 : CallSession) (key : string) :
  In key fields -> App101.has key s0 = true ->
  (key = "time" -> App101.has "date" s0 = true) ->
  keeps customer_data (guard_keys key) s0 (App101Extract.extract_booking_info self text).
Proof.
  intros Hin Hkey Hdate. unfold App101Extract.extract_booking_info.
  cbn in Hin. destruct Hin as [<- | [<- | [<- | [<- | [<- | []]]]]];
    try specialize (Hdate eq_refl);
    match goal with
    | |- keeps _ ?ks _ _ => let ks' := eval vm_compute in ks in change ks with ks'
    end;
    repeat keeps_step.
Qed.

Lemma infobridge_keeps_set_data (keys : list string) (s0 : InfobridgeExtract.CallSession)
      (k : string) (v : Val) :
  ~ In k keys ->
  keeps InfobridgeExtract.customer_data keys s0 (modify (InfobridgeExtract.set_data k v)).
Proof.
  intros Hk. apply keeps_modify. intros s key Hin. cbn.
  apply lookup_insert_ne. intros ->. exact (Hk Hin).
Qed.

Lemma infobridge_has_unchanged (keys : list string) (s0 s : InfobridgeExtract.CallSession)
      (k : string) :
  unchanged InfobridgeExtract.customer_data keys s0 s -> In k keys ->
  InfobridgeExtract.has k s = InfobridgeExtract.has k s0.
Proof.
  intros H Hin. unfold InfobridgeExtract.has, InfobridgeExtract.get_data.
  rewrite (H k Hin). reflexivity.
Qed.

Ltac infobridge_use_has Hs :=
  repeat match goal with
         | |- context [InfobridgeExtract.has ?k ?s] =>
             match type of Hs with
             | unchanged _ _ _ s =>
                 rewrite (infobridge_has_unchanged _ _ s k Hs) by (cbn; auto)
             end
         end;
  repeat match goal with
         | H : InfobridgeExtract.has _ _ = true |- _ => rewrite H
         end.

Ltac infobridge_keeps_step :=
  cbv beta iota zeta;
  lazymatch goal with
  | |- keeps _ _ _ (sbind get_session _) =>
      apply keeps_get;
      let session := fresh "session" in
      let Hs := fresh "Hs" in
      intros session Hs; infobridge_use_has Hs; cbn [negb andb]
  | |- keeps _ _ _ (sbind _ _) => apply keeps_sbind; [| intros ?]
  | |- keeps _ _ _ (sret _) => apply keeps_sret
  | |- keeps _ _ _ (lift _) => apply keeps_lift
  | |- keeps _ _ _ (lift_res _) => apply keeps_lift_res
  | |- keeps _ _ _ (modify (InfobridgeExtract.set_data _ _)) =>
      apply infobridge_keeps_set_data; not_in
  | |- keeps _ _ _ (when _ _) => unfold when
  | |- keeps _ _ _ (if ?c then _ else _) => destruct c eqn:?
  | |- keeps _ _ _ (match ?x with _ => _ end) => destruct x eqn:?
  end.

(** In [infobridge.py], [extract_booking_info] leaves a filled name,
    service, date or time as it is, whatever the utterance. *)
Lemma infobridge_extract_keeps (self : InfobridgeExtract.TwilioAIReceptionist)
      (user_input : string) (s0 : InfobridgeExtract.CallSession) (key : string) :
  In key ["name"; "service"; "date"; "time"] -> InfobridgeExtract.has key s0 = true ->
  keeps InfobridgeExtract.customer_data [key] s0
        (InfobridgeExtract.extract_booking_info self user_input).
Proof.
  intros Hin Hkey. unfold InfobridgeExtract.extract_booking_info.
  cbn in Hin. destruct Hin as [<- | [<- | [<- | [<- | []]]]];
    repeat infobridge_keeps_step.
Qed.

(** Every formatter of [extract_time] of [app101.py] indexes the tuple
    of groups one place too far: whenever one of its three patterns
    matches, the call raises [IndexError]. *)
Lemma extract_time_match_raises (self : App101.TwilioAIReceptionist) :
  run 1 (App101Extract.extract_time self "tomorrow at 2pm") (world0 Lock [] [])
  = Done (Raise "IndexError") (world0 Lock [] [])
  /\ run 1 (App101Extract.extract_time self "at 2:30 pm") (world0 Lock [] [])
     = Done (Raise "IndexError") (world0 Lock [] [])
  /\ run 1 (App101Extract.extract_time self "around 900") (world0 Lock [] [])
     = Done (Raise "IndexError") (world0 Lock [] []).
Proof. repeat split; vm_compute; reflexivity. Qed.

(** C7. In both files [extract_booking_info] leaves a filled field as
    it is, whatever the utterance: in [app101.py] the name, the phone,
    the service and the date, and the time when the date is filled too;
    in [infobridge.py] the name, the service, the date and the time. The
    code departs from the claim in two places. In [app101.py], on a first
    turn with the utterance "i need an appointment tomorrow 9:00", the
    first run of [extract_booking_info] sets the date and the phone and
    leaves the time unset, and a second run on the same utterance,
    nothing changed in between, sets the time to 9:00 AM. In
    [infobridge.py], [extract_booking_info] replaces a phone number that
    is already filled. *)
Theorem extract_repeats_and_overwrites :
  (forall (self : App101.TwilioAIReceptionist) (text : string) (s : CallSession)
          (key : string) (me : nat) (w : World) s' r w',
      In key fields -> App101.has key s = true ->
      (key = "time" -> App101.has "date" s = true) ->
      run me (App101Extract.extract_booking_info self text s) w = Done (s', r) w' ->
      customer_data s' !! key = customer_data s !! key)
  /\ (forall (self : InfobridgeExtract.TwilioAIReceptionist) (user_input : string)
             (s : InfobridgeExtract.CallSession) (key : string) (me : nat) (w : World)
             s' r w',
         In key ["name"; "service"; "date"; "time"] ->
         InfobridgeExtract.has key s = true ->
         run me (InfobridgeExtract.extract_booking_info self user_input s) w
         = Done (s', r) w' ->
         InfobridgeExtract.customer_data s' !! key
         = InfobridgeExtract.customer_data s !! key)
  /\ (booking_fields first_turn_session = [VNone; VNone; VNone; VNone; VNone]
      /\ option_map booking_fields
                    (a_extract_once receptionist0 "i need an appointment tomorrow 9:00"
                                    first_turn_session (world0 Lock [] []))
         = Some [VNone; VStr "5551234567"; VNone; VStr "Tuesday, June 03"; VNone]
      /\ option_map booking_fields
                    (a_extract_twice receptionist0 "i need an appointment tomorrow 9:00"
                                     first_turn_session (world0 Lock [] []))
         = Some [VNone; VStr "5551234567"; VNone; VStr "Tuesday, June 03";
                 VStr "9:00 AM"])
  /\ (ibooking_fields phoned_session = [VNone; VStr "5551234567"; VNone; VNone; VNone]
      /\ option_map ibooking_fields
                    (session_after
                       (run 1 (InfobridgeExtract.extract_booking_info ireceptionist0
                                 "you can reach me at 555-987-6543" phoned_session)
                            (world0 Lock [] [])))
         = Some [VNone; VStr "5559876543"; VNone; VNone; VNone]).
Proof.
  split; [| split; [| repeat split; vm_compute; reflexivity]].
  - intros self text s key me w s' r w' Hin Hkey Hdate Hrun.
    pose proof (app101_extract_keeps self text s key Hin Hkey Hdate) as K.
    refine (K me s w (s', r) w' (fun _ _ => eq_refl) Hrun key _).
    unfold guard_keys. destruct (String.eqb key "time") eqn:E.
    + apply String.eqb_eq in E. left. symmetry. exact E.
    + left. reflexivity.
  - intros self user_input s key me w s' r w' Hin Hkey Hrun.
    pose proof (infobridge_extract_keeps self user_input s key Hin Hkey) as K.
    refine (K me s w (s', r) w' (fun _ _ => eq_refl) Hrun key _).
    left. reflexivity.
Qed.

Lemma extract_repeats_and_overwrites_witness :
  exists s' r w',
    run 1 (App101Extract.extract_booking_info
             receptionist0 "my name is bob and i need a cleaning tomorrow" named_session)
        (world0 Lock [] [])
    = Done (s', r) w'
    /\ booking_fields named_session
       = [VStr "Jane Doe"; VNone; VNone; VNone; VNone]
    /\ booking_fields s'
       = [VStr "Jane Doe"; VStr "5551234567"; VStr "Cleaning"; VStr "Tuesday, June 03";
          VNone]
    /\ customer_data s' !! "name" = customer_data named_session !! "name".
Proof.
  eexists _, _, _.
  split; [vm_compute; reflexivity |].
  split; [vm_compute; reflexivity |].
  split; [vm_compute; reflexivity |].
  refine (proj1 extract_repeats_and_overwrites receptionist0
            "my name is bob and i need a cleaning tomorrow" named_session "name" 1%nat
            (world0 Lock [] []) _ _ _ _ _ _ _).
  - left. reflexivity.
  - vm_compute. reflexivity.
  - intros H. discriminate H.
  - vm_compute. reflexivity.
Defined.

(* ===================================================================== *)
(** * Further properties *)
(* ===================================================================== *)

(** ** The appointment store of [app101.py] *)

(** [add_appointment] under a free [threading.Lock]: the appointment is
    appended, and [save_appointments] waits for the lock its caller
    holds. *)
Lemma run_add_blocked (me : nat) (a : Appointment) (w : World) :
  store_lock w = new_lock Lock ->
  run me (App101.add_appointment a) w
  = Blocked StoreLock
            (set_appointments (appointments w ++ [a])%list
               (set_lock StoreLock (mkLock Lock (Some me) 1) w)).
Proof.
  intros Hl. unfold App101.add_appointment, App101.save_appointments, with_lock.
  cbn [run bind trigger handle lock_of]. rewrite Hl. cbn. reflexivity.
Qed.

(** X1. With the [threading.Lock] the store is created with, free,
    [add_appointment] appends the appointment to the list in memory and
    never returns: [save_appointments], called with the lock held, waits
    for that lock, so the file is not written. *)
Theorem add_appointment_never_returns (me : nat) (a : Appointment) (w : World) :
  store_lock w = new_lock Lock ->
  exists w',
    run me (App101.add_appointment a) w = Blocked StoreLock w'
    /\ appointments w' = (appointments w ++ [a])%list
    /\ appointments_file w' = appointments_file w
    /\ store_lock w' = mkLock Lock (Some me) 1.
Proof.
  intros Hl. rewrite run_add_blocked by exact Hl.
  eexists. split; [reflexivity |]. repeat split.
Qed.

Lemma add_appointment_never_returns_witness :
  exists w',
    run 1 (App101.add_appointment jane) (world0 Lock [] []) = Blocked StoreLock w'
    /\ appointments w' = [jane]
    /\ appointments_file w' = []
    /\ store_lock w' = mkLock Lock (Some 1%nat) 1.
Proof.
  exact (add_appointment_never_returns 1%nat jane (world0 Lock [] []) eq_refl).
Defined.

Lemma run_store_blocked (me : nat) (session : CallSession) (ok : bool) (a : Appointment)
      (w : World) :
  store_lock w = new_lock Lock ->
  exists w', run me (App101Booking.store_and_confirm session ok a) w = Blocked StoreLock w'
             /\ appointments_file w' = appointments_file w.
Proof.
  intros Hs. unfold App101Booking.store_and_confirm.
  rewrite run_bind, run_add_blocked by exact Hs.
  eexists. split; reflexivity.
Qed.

Lemma book_never_confirms
      (me : nat) (self : App101.TwilioAIReceptionist) (session : CallSession)
      (date time : string) (w : World) :
  cal_lock w = new_lock Lock ->
  store_lock w = new_lock Lock ->
  match run me (App101Booking.book self session date time) w with
  | Done r w' => w' = w /\ r = Raise "KeyError"
  | Blocked _ w' => appointments_file w' = appointments_file w
  end.
Proof.
  intros Hc Hs. unfold App101Booking.book, App101Booking.item.
  destruct (customer_data session !! "name"); [| cbn; auto].
  destruct (customer_data session !! "service"); [| cbn; auto].
  destruct (customer_data session !! "date"); [| cbn; auto].
  destruct (customer_data session !! "time"); [| cbn; auto].
  cbn [bind trigger run handle].
  destruct (App101.calendar_manager self) as [cm |].
  - rewrite run_bind. destruct (App101.service cm) eqn:Hsv.
    + rewrite run_create_blocked by (rewrite ?Hc; auto). reflexivity.
    + unfold App101.create_appointment at 1. rewrite Hsv. cbn [negb run andb].
      unfold App101.find_next_available_slots. rewrite Hsv. cbn [negb bind].
      match goal with
      | |- context [Py.contains ?a ?b] =>
          let v := eval vm_compute in (Py.contains a b) in
          change (Py.contains a b) with v
      end.
      cbv iota.
      match goal with
      | |- context [run me (App101Booking.store_and_confirm ?s ?o ?a) w] =>
          destruct (run_store_blocked me s o a w Hs) as (w' & -> & Hf)
      end.
      exact Hf.
  - match goal with
    | |- context [run me (App101Booking.store_and_confirm ?s ?o ?a) w] =>
        destruct (run_store_blocked me s o a w Hs) as (w' & -> & Hf)
    end.
    exact Hf.
Qed.

(** X2. In a process whose calendar lock and store lock are the free
    [threading.Lock]s their constructors create, [complete_booking] never
    returns a confirmation: when it returns, it raised [KeyError] or it
    answers that the final check found the slot taken, with the
    alternatives [find_next_available_slots] returned, and the
    appointments in memory and on file are as before; when it does not
    return, the file of appointments is as before. *)
Theorem complete_booking_never_confirms
        (me : nat) (self : App101.TwilioAIReceptionist) (session : CallSession) (w : World) :
  cal_lock w = new_lock Lock ->
  store_lock w = new_lock Lock ->
  match run me (App101Booking.complete_booking self session) w with
  | Done r w' =>
      appointments w' = appointments w
      /\ appointments_file w' = appointments_file w
      /\ (r = Raise "KeyError"
          \/ exists cm date time details alternatives w1,
               App101.calendar_manager self = Some cm
               /\ customer_data session !! "date" = Some date
               /\ customer_data session !! "time" = Some time
               /\ run me (App101.check_availability cm (App101.str_of_val date)
                            (App101.str_of_val time) None) w
                  = Done (false, details) w1
               /\ run me (App101.find_next_available_slots cm (App101.str_of_val date)
                            (Some (App101.str_of_val time)) 3) w1
                  = Done alternatives w'
               /\ r = Ok (App101Booking.taken_at_check (App101.str_of_val time)
                            (App101.str_of_val date) details alternatives))
  | Blocked _ w' => appointments_file w' = appointments_file w
  end.
Proof.
  intros Hc Hs.
  unfold App101Booking.complete_booking, App101Booking.item.
  destruct (customer_data session !! "date") as [date |] eqn:Hd; [| cbn; auto].
  destruct (customer_data session !! "time") as [time |] eqn:Ht; [| cbn; auto].
  destruct (App101.calendar_manager self) as [cm |] eqn:Hcm.
  - assert (Hl : enterable me (cal_lock w)) by (rewrite Hc; apply free_enterable).
    rewrite run_bind.
    pose proof (run_check me cm w (App101.str_of_val date) (App101.str_of_val time) None Hl)
      as Hrc.
    rewrite Hrc.
    destruct (check_in cm w (App101.str_of_val date) (App101.str_of_val time) None)
      as [[ok details] b] eqn:Hchk.
    cbn [fst snd] in *. destruct ok; cbn [negb].
    + pose proof (book_never_confirms me self session (App101.str_of_val date)
                    (App101.str_of_val time) (set_backend b w) Hc Hs) as H.
      destruct (run me (App101Booking.book self session _ _) (set_backend b w))
        as [r w' | l w'].
      * destruct H as [-> ->]. auto.
      * exact H.
    + assert (Hl1 : enterable me (cal_lock (set_backend b w))) by exact Hl.
      pose proof (run_find me cm (App101.str_of_val date) (Some (App101.str_of_val time)) 3
                    (set_backend b w) Hl1) as Hrf.
      rewrite run_bind, Hrf.
      cbn [run].
      destruct (find_in_world cm (App101.str_of_val date) (Some (App101.str_of_val time)) 3
                              (set_backend b w)) as (b' & Hb').
      split; [rewrite Hb'; reflexivity |]. split; [rewrite Hb'; reflexivity |]. right.
      exists cm, date, time, details. eexists. exists (set_backend b w).
      split; [reflexivity |]. split; [reflexivity |]. split; [reflexivity |].
      split; [exact Hrc |]. split; [exact Hrf |]. reflexivity.
  - pose proof (book_never_confirms me self session (App101.str_of_val date)
                  (App101.str_of_val time) w Hc Hs) as H.
    destruct (run me (App101Booking.book self session _ _) w) as [r w' | l w'].
    + destruct H as [-> ->]. auto.
    + exact H.
Qed.

Lemma complete_booking_never_confirms_witness :
  match run 1 (App101Booking.complete_booking receptionist1 ready_session)
            (world0 Lock [] []) with
  | Done r w' =>
      appointments w' = []
      /\ appointments_file w' = []
      /\ (r = Raise "KeyError"
          \/ exists cm date time details alternatives w1,
               App101.calendar_manager receptionist1 = Some cm
               /\ customer_data ready_session !! "date" = Some date
               /\ customer_data ready_session !! "time" = Some time
               /\ run 1 (App101.check_availability cm (App101.str_of_val date)
                           (App101.str_of_val time) None) (world0 Lock [] [])
                  = Done (false, details) w1
               /\ run 1 (App101.find_next_available_slots cm (App101.str_of_val date)
                           (Some (App101.str_of_val time)) 3) w1
                  = Done alternatives w'
               /\ r = Ok (App101Booking.taken_at_check (App101.str_of_val time)
                            (App101.str_of_val date) details alternatives))
  | Blocked _ w' => appointments_file w' = []
  end.
Proof.
  exact (complete_booking_never_confirms 1%nat receptionist1 ready_session
           (world0 Lock [] []) eq_refl eq_refl).
Defined.

(** ** Times in an utterance *)

Lemma formatters_raise (pattern : Re.regex) (n : nat) (formatter : list string -> Res string)
      (mo : Re.match_obj) :
  In (pattern, n, formatter) App101Extract.time_patterns ->
  formatter (App101Extract.groups mo n) = Raise "IndexError".
Proof.
  intros [H | [H | [H | []]]]; injection H as <- <- <-; cbn.
  - reflexivity.
  - reflexivity.
  - reflexivity.
Qed.

Lemma first_time_raises (patterns : list (Re.regex * nat * (list string -> Res string)))
      (text_lower : string) (r : Res string) :
  (forall p, In p patterns -> In p App101Extract.time_patterns) ->
  App101Extract.first_time patterns text_lower = Some r -> r = Raise "IndexError".
Proof.
  induction patterns as [| [[pattern n] formatter] rest IH]; cbn [App101Extract.first_time];
    intros Hin; [discriminate |].
  destruct (Re.search false pattern text_lower) as [mo |].
  - intros [= <-]. apply formatters_raise with (pattern := pattern). apply Hin. now left.
  - apply IH. intros p Hp. apply Hin. now right.
Qed.

Lemma first_time_found (patterns : list (Re.regex * nat * (list string -> Res string)))
      (text_lower : string) (pattern : Re.regex) (n : nat)
      (formatter : list string -> Res string) (mo : Re.match_obj) :
  In (pattern, n, formatter) patterns ->
  Re.search false pattern text_lower = Some mo ->
  App101Extract.first_time patterns text_lower <> None.
Proof.
  induction patterns as [| [[p' n'] f'] rest IH]; cbn [App101Extract.first_time In];
    [tauto |].
  intros [H | H] Hs.
  - injection H as -> -> ->. rewrite Hs. discriminate.
  - destruct (Re.search false p' text_lower); [discriminate | now apply IH].
Qed.

Lemma run_extract_time_found (me : nat) (self : App101.TwilioAIReceptionist) (text : string)
      (w : World) :
  time_pattern_found text ->
  run me (App101Extract.extract_time self text) w = Done (Raise "IndexError") w.
Proof.
  intros (pattern & n & formatter & mo & Hin & Hs).
  pose proof (first_time_found _ _ _ _ _ _ Hin Hs) as Hne.
  unfold App101Extract.extract_time.
  destruct (App101Extract.first_time App101Extract.time_patterns (Py.lower text))
    as [r |] eqn:E; [| contradiction].
  rewrite (first_time_raises _ _ r (fun p H => H) E). reflexivity.
Qed.

(** X3. [extract_time] of [app101.py] never returns a time read by one of
    its patterns: when a pattern is found in the text the call raises
    [IndexError], since every formatter indexes the tuple of groups one
    place too far. A time it does return is one of the defaults for
    morning, afternoon and evening, or the answer of the text model. *)
Theorem extract_time_reads_no_time
        (me : nat) (self : App101.TwilioAIReceptionist) (text : string) (w : World) :
  (time_pattern_found text ->
   run me (App101Extract.extract_time self text) w = Done (Raise "IndexError") w)
  /\ (forall t w',
        run me (App101Extract.extract_time self text) w = Done (Ok (Some t)) w' ->
        In t ["9:00 AM"; "12:00 PM"; "5:00 PM"]
        \/ (App101.gemini_enabled self = true
            /\ exists response,
                 gemini w (App101Extract.time_prompt text) = Some response
                 /\ t = App101Extract.strip_ws response)).
Proof.
  split; [apply run_extract_time_found |].
  intros t w'. unfold App101Extract.extract_time.
  destruct (App101Extract.first_time App101Extract.time_patterns (Py.lower text))
    as [r |] eqn:E.
  { rewrite (first_time_raises _ _ r (fun p H => H) E). cbn. discriminate. }
  assert (Hwords : forall o,
            match find (fun wt => Py.contains (fst wt) (Py.lower text))
                       App101Extract.time_words with
            | Some (_, t0) => Some t0
            | None => None
            end = Some o -> In o ["9:00 AM"; "12:00 PM"; "5:00 PM"]).
  { intros o. cbn [find App101Extract.time_words fst].
    repeat (destruct (Py.contains _ _); [intros [= <-]; cbn; tauto |]). discriminate. }
  destruct (App101.gemini_enabled self) eqn:Hg.
  - cbn [bind trigger run handle].
    destruct (gemini w (App101Extract.time_prompt text)) as [response |] eqn:Hr.
    + destruct (_ && _ && _); cbn [run].
      * intros [= <- _]. right. split; [reflexivity |]. exists response. auto.
      * intros [= H _]. left. now apply Hwords.
    + cbn. intros [= H _]. left. now apply Hwords.
  - cbn [run]. intros [= H _]. left. now apply Hwords.
Qed.

Lemma extract_time_reads_no_time_witness :
  run 1 (App101Extract.extract_time receptionist0 "tomorrow at 2pm") (world0 Lock [] [])
  = Done (Raise "IndexError") (world0 Lock [] [])
  /\ (In "9:00 AM" ["9:00 AM"; "12:00 PM"; "5:00 PM"]
      \/ (App101.gemini_enabled receptionist0 = true
          /\ exists response,
               gemini (world0 Lock [] []) (App101Extract.time_prompt "in the morning")
               = Some response
               /\ "9:00 AM" = App101Extract.strip_ws response)).
Proof.
  split.
  - apply (proj1 (extract_time_reads_no_time 1%nat receptionist0 "tomorrow at 2pm"
                    (world0 Lock [] []))).
    eexists _, _, _, _. split; [right; left; reflexivity |]. vm_compute. reflexivity.
  - apply (proj2 (extract_time_reads_no_time 1%nat receptionist0 "in the morning"
                    (world0 Lock [] [])) "9:00 AM" (world0 Lock [] [])).
    vm_compute. reflexivity.
Defined.
Section RaisesRules.
Context (e : string) (I : CallSession -> Prop).

Lemma rk_sret {A : Type} (a : A) : raises_or_keeps e I (sret a).
Proof. intros me s w Hs. exists s, (Ok a), w. eauto. Qed.

Lemma rk_lift {A : Type} (p : Prog A) :
  (forall me w, exists a w', run me p w = Done a w') -> raises_or_keeps e I (lift p).
Proof.
  intros Hp me s w Hs. destruct (Hp me w) as (a & w' & Hr).
  exists s, (Ok a), w'. unfold lift. rewrite run_bind, Hr. eauto.
Qed.

Lemma rk_modify (f : CallSession -> CallSession) :
  (forall s, I s -> I (f s)) -> raises_or_keeps e I (modify f).
Proof.
  intros Hf me s w Hs. exists (f s), (Ok tt), w.
  split; [reflexivity |]. split; [now apply Hf |]. right. now exists tt.
Qed.

Lemma rk_sbind {A B : Type} (m : SM CallSession A) (f : A -> SM CallSession B) :
  raises_or_keeps e I m -> (forall a, raises_or_keeps e I (f a)) ->
  raises_or_keeps e I (sbind m f).
Proof.
  intros Hm Hf me s w Hs.
  destruct (Hm me s w Hs) as (s1 & r1 & w1 & Hr & Hs1 & [-> | [a ->]]).
  - exists s1, (Raise e), w1. unfold sbind. rewrite run_bind, Hr. auto.
  - destruct (Hf a me s1 w1 Hs1) as (s2 & r2 & w2 & Hr2 & H2).
    exists s2, r2, w2. unfold sbind. rewrite run_bind, Hr. auto.
Qed.

Lemma rk_get {B : Type} (f : CallSession -> SM CallSession B) :
  (forall session, I session -> raises_or_keeps e I (f session)) ->
  raises_or_keeps e I (sbind get_session f).
Proof.
  intros H me s w Hs. change (sbind get_session f s) with (f s s). exact (H s Hs me s w Hs).
Qed.

Lemma rk_raises {A : Type} (m : SM CallSession A) : raises e I m -> raises_or_keeps e I m.
Proof.
  intros H me s w Hs. destruct (H me s w Hs) as (s' & w' & Hr & Hs').
  exists s', (Raise e), w'. auto.
Qed.

Lemma raises_sbind_first {A B : Type} (m : SM CallSession A) (f : A -> SM CallSession B) :
  raises e I m -> raises e I (sbind m f).
Proof.
  intros Hm me s w Hs. destruct (Hm me s w Hs) as (s1 & w1 & Hr & Hs1).
  exists s1, w1. unfold sbind. now rewrite run_bind, Hr.
Qed.

Lemma raises_sbind {A B : Type} (m : SM CallSession A) (f : A -> SM CallSession B) :
  raises_or_keeps e I m -> (forall a, raises e I (f a)) -> raises e I (sbind m f).
Proof.
  intros Hm Hf me s w Hs.
  destruct (Hm me s w Hs) as (s1 & r1 & w1 & Hr & Hs1 & [-> | [a ->]]).
  - exists s1, w1. unfold sbind. now rewrite run_bind, Hr.
  - destruct (Hf a me s1 w1 Hs1) as (s2 & w2 & Hr2 & Hs2).
    exists s2, w2. unfold sbind. now rewrite run_bind, Hr.
Qed.

Lemma raises_get {B : Type} (f : CallSession -> SM CallSession B) :
  (forall session, I session -> raises e I (f session)) ->
  raises e I (sbind get_session f).
Proof.
  intros H me s w Hs. change (sbind get_session f s) with (f s s). exact (H s Hs me s w Hs).
Qed.

Lemma raises_lift_res {A : Type} (p : Prog (Res A)) :
  (forall me w, run me p w = Done (Raise e) w) -> raises e I (lift_res p).
Proof.
  intros Hp me s w Hs. exists s, w. unfold lift_res. now rewrite run_bind, Hp.
Qed.

End RaisesRules.

Lemma time_unset_set_data (k : string) (v : Val) (s : CallSession) :
  k <> "time" -> k <> "preferred_time" -> time_unset s -> time_unset (App101.set_data k v s).
Proof.
  intros H1 H2 [Ht Hp]. unfold time_unset, App101.has, App101.get_data in *. cbn.
  rewrite !lookup_insert_ne by congruence. auto.
Qed.

Lemma run_extract_date (me : nat) (text : string) (w : World) :
  exists d w', run me (App101Extract.extract_date text) w = Done d w'.
Proof.
  unfold App101Extract.extract_date. cbn [bind trigger run handle].
  destruct (Py.contains "today" _); [eauto |].
  destruct (Py.contains "tomorrow" _); [eauto |].
  destruct (find _ _); eauto.
Qed.

(** X4. When a time pattern is found in the utterance and the session holds
    no time and no preferred time, [extract_booking_info] of [app101.py]
    raises [IndexError]: whatever else the utterance holds, its call of
    [extract_time] raises before any time is stored. *)
Theorem extract_booking_info_raises_on_time
        (me : nat) (self : App101.TwilioAIReceptionist) (text : string) (s : CallSession)
        (w : World) :
  time_pattern_found text ->
  time_unset s ->
  exists s' w',
    run me (App101Extract.extract_booking_info self text s) w
    = Done (s', Raise "IndexError") w'
    /\ App101.has "time" s' = false.
Proof.
  intros Hfound Hs.
  assert (Hraise : forall B (f : option string -> SM CallSession B),
            raises "IndexError" time_unset
                   (sbind (lift_res (App101Extract.extract_time self text)) f)).
  { intros B f. apply raises_sbind_first, raises_lift_res.
    intros me' w'. now apply run_extract_time_found. }
  assert (Hset : forall k v, k <> "time" -> k <> "preferred_time" ->
            raises_or_keeps "IndexError" time_unset (modify (App101.set_data k v))).
  { intros k v H1 H2. apply rk_modify. intros s0. now apply time_unset_set_data. }
  assert (H : raises "IndexError" time_unset (App101Extract.extract_booking_info self text)).
  { unfold App101Extract.extract_booking_info.
    apply raises_get. intros session _.
    apply raises_sbind.
    { (* the name block *)
      unfold when. destruct (negb (App101.has "name" session)); [| apply rk_sret].
      apply rk_sbind.
      { destruct (App101Extract.first_match _ _ _); [| apply rk_sret].
        apply Hset; discriminate. }
      intros _. apply rk_get. intros session1 _.
      apply rk_sbind.
      { destruct (_ && _); [| apply rk_sret]. apply rk_raises, Hraise. }
      intros _. apply rk_get. intros session2 _.
      destruct (_ && _); [| apply rk_sret].
      cbv zeta. destruct (_ && _); [| apply rk_sret].
      apply Hset; discriminate. }
    intros _. apply raises_get. intros session1 _.
    apply raises_sbind.
    { (* the service block *)
      unfold when. destruct (negb _); [| apply rk_sret].
      destruct (find _ _); [| apply rk_sret]. apply Hset; discriminate. }
    intros _. apply raises_get. intros session2 _.
    apply raises_sbind.
    { (* the date block *)
      unfold when. destruct (negb _); [| apply rk_sret].
      apply rk_sbind; [apply rk_lift; intros; apply run_extract_date |].
      intros date. destruct (App101Extract.truthy_opt date); [| apply rk_sret].
      apply rk_sbind; [apply Hset; discriminate |].
      intros _. apply rk_get. intros session3 [_ Hp]. rewrite Hp. apply rk_sret. }
    intros _. apply raises_get. intros session3 [Ht _]. rewrite Ht. cbn [negb andb].
    apply raises_sbind_first.
    destruct (App101.has "date" session3); cbn [negb]; apply Hraise. }
  destruct (H me s w Hs) as (s' & w' & Hr & Ht & _).
  exists s', w'. auto.
Qed.

Lemma extract_booking_info_raises_on_time_witness :
  exists s' w',
    run 1 (App101Extract.extract_booking_info receptionist0 "tomorrow at 2pm please"
             first_turn_session) (world0 Lock [] [])
    = Done (s', Raise "IndexError") w'
    /\ App101.has "time" s' = false.
Proof.
  apply (extract_booking_info_raises_on_time 1%nat receptionist0 "tomorrow at 2pm please"
           first_turn_session (world0 Lock [] [])).
  - eexists _, _, _, _. split; [right; left; reflexivity |]. vm_compute. reflexivity.
  - split; reflexivity.
Defined.

(** ** The order in which slots are tried *)

Lemma same_slots_sound (l1 l2 : list string) :
  same_slots l1 l2 = true -> Permutation l1 l2.
Proof.
  intros H. apply (Permutation_count_occ string_dec). intros x.
  unfold same_slots in H. rewrite forallb_forall in H.
  destruct (in_dec string_dec x (l1 ++ l2)%list) as [Hin | Hout].
  - apply Nat.eqb_eq. now apply H.
  - rewrite !(proj1 (count_occ_not_In string_dec _ x)); [reflexivity | |];
      intros Hx; apply Hout, in_or_app; auto.
Qed.

Lemma mem_In (x : string) (l : list string) : Py.mem x l = true -> In x l.
Proof.
  unfold Py.mem. rewrite existsb_exists. intros (y & Hy & He).
  apply String.eqb_eq in He. now subst.
Qed.

Lemma ordered_slots_off_grid (preferred : option string) :
  match preferred with
  | Some p => ~ In p App101.time_slots
  | None => True
  end ->
  App101.ordered_slots preferred = App101.time_slots.
Proof.
  destruct preferred as [p |]; [| reflexivity].
  intros Hout. unfold App101.ordered_slots.
  destruct (Py.truthy p && Py.mem p App101.time_slots) eqn:E; [| reflexivity].
  apply andb_prop in E. destruct E as [_ E]. apply mem_In in E. contradiction.
Qed.

(** X5. Whatever the preferred time, [find_next_available_slots] tries the
    slots of the grid, each one once: around a preferred time of the grid
    starting with that time, otherwise in the order of the grid. *)
Theorem slots_tried_once (preferred : option string) :
  Permutation (App101.ordered_slots preferred) App101.time_slots
  /\ (forall p, preferred = Some p -> In p App101.time_slots ->
        exists rest, App101.ordered_slots preferred = p :: rest)
  /\ ((forall p, preferred = Some p -> ~ In p App101.time_slots) ->
      App101.ordered_slots preferred = App101.time_slots).
Proof.
  assert (Hgrid : List.Forall
            (fun p => same_slots (App101.ordered_slots (Some p)) App101.time_slots = true
                      /\ hd_error (App101.ordered_slots (Some p)) = Some p)
            App101.time_slots).
  { repeat (constructor; [split; vm_compute; reflexivity |]). constructor. }
  rewrite List.Forall_forall in Hgrid.
  split; [| split].
  - destruct preferred as [p |]; [| reflexivity].
    destruct (in_dec string_dec p App101.time_slots) as [Hin | Hout].
    + apply same_slots_sound. now apply Hgrid.
    + now rewrite (ordered_slots_off_grid (Some p)).
  - intros p -> Hin. destruct (Hgrid p Hin) as [_ Hhd].
    destruct (App101.ordered_slots (Some p)) as [| x rest]; [discriminate |].
    injection Hhd as ->. now exists rest.
  - intros Hout. apply ordered_slots_off_grid.
    destruct preferred as [p |]; [now apply Hout | exact I].
Qed.

Lemma slots_tried_once_witness :
  exists rest, App101.ordered_slots (Some "9:00 AM") = "9:00 AM" :: rest.
Proof.
  refine (proj1 (proj2 (slots_tried_once (Some "9:00 AM"))) "9:00 AM" eq_refl _).
  vm_compute. tauto.
Defined.

Lemma StronglySorted_weaken {A : Type} (R R' : A -> A -> Prop) (l : list A) :
  (forall a b, R a b -> R' a b) -> StronglySorted R l -> StronglySorted R' l.
Proof.
  intros H. induction 1 as [| x l Hs IH Hx]; constructor; [exact IH |].
  eapply List.Forall_impl; [| exact Hx]. intros b. apply H.
Qed.

Lemma StronglySorted_any {A : Type} (R : A -> A -> Prop) (l : list A) :
  (forall a b, R a b) -> StronglySorted R l.
Proof.
  intros H. induction l as [| x l IH]; constructor; [exact IH |].
  apply List.Forall_forall. intros b _. apply H.
Qed.

(** X6. For every preferred time and every count,
    [find_next_available_slots] returns slots picked in order from the
    slots it tries, no more than [count] of them, each reported free by
    the check made for it; around a preferred time of the grid they come
    nearest first, the later of two equally near ones first. While no call
    of the backend raises, every slot returned is a free slot of the grid,
    and every free slot of the grid is returned unless [count] slots are
    returned, which around a preferred time of the grid all come before
    it. *)
Theorem find_alternatives_any_preference
        (me : nat) (self : App101.GoogleCalendarManager) (date_str : string)
        (preferred : option string) (count : Z) (w : World) :
  enterable me (cal_lock w) ->
  exists slots w',
    run me (App101.find_next_available_slots self date_str preferred count) w
    = Done slots w'
    /\ sublist slots (App101.ordered_slots preferred)
    /\ Z.of_nat (length slots) <= Z.max 0 count
    /\ (forall t, In t slots ->
          exists b, events b = events (backend w)
                    /\ free_in self (set_backend b w) date_str t = true)
    /\ (forall p, preferred = Some p -> In p App101.time_slots ->
          StronglySorted (closer p) slots)
    /\ (App101.service self = true -> faults (backend w) = [] ->
        w' = w
        /\ slots = firstn (Z.to_nat count)
                          (List.filter (free_in self w date_str)
                                       (App101.ordered_slots preferred))
        /\ (forall t, In t slots ->
              In t App101.time_slots /\ free_in self w date_str t = true)
        /\ (forall t, In t App101.time_slots -> free_in self w date_str t = true ->
              In t slots
              \/ (length slots = Z.to_nat count
                  /\ forall p, preferred = Some p -> In p App101.time_slots ->
                       forall s, In s slots -> closer p s t))).
Proof.
  intros Hl. unfold App101.find_next_available_slots.
  destruct (App101.service self) eqn:Hs; cbn [negb].
  2: { exists [], w. cbn [run length].
       split; [reflexivity |]. split; [apply sublist_nil_l |]. split; [lia |].
       split; [intros ? [] |]. split; [constructor | discriminate]. }
  rewrite run_collect by exact Hl.
  destruct (collect_in_shape self date_str count (App101.ordered_slots preferred) [] w)
    as (picked & Hres & Hsub & Hlen & Hfree & _ & _).
  cbn [app length] in Hres, Hlen.
  eexists. eexists. split; [reflexivity |]. rewrite Hres.
  split; [exact Hsub |]. split; [lia |]. split; [exact Hfree |]. split.
  - intros p -> Hin. eapply sublist_StronglySorted; [exact Hsub |].
    now apply ordered_slots_sorted.
  - intros _ Hf. rewrite <- Hres. rewrite collect_in_no_faults by exact Hf.
    cbn [fst snd app length]. rewrite Z.sub_0_r.
    split; [reflexivity |]. split; [reflexivity |]. split.
    + intros t Ht. apply in_firstn in Ht. apply filter_In in Ht.
      destruct Ht as [Ht Hfr]. split; [| exact Hfr].
      now apply (ordered_slots_grid preferred).
    + intros t Ht Hfr.
      set (R := fun s t : string =>
                  forall p, preferred = Some p -> In p App101.time_slots -> closer p s t).
      assert (Hsorted : StronglySorted R (App101.ordered_slots preferred)).
      { destruct preferred as [p |].
        - destruct (in_dec string_dec p App101.time_slots) as [Hin | Hnin].
          + apply (StronglySorted_weaken (closer p)); [| now apply ordered_slots_sorted].
            intros a b Hab q [= <-] _. exact Hab.
          + apply StronglySorted_any. intros a b q [= <-] Hq. contradiction.
        - apply StronglySorted_any. intros a b q Hq. discriminate. }
      destruct (firstn_filter_nearest R (free_in self w date_str)
                  (App101.ordered_slots preferred) (Z.to_nat count) t Hsorted)
        as [H | [Hn Hall]]; [now apply (ordered_slots_grid preferred) | exact Hfr | |].
      * now left.
      * right. split; [exact Hn |]. intros p Hp Hin s Hs'. exact (Hall s Hs' p Hp Hin).
Qed.

Lemma find_alternatives_any_preference_witness :
  exists slots w',
    run 1 (App101.find_next_available_slots manager0 "Friday, June 06" (Some "9:00 AM") 2)
        (world0 Lock [busy "e1" (-60) 0] [])
    = Done slots w'
    /\ sublist slots (App101.ordered_slots (Some "9:00 AM"))
    /\ Z.of_nat (length slots) <= Z.max 0 2
    /\ (forall t, In t slots ->
          exists b, events b = [busy "e1" (-60) 0]
                    /\ free_in manager0 (set_backend b (world0 Lock [busy "e1" (-60) 0] []))
                               "Friday, June 06" t = true)
    /\ (forall p, Some "9:00 AM" = Some p -> In p App101.time_slots ->
          StronglySorted (closer p) slots)
    /\ (App101.service manager0 = true -> @nil bool = [] ->
        w' = world0 Lock [busy "e1" (-60) 0] []
        /\ slots = firstn (Z.to_nat 2)
                          (List.filter
                             (free_in manager0 (world0 Lock [busy "e1" (-60) 0] [])
                                      "Friday, June 06")
                             (App101.ordered_slots (Some "9:00 AM")))
        /\ (forall t, In t slots ->
              In t App101.time_slots
              /\ free_in manager0 (world0 Lock [busy "e1" (-60) 0] []) "Friday, June 06" t
                 = true)
        /\ (forall t, In t App101.time_slots ->
              free_in manager0 (world0 Lock [busy "e1" (-60) 0] []) "Friday, June 06" t
              = true ->
              In t slots
              \/ (length slots = Z.to_nat 2
                  /\ forall p, Some "9:00 AM" = Some p -> In p App101.time_slots ->
                       forall s, In s slots -> closer p s t))).
Proof.
  exact (find_alternatives_any_preference 1%nat manager0 "Friday, June 06" (Some "9:00 AM") 2
           (world0 Lock [busy "e1" (-60) 0] []) (free_enterable 1 Lock)).
Defined.

(** With 9:00 AM to 10:00 AM taken, the two alternatives to 9:00 AM are
    10:00 AM and 8:00 AM: the slots of 9:30 AM and 8:30 AM, nearer, meet
    the event. *)
Example find_alternatives_morning :
  exists w',
    run 1 (App101.find_next_available_slots manager0 "Friday, June 06" (Some "9:00 AM") 2)
        (world0 Lock [busy "e1" (-60) 0] [])
    = Done ["10:00 AM"; "8:00 AM"] w'.
Proof. eexists. vm_compute. reflexivity. Qed.

(** ** Dates *)

Ltac Zify.zify_post_hook ::= Z.div_mod_to_equations.

(** Evaluates the tests of the goal that are closed, and splits on the
    others, innermost first. *)
Ltac eval_ifs :=
  repeat match goal with
         | |- context [if ?b then _ else _] =>
             lazymatch b with
             | context [if _ then _ else _] => fail
             | _ => idtac
             end;
             first [ let v := eval vm_compute in b in
                     lazymatch v with
                     | true => change b with true
                     | false => change b with false
                     end; cbv iota
                   | destruct b eqn:? ]
         end.

Ltac by_month m tac :=
  let Hc := fresh "Hc" in
  assert (m = 1 \/ m = 2 \/ m = 3 \/ m = 4 \/ m = 5 \/ m = 6 \/ m = 7 \/ m = 8 \/ m = 9
          \/ m = 10 \/ m = 11 \/ m = 12) as Hc by lia;
  repeat (destruct Hc as [-> | Hc]; [tac |]); subst m; tac.

(** The day number of a date gives the date back. *)
Lemma civil_round_trip (n : Z) :
  let '(y, m, d) := Cal.civil_from_days n in
  1 <= m <= 12 /\ 1 <= d <= Cal.days_in_month y m /\ Cal.days_from_civil y m d = n.
Proof.
  unfold Cal.civil_from_days. cbv zeta.
  set (z := n + 719468). set (era := z / 146097). set (doe := z - era * 146097).
  set (yoe := (doe - doe / 1460 + doe / 36524 - doe / 146096) / 365).
  set (doy := doe - (365 * yoe + yoe / 4 - yoe / 100)).
  set (mp := (5 * doy + 2) / 153).
  set (d := doy - (153 * mp + 2) / 5 + 1).
  assert (Hdoe : 0 <= doe < 146097) by (subst doe era; lia).
  assert (Hyoe : 0 <= yoe <= 399) by (subst yoe; lia).
  assert (Hdoy : 0 <= doy <= 365) by (subst doy yoe; lia).
  assert (Hmp : 0 <= mp <= 11) by (subst mp; lia).
  assert (Hd : 1 <= d <= 31) by (subst d mp; lia).
  assert (Hz : z = era * 146097 + doe) by (subst doe; lia).
  assert (Hdoe' : doe = yoe * 365 + yoe / 4 - yoe / 100 + doy) by (subst doy; lia).
  assert (Hdoy' : doy = (153 * mp + 2) / 5 + d - 1) by (subst d; lia).
  assert (Hleap : doy = 365 -> (yoe + 1) mod 4 = 0 /\ ((yoe + 1) mod 100 <> 0 \/ yoe = 399)).
  { subst doy yoe. lia. }
  assert (Hmpd : mp = (5 * doy + 2) / 153) by reflexivity.
  clearbody d mp doy yoe doe era.
  split; [destruct (mp <? 10) eqn:E; lia |].
  assert (mp = 0 \/ mp = 1 \/ mp = 2 \/ mp = 3 \/ mp = 4 \/ mp = 5 \/ mp = 6 \/ mp = 7
          \/ mp = 8 \/ mp = 9 \/ mp = 10 \/ mp = 11) as Hc by lia.
  split.
  - unfold Cal.days_in_month, Cal.days_in_month_1900, Cal.is_leap.
    repeat (destruct Hc as [-> | Hc]; [eval_ifs; lia |]).
    subst mp. eval_ifs; lia.
  - unfold Cal.days_from_civil.
    repeat (destruct Hc as [-> | Hc]; [eval_ifs; lia |]).
    subst mp. eval_ifs; lia.
Qed.

(** The days of a year lie between its first day and the first day of
    the next year. *)
Lemma dfc_year_bounds (y m d : Z) :
  1 <= m <= 12 -> 1 <= d <= Cal.days_in_month y m ->
  Cal.days_from_civil y 1 1 <= Cal.days_from_civil y m d < Cal.days_from_civil (y + 1) 1 1.
Proof.
  intros Hm. unfold Cal.days_in_month, Cal.days_in_month_1900, Cal.is_leap.
  unfold Cal.days_from_civil.
  by_month m ltac:(eval_ifs; lia).
Qed.

Lemma days_in_month_1900_le (y m : Z) :
  Cal.days_in_month_1900 m <= Cal.days_in_month y m.
Proof.
  unfold Cal.days_in_month, Cal.days_in_month_1900. eval_ifs; lia.
Qed.

Lemma year_of_bounds (t : Z) :
  Cal.days_from_civil (Cal.year_of t) 1 1 <= Cal.date_of t
  < Cal.days_from_civil (Cal.year_of t + 1) 1 1.
Proof.
  unfold Cal.year_of. pose proof (civil_round_trip (Cal.date_of t)) as H.
  destruct (Cal.civil_from_days (Cal.date_of t)) as [[y m] d]. cbn [fst].
  destruct H as (Hm & Hd & <-). now apply dfc_year_bounds.
Qed.

Lemma date_of_add_days (t k : Z) : Cal.date_of (t + k * 1440) = Cal.date_of t + k.
Proof. unfold Cal.date_of. lia. Qed.

Lemma at_year_date (y m d h mi : Z) :
  0 <= h * 60 + mi < 1440 ->
  Cal.date_of (Cal.at_year y (m, d, h, mi)) = Cal.days_from_civil y m d
  /\ Cal.minute_of_day (Cal.at_year y (m, d, h, mi)) = h * 60 + mi.
Proof.
  intros H. unfold Cal.date_of, Cal.minute_of_day, Cal.at_year.
  generalize (Cal.days_from_civil y m d). intros n. lia.
Qed.

Lemma strptime_day (s : string) (m d h mi : Z) :
  Cal.strptime s = Some (m, d, h, mi) -> d <= Cal.days_in_month_1900 m.
Proof.
  unfold Cal.strptime. destruct (Re.match_ true Cal.strptime_regex s) as [mo |]; [| discriminate].
  destruct (negb _); [discriminate |]. cbv zeta.
  destruct (_ <=? _) eqn:E; [| discriminate].
  intros [= <- <- _ _]. lia.
Qed.

(** X7. A date written without its year is taken by
    [_parse_appointment_datetime] as its first occurrence from today on:
    the instant returned is not before today's date, the same day of the
    year before is, and the time of day is the one written. *)
Theorem parse_takes_next_occurrence
        (me : nat) (w : World) (date_str time_str : string) (m d h mi : Z) :
  Cal.strptime (date_str ++ " " ++ time_str) = Some (m, d, h, mi) ->
  1 <= m <= 12 -> 1 <= d -> 0 <= h * 60 + mi < 1440 ->
  exists y,
    run me (App101._parse_appointment_datetime date_str time_str) w
    = Done (Ok (Cal.at_year y (m, d, h, mi))) w
    /\ (y = Cal.year_of (now w) \/ y = Cal.year_of (now w) + 1)
    /\ Cal.date_of (now w) <= Cal.date_of (Cal.at_year y (m, d, h, mi))
    /\ Cal.date_of (Cal.at_year (y - 1) (m, d, h, mi)) < Cal.date_of (now w)
    /\ Cal.minute_of_day (Cal.at_year y (m, d, h, mi)) = h * 60 + mi.
Proof.
  intros Hp Hm Hd Ht. pose proof (strptime_day _ _ _ _ _ Hp) as Hd'.
  rewrite run_parse. unfold parse_at. rewrite Hp.
  set (y := Cal.year_of (now w)).
  pose proof (year_of_bounds (now w)) as Hy. fold y in Hy.
  assert (Hb : forall y', Cal.days_from_civil y' 1 1 <= Cal.days_from_civil y' m d
                          < Cal.days_from_civil (y' + 1) 1 1).
  { intros y'. apply dfc_year_bounds; [exact Hm |].
    pose proof (days_in_month_1900_le y' m). lia. }
  pose proof (Hb y) as Hb0. pose proof (Hb (y + 1)) as Hb1. pose proof (Hb (y - 1)) as Hb2.
  replace (y - 1 + 1) with y in Hb2 by lia.
  destruct (at_year_date y m d h mi Ht) as [D0 M0].
  destruct (at_year_date (y + 1) m d h mi Ht) as [D1 M1].
  destruct (at_year_date (y - 1) m d h mi Ht) as [D2 M2].
  destruct (Z.ltb_spec (Cal.date_of (Cal.at_year y (m, d, h, mi))) (Cal.date_of (now w)))
    as [Hlt | Hge].
  - exists (y + 1). replace (y + 1 - 1) with y by lia.
    split; [reflexivity |]. split; [now right |].
    rewrite D1, M1. rewrite D0 in *. repeat split; lia.
  - exists y. split; [reflexivity |]. split; [now left |].
    rewrite D2, M0. repeat split; lia.
Qed.

Lemma parse_takes_next_occurrence_witness :
  exists y,
    run 1 (App101._parse_appointment_datetime "Thursday, January 01" "9:00 AM")
        (world0 Lock [] [])
    = Done (Ok (Cal.at_year y (1, 1, 9, 0))) (world0 Lock [] [])
    /\ (y = Cal.year_of (now (world0 Lock [] []))
        \/ y = Cal.year_of (now (world0 Lock [] [])) + 1)
    /\ Cal.date_of (now (world0 Lock [] [])) <= Cal.date_of (Cal.at_year y (1, 1, 9, 0))
    /\ Cal.date_of (Cal.at_year (y - 1) (1, 1, 9, 0)) < Cal.date_of (now (world0 Lock [] []))
    /\ Cal.minute_of_day (Cal.at_year y (1, 1, 9, 0)) = 9 * 60 + 0.
Proof.
  refine (parse_takes_next_occurrence 1%nat (world0 Lock [] []) "Thursday, January 01"
            "9:00 AM" 1 1 9 0 _ _ _ _).
  - vm_compute. reflexivity.
  - lia.
  - lia.
  - lia.
Defined.

(** On 2 June 2025, "January 01" is the first day of 2026. *)
Example parse_january_in_june :
  run 1 (App101._parse_appointment_datetime "Thursday, January 01" "9:00 AM")
      (world0 Lock [] [])
  = Done (Ok (Cal.days_from_civil 2026 1 1 * 1440 + 9 * 60)) (world0 Lock [] []).
Proof. vm_compute. reflexivity. Qed.
Lemma dfc_next_year (y m d : Z) :
  1 <= m <= 12 -> 1 <= d <= Cal.days_in_month_1900 m ->
  Cal.days_from_civil y m d + 365 <= Cal.days_from_civil (y + 1) m d.
Proof.
  intros Hm. unfold Cal.days_in_month_1900, Cal.days_from_civil.
  by_month m ltac:(eval_ifs; lia).
Qed.

Lemma weekday_range (n : Z) : 0 <= Cal.weekday n <= 6.
Proof. unfold Cal.weekday. lia. Qed.

Lemma index_days (day : string) :
  In day App101Extract.days ->
  exists idx, Py.index day App101Extract.days = Some idx /\ (idx <= 6)%nat
              /\ nth idx Cal.day_names "" = Py.title day.
Proof.
  intros H. cbn in H.
  repeat (destruct H as [<- | H];
          [eexists; split; [reflexivity |]; split; [vm_compute; lia | reflexivity] |]).
  contradiction.
Qed.

(** X8. When the utterance names a weekday, and neither today nor tomorrow,
    [extract_date] of [app101.py] returns the next date that falls on
    that weekday, from one to seven days ahead and never today: the text
    of the date starts with the name of the day. *)
Theorem extract_date_next_weekday
        (me : nat) (text : string) (w : World) (day : string) :
  Py.contains "today" (Py.lower text) = false ->
  Py.contains "tomorrow" (Py.lower text) = false ->
  find (fun day => Py.contains day (Py.lower text)) App101Extract.days = Some day ->
  exists k idx rest,
    run me (App101Extract.extract_date text) w
    = Done (Some (Cal.strftime_date (now w + k * 1440))) w
    /\ 1 <= k <= 7
    /\ Py.index day App101Extract.days = Some idx
    /\ Cal.weekday (Cal.date_of (now w + k * 1440)) = Z.of_nat idx
    /\ Cal.strftime_date (now w + k * 1440) = Py.title day ++ rest.
Proof.
  intros Ht Hm Hf. unfold App101Extract.extract_date.
  cbn [bind trigger run handle]. rewrite Ht, Hm, Hf.
  destruct (index_days day) as (idx & Hidx & Hle & Hname).
  { apply find_some in Hf. tauto. }
  rewrite Hidx.
  set (k0 := (Z.of_nat idx - Cal.weekday (Cal.date_of (now w))) mod 7).
  set (k := if k0 =? 0 then 7 else k0).
  exists k, idx,
    (let '(_, m, d) := Cal.civil_from_days (Cal.date_of (now w + k * 1440)) in
     ", " ++ nth (Z.to_nat (m - 1)) Cal.month_names "" ++ " " ++ Py.two_digits d).
  split; [reflexivity |].
  assert (Hk : 1 <= k <= 7) by (subst k k0; destruct (_ =? 0) eqn:E; lia).
  assert (Hw : Cal.weekday (Cal.date_of (now w + k * 1440)) = Z.of_nat idx).
  { rewrite date_of_add_days. unfold Cal.weekday in *. subst k k0.
    destruct (_ =? 0) eqn:E; lia. }
  split; [exact Hk |]. split; [reflexivity |]. split; [exact Hw |].
  unfold Cal.strftime_date. rewrite Hw, Nat2Z.id, Hname.
  destruct (Cal.civil_from_days _) as [[y m] d]. reflexivity.
Qed.

Lemma extract_date_next_weekday_witness :
  exists k idx rest,
    run 1 (App101Extract.extract_date "can i come in on monday") (world0 Lock [] [])
    = Done (Some (Cal.strftime_date (now (world0 Lock [] []) + k * 1440))) (world0 Lock [] [])
    /\ 1 <= k <= 7
    /\ Py.index "monday" App101Extract.days = Some idx
    /\ Cal.weekday (Cal.date_of (now (world0 Lock [] []) + k * 1440)) = Z.of_nat idx
    /\ Cal.strftime_date (now (world0 Lock [] []) + k * 1440) = Py.title "monday" ++ rest.
Proof.
  refine (extract_date_next_weekday 1%nat "can i come in on monday" (world0 Lock [] [])
            "monday" _ _ _); vm_compute; reflexivity.
Defined.

(** Asked for Monday on Monday 2 June 2025, the date is Monday 9 June. *)
Example extract_date_monday_on_monday :
  run 1 (App101Extract.extract_date "can i come in on monday") (world0 Lock [] [])
  = Done (Some "Monday, June 09") (world0 Lock [] []).
Proof. vm_compute. reflexivity. Qed.
Lemma contains_from_nil_r (p : list ascii) :
  Py.contains_from p [] = Py.starts_with p [].
Proof. cbn. apply orb_false_r. Qed.

Lemma starts_with_suffix (p q l : list ascii) :
  Py.starts_with (p ++ q) l = true -> Py.contains_from q l = true.
Proof.
  revert l. induction p as [| a p IH]; intros l; cbn [app].
  - intros H. destruct l; cbn [Py.contains_from]; rewrite H; reflexivity.
  - destruct l as [| b l]; cbn [Py.starts_with]; [discriminate |].
    intros H. apply andb_prop in H. destruct H as [_ H].
    cbn [Py.contains_from]. rewrite (IH l H). apply orb_true_r.
Qed.

Lemma contains_from_suffix (p q l : list ascii) :
  Py.contains_from (p ++ q) l = true -> Py.contains_from q l = true.
Proof.
  induction l as [| b l IH].
  - rewrite contains_from_nil_r. apply starts_with_suffix.
  - cbn [Py.contains_from]. intros H. apply orb_prop in H. destruct H as [H | H].
    + now apply starts_with_suffix in H.
    + fold (Py.contains_from q (b :: l)). cbn [Py.contains_from].
      rewrite (IH H). apply orb_true_r.
Qed.

Lemma contains_suffix (a b s : string) :
  Py.contains (a ++ b) s = true -> Py.contains b s = true.
Proof. unfold Py.contains. rewrite chars_append. apply contains_from_suffix. Qed.

(** X9. In [extract_date] of [infobridge.py] the branch for "day after
    tomorrow" is never taken: a text that holds these words holds
    "tomorrow", which is tested first, so the date returned is today's or
    tomorrow's, never the one two days ahead. *)
Theorem day_after_tomorrow_is_tomorrow (me : nat) (text : string) (w : World) :
  Py.contains "day after tomorrow" text = true ->
  run me (InfobridgeExtract.extract_date text) w
  = Done (Some (Cal.strftime_date
                  (if existsb (fun word => Py.contains word text)
                              ["today"; "now"; "right now"; "immediately"]
                   then now w else now w + 1440))) w.
Proof.
  intros H. apply (contains_suffix "day after " "tomorrow") in H.
  unfold InfobridgeExtract.extract_date. cbn [bind trigger run handle].
  destruct (existsb _ _); [reflexivity |]. rewrite H. reflexivity.
Qed.

Lemma day_after_tomorrow_is_tomorrow_witness :
  run 1 (InfobridgeExtract.extract_date "the day after tomorrow please") (world0 Lock [] [])
  = Done (Some (Cal.strftime_date
                  (if existsb (fun word => Py.contains word "the day after tomorrow please")
                              ["today"; "now"; "right now"; "immediately"]
                   then now (world0 Lock [] []) else now (world0 Lock [] []) + 1440)))
         (world0 Lock [] []).
Proof.
  refine (day_after_tomorrow_is_tomorrow 1%nat "the day after tomorrow please"
            (world0 Lock [] []) _).
  vm_compute. reflexivity.
Defined.

(** Asked on Monday 2 June 2025 for the day after tomorrow, the date is
    Tuesday 3 June. *)
Example day_after_tomorrow_on_monday :
  run 1 (InfobridgeExtract.extract_date "the day after tomorrow please") (world0 Lock [] [])
  = Done (Some "Tuesday, June 03") (world0 Lock [] []).
Proof. vm_compute. reflexivity. Qed.

(** X10. When the text names a weekday and none of the words for today and
    tomorrow, [extract_date] of [infobridge.py] returns the next date that
    falls on that weekday, from one to seven days ahead and never
    today. *)
Theorem infobridge_extract_date_next_weekday
        (me : nat) (text : string) (w : World) (day_name : string) :
  existsb (fun word => Py.contains word text) ["today"; "now"; "right now"; "immediately"]
  = false ->
  Py.contains "tomorrow" text = false ->
  find (fun day_name => Py.contains day_name text) App101Extract.days = Some day_name ->
  exists k idx rest,
    run me (InfobridgeExtract.extract_date text) w
    = Done (Some (Cal.strftime_date (now w + k * 1440))) w
    /\ 1 <= k <= 7
    /\ Py.index day_name App101Extract.days = Some idx
    /\ Cal.weekday (Cal.date_of (now w + k * 1440)) = Z.of_nat idx
    /\ Cal.strftime_date (now w + k * 1440) = Py.title day_name ++ rest.
Proof.
  intros Ht Hm Hf.
  assert (Hd : Py.contains "day after tomorrow" text = false).
  { destruct (Py.contains "day after tomorrow" text) eqn:E; [| reflexivity].
    apply (contains_suffix "day after " "tomorrow") in E. congruence. }
  assert (Hin : In day_name App101Extract.days) by (apply find_some in Hf; tauto).
  assert (Hlow : Py.lower day_name = day_name).
  { cbn in Hin. repeat (destruct Hin as [<- | Hin]; [reflexivity |]). contradiction. }
  unfold InfobridgeExtract.extract_date, InfobridgeExtract._get_next_weekday.
  cbn [bind trigger run handle]. rewrite Ht, Hm, Hd, Hf.
  destruct (index_days day_name Hin) as (idx & Hidx & Hle & Hname).
  cbn [bind trigger run handle]. rewrite Hlow, Hidx.
  set (k0 := Z.of_nat idx - Cal.weekday (Cal.date_of (now w))).
  set (k := if k0 <=? 0 then k0 + 7 else k0).
  pose proof (weekday_range (Cal.date_of (now w))) as Hr.
  assert (Hk : 1 <= k <= 7) by (subst k k0; destruct (_ <=? 0) eqn:E; lia).
  assert (Hw : Cal.weekday (Cal.date_of (now w + k * 1440)) = Z.of_nat idx).
  { rewrite date_of_add_days. unfold Cal.weekday in *. subst k k0.
    destruct (_ <=? 0) eqn:E; lia. }
  exists k, idx,
    (let '(_, m, d) := Cal.civil_from_days (Cal.date_of (now w + k * 1440)) in
     ", " ++ nth (Z.to_nat (m - 1)) Cal.month_names "" ++ " " ++ Py.two_digits d).
  split; [reflexivity |]. split; [exact Hk |]. split; [reflexivity |]. split; [exact Hw |].
  unfold Cal.strftime_date. rewrite Hw, Nat2Z.id, Hname.
  destruct (Cal.civil_from_days _) as [[y m] d]. reflexivity.
Qed.

Lemma infobridge_extract_date_next_weekday_witness :
  exists k idx rest,
    run 1 (InfobridgeExtract.extract_date "can i come in on friday") (world0 Lock [] [])
    = Done (Some (Cal.strftime_date (now (world0 Lock [] []) + k * 1440))) (world0 Lock [] [])
    /\ 1 <= k <= 7
    /\ Py.index "friday" App101Extract.days = Some idx
    /\ Cal.weekday (Cal.date_of (now (world0 Lock [] []) + k * 1440)) = Z.of_nat idx
    /\ Cal.strftime_date (now (world0 Lock [] []) + k * 1440) = Py.title "friday" ++ rest.
Proof.
  refine (infobridge_extract_date_next_weekday 1%nat "can i come in on friday"
            (world0 Lock [] []) "friday" _ _ _); vm_compute; reflexivity.
Defined.
(** No date string for 29 February parses, whatever the weekday and the
    slot of the grid: [strptime] reads a date without a year in 1900,
    which has no such day. *)
Lemma february_29_unparsed (weekday slot : string) :
  In weekday Cal.day_names -> In slot App101.time_slots ->
  Cal.strptime ((weekday ++ ", February 29") ++ " " ++ slot) = None.
Proof.
  intros Hw Hs.
  assert (H : forallb (fun weekday =>
                forallb (fun slot =>
                           match Cal.strptime ((weekday ++ ", February 29") ++ " " ++ slot) with
                           | None => true
                           | Some _ => false
                           end) App101.time_slots) Cal.day_names = true)
    by (vm_compute; reflexivity).
  rewrite forallb_forall in H. specialize (H weekday Hw).
  rewrite forallb_forall in H. specialize (H slot Hs).
  destruct (Cal.strptime _); [discriminate | reflexivity].
Qed.

(** X11. A slot on 29 February can be neither checked nor booked. For every
    weekday name and every slot of the grid, [check_availability] of
    [app101.py] reports the slot unavailable, for want of being able to
    verify it, without asking the calendar; in [infobridge.py] the check
    reports it available, and [create_appointment] returns no event and
    inserts nothing. *)
Theorem february_29_never_booked (weekday slot : string) :
  In weekday Cal.day_names -> In slot App101.time_slots ->
  (forall (me : nat) (self : App101.GoogleCalendarManager) (ex : option string) (w : World),
      App101.service self = true -> enterable me (cal_lock w) ->
      run me (App101.check_availability self (weekday ++ ", February 29") slot ex) w
      = Done (false, Some unable) w)
  /\ (forall (me : nat) (self : Infobridge.GoogleCalendarManager) (w : World),
         Infobridge.has_service self = true ->
         run me (Infobridge._check_availability_internal self (weekday ++ ", February 29")
                   slot) w
         = Done true w)
  /\ (forall (me : nat) (self : Infobridge.GoogleCalendarManager)
             (a : Infobridge.Appointment) (w : World),
         Infobridge.has_service self = true ->
         Infobridge.date a = weekday ++ ", February 29" ->
         Infobridge.time a = slot ->
         run me (Infobridge.create_appointment self a) w = Done None w).
Proof.
  intros Hw Hs. pose proof (february_29_unparsed weekday slot Hw Hs) as Hp.
  split; [| split].
  - intros me self ex w Hsv Hl. rewrite run_check by exact Hl.
    unfold check_in, parse_at. rewrite Hsv, Hp. cbn [negb fst snd].
    now rewrite set_backend_same.
  - intros me self w Hsv. unfold Infobridge._check_availability_internal.
    rewrite Hsv, Hp. reflexivity.
  - intros me self a w Hsv Hd Ht. unfold Infobridge.create_appointment.
    rewrite Hsv, Hd, Ht, Hp. reflexivity.
Qed.

Lemma february_29_never_booked_witness :
  run 1 (App101.check_availability manager0 ("Tuesday" ++ ", February 29") "10:00 AM" None)
      (world0 Lock [] [])
  = Done (false, Some unable) (world0 Lock [] []).
Proof.
  refine (proj1 (february_29_never_booked "Tuesday" "10:00 AM" _ _) 1%nat manager0 None
                (world0 Lock [] []) eq_refl (free_enterable 1 Lock)).
  - vm_compute. tauto.
  - vm_compute. tauto.
Defined.

(** X12. In [infobridge.py] the check and the booking of a slot of today whose
    time has passed disagree by a year: the check lists today's hour,
    since it compares dates, while [create_appointment], which compares
    instants, inserts the event on the same day of next year. *)
Theorem infobridge_check_and_create_differ
        (me : nat) (self : Infobridge.GoogleCalendarManager) (a : Infobridge.Appointment)
        (w : World) (m d h mi : Z) (b : Backend) :
  Infobridge.has_service self = true ->
  Infobridge.pytz_available self = true ->
  Cal.strptime (Infobridge.date a ++ " " ++ Infobridge.time a) = Some (m, d, h, mi) ->
  1 <= m <= 12 -> 1 <= d ->
  let slot := Cal.at_year (Cal.year_of (now w)) (m, d, h, mi) in
  Cal.date_of slot = Cal.date_of (now w) ->
  slot < now w ->
  next_fault (backend w) = (false, b) ->
  run me (Infobridge._check_availability_internal self (Infobridge.date a)
            (Infobridge.time a)) w
  = Done (Nat.eqb (length (list_events (slot - Infobridge.utc_offset self)
                                       (slot - Infobridge.utc_offset self + 60)
                                       Infobridge.default_max_results b)) 0)
         (set_backend b w)
  /\ exists ev w',
       run me (Infobridge.create_appointment self a) w = Done (Some (ev_id ev)) w'
       /\ events (backend w') = (events (backend w) ++ [ev])%list
       /\ ev_start ev
          = Cal.at_year (Cal.year_of (now w) + 1) (m, d, h, mi) - Infobridge.utc_offset self
       /\ slot - Infobridge.utc_offset self + 365 * 1440 <= ev_start ev.
Proof.
  intros Hsv Hpy Hp Hm Hd slot Hday Hpast Hf.
  pose proof (strptime_day _ _ _ _ _ Hp) as Hd'.
  pose proof (events_next_fault (backend w)) as He. rewrite Hf in He. cbn [snd] in He.
  split.
  - unfold Infobridge._check_availability_internal. rewrite Hsv, Hp, Hpy.
    cbn [negb bind trigger run handle]. fold slot. rewrite Hday, Z.ltb_irrefl, Hf.
    reflexivity.
  - unfold Infobridge.create_appointment. rewrite Hsv, Hp.
    cbn [negb bind trigger run handle]. fold slot.
    destruct (Z.ltb_spec slot (now w)) as [_ | Hge]; [| lia].
    cbn [bind trigger run handle]. rewrite Hf. cbn [run].
    eexists. eexists. split; [reflexivity |]. cbn [backend set_backend events ev_start b_start].
    rewrite He. split; [reflexivity |]. split; [reflexivity |].
    pose proof (dfc_next_year (Cal.year_of (now w)) m d Hm ltac:(lia)).
    subst slot. unfold Cal.at_year. cbn [b_start]. lia.
Qed.

Lemma infobridge_check_and_create_differ_witness :
  run 1 (Infobridge._check_availability_internal (imanager0 ∅) "Monday, June 02" "8:00 AM")
      (world0 Lock [] [])
  = Done (Nat.eqb (length (list_events
                             (Cal.at_year (Cal.year_of monday_9am) (6, 2, 8, 0) - (-240))
                             (Cal.at_year (Cal.year_of monday_9am) (6, 2, 8, 0) - (-240) + 60)
                             Infobridge.default_max_results (mkBackend [] [] 0))) 0)
         (world0 Lock [] [])
  /\ exists ev w',
       run 1 (Infobridge.create_appointment (imanager0 ∅)
                (Infobridge.mkAppointment "Jane" "5551234567" "Cleaning" "Monday, June 02"
                                          "8:00 AM" "" "CA1" "" monday_9am))
           (world0 Lock [] [])
       = Done (Some (ev_id ev)) w'
       /\ events (backend w') = [ev]
       /\ ev_start ev = Cal.at_year (Cal.year_of monday_9am + 1) (6, 2, 8, 0) - (-240)
       /\ Cal.at_year (Cal.year_of monday_9am) (6, 2, 8, 0) - (-240) + 365 * 1440
          <= ev_start ev.
Proof.
  refine (infobridge_check_and_create_differ 1%nat (imanager0 ∅)
            (Infobridge.mkAppointment "Jane" "5551234567" "Cleaning" "Monday, June 02"
                                      "8:00 AM" "" "CA1" "" monday_9am)
            (world0 Lock [] []) 6 2 8 0 (mkBackend [] [] 0) eq_refl eq_refl _ _ _ _ _ eq_refl).
  - vm_compute. reflexivity.
  - lia.
  - lia.
  - vm_compute. reflexivity.
  - vm_compute. reflexivity.
Defined.

(** ** What the availability check sees *)

(** X13. With a slot of positive length, whose window holds at most the 50
    events a listing returns, and events of positive length,
    [check_availability] reports a conflict exactly when a timed event of
    the calendar, other than the excluded one, starts before the slot
    ends and ends after it starts: events that only touch the slot, and
    all-day events, are no conflict. The events are left as they were. *)
Theorem check_conflict_iff_meets
        (me : nat) (self : App101.GoogleCalendarManager) (w : World)
        (date_str time_str : string) (ex : option string) (naive : Z) (b : Backend) :
  App101.service self = true ->
  enterable me (cal_lock w) ->
  parse_at (now w) date_str time_str = Ok naive ->
  next_fault (backend w) = (false, b) ->
  0 < App101.appointment_duration self ->
  Forall (fun ev => ev_start ev < ev_end ev) (events (backend w)) ->
  let s := naive - App101.utc_offset self in
  let e := naive + App101.appointment_duration self - App101.utc_offset self in
  (length (List.filter (in_window (s - 15) (e + 15)) (events (backend w))) <= 50)%nat ->
  exists r w',
    run me (App101.check_availability self date_str time_str ex) w = Done r w'
    /\ events (backend w') = events (backend w)
    /\ (fst r = false
        <-> exists ev,
              In ev (events (backend w))
              /\ App101.excluded ex ev = false /\ ev_timed ev = true
              /\ ev_start ev < e /\ s < ev_end ev).
Proof.
  intros Hs Hl Hp Hf Hd Hwf s e Hn.
  pose proof (events_next_fault (backend w)) as He. rewrite Hf in He. cbn [snd] in He.
  rewrite <- He in Hwf, Hn.
  destruct (check_conflict_with_calendar me self w date_str time_str ex naive b
              Hs Hl Hp Hf ltac:(lia)) as (r & Hr & Hiff).
  { eapply List.Forall_impl; [| exact Hwf]. cbn. intros ev. lia. }
  { exact Hn. }
  exists r, (set_backend b w). split; [exact Hr |]. split; [exact He |].
  rewrite Hiff. rewrite He. fold s e.
  rewrite List.Forall_forall in Hwf. rewrite He in Hwf.
  split; intros (ev & Hin & Hx & Ht & Ho); exists ev; repeat split; auto;
    specialize (Hwf ev Hin); unfold four_way in *; subst s e; lia.
Qed.

Lemma check_conflict_iff_meets_witness :
  exists r w',
    run 1 (App101.check_availability manager0 "Friday, June 06" "10:00 AM" None)
        (world0 Lock [busy "e1" (-60) 0; busy "e2" 30 90] [])
    = Done r w'
    /\ events (backend w') = [busy "e1" (-60) 0; busy "e2" 30 90]
    /\ (fst r = false
        <-> exists ev,
              In ev [busy "e1" (-60) 0; busy "e2" 30 90]
              /\ App101.excluded None ev = false /\ ev_timed ev = true
              /\ ev_start ev < friday_10am + 60 /\ friday_10am < ev_end ev).
Proof.
  refine (check_conflict_iff_meets 1%nat manager0
            (world0 Lock [busy "e1" (-60) 0; busy "e2" 30 90] []) "Friday, June 06"
            "10:00 AM" None (friday_10am - 240)
            (mkBackend [busy "e1" (-60) 0; busy "e2" 30 90] [] 0)
            eq_refl (free_enterable 1 Lock) _ eq_refl _ _ _).
  - vm_compute. reflexivity.
  - reflexivity.
  - repeat constructor.
  - vm_compute. lia.
Defined.

(** An event that ends when the slot starts is no conflict; one that
    starts half an hour into the slot is. *)
Example check_touching_and_meeting :
  run 1 (App101.check_availability manager0 "Friday, June 06" "10:00 AM" None)
      (world0 Lock [busy "e1" (-60) 0] [])
  = Done (true, None) (world0 Lock [busy "e1" (-60) 0] [])
  /\ run 1 (App101.check_availability manager0 "Friday, June 06" "10:00 AM" None)
         (world0 Lock [busy "e1" (-60) 0; busy "e2" 30 90] [])
     = Done (false, Some "already booked from 10:30 AM to 11:30 AM")
            (world0 Lock [busy "e1" (-60) 0; busy "e2" 30 90] []).
Proof. split; vm_compute; reflexivity. Qed.

(** X14. The check and the search for alternatives only read: whenever the
    calendar lock can be entered they return, and they leave the events
    of the calendar, its lock, the appointment store with its file and
    lock, the sessions and the clock as they were. *)
Theorem availability_checks_only_read
        (me : nat) (self : App101.GoogleCalendarManager) (date_str : string) (w : World) :
  enterable me (cal_lock w) ->
  (forall (time_str : string) (ex : option string),
      exists r w',
        run me (App101.check_availability self date_str time_str ex) w = Done r w'
        /\ events (backend w') = events (backend w)
        /\ cal_lock w' = cal_lock w
        /\ same_store w w')
  /\ (forall (preferred : option string) (count : Z),
         exists slots w',
           run me (App101.find_next_available_slots self date_str preferred count) w
           = Done slots w'
           /\ events (backend w') = events (backend w)
           /\ cal_lock w' = cal_lock w
           /\ same_store w w').
Proof.
  intros Hl. split.
  - intros time_str ex. rewrite run_check by exact Hl.
    eexists. eexists. split; [reflexivity |].
    split; [rewrite backend_set_backend; apply check_in_events |].
    split; reflexivity || (repeat split).
  - intros preferred count. rewrite run_find by exact Hl.
    destruct (find_in_world self date_str preferred count w) as (b & Hb).
    pose proof (find_in_events self date_str preferred count w) as He.
    eexists. eexists. split; [reflexivity |]. rewrite Hb in *.
    split; [exact He |]. split; reflexivity || (repeat split).
Qed.

Lemma availability_checks_only_read_witness :
  (forall (time_str : string) (ex : option string),
      exists r w',
        run 1 (App101.check_availability manager0 "Friday, June 06" time_str ex)
            (world0 Lock [busy "e1" 0 60] [true; false])
        = Done r w'
        /\ events (backend w') = [busy "e1" 0 60]
        /\ cal_lock w' = new_lock Lock
        /\ same_store (world0 Lock [busy "e1" 0 60] [true; false]) w')
  /\ (forall (preferred : option string) (count : Z),
         exists slots w',
           run 1 (App101.find_next_available_slots manager0 "Friday, June 06" preferred
                    count)
               (world0 Lock [busy "e1" 0 60] [true; false])
           = Done slots w'
           /\ events (backend w') = [busy "e1" 0 60]
           /\ cal_lock w' = new_lock Lock
           /\ same_store (world0 Lock [busy "e1" 0 60] [true; false]) w').
Proof.
  exact (availability_checks_only_read 1%nat manager0 "Friday, June 06"
           (world0 Lock [busy "e1" 0 60] [true; false]) (free_enterable 1 Lock)).
Defined.

(** ** Ending a call *)

(** X15. A status that ends the call ([completed], [failed], [busy],
    [no-answer]) removes the session of that call and no other; any other
    status changes nothing. A call that starts and then ends leaves the
    sessions of the other calls as they were and none for its own id. *)
Theorem call_status_removes_only_that_session
        (me : nat) (self : App101.TwilioAIReceptionist) (call_sid call_status : string)
        (w : World) :
  enterable me (session_lock w) ->
  (exists w',
     run me (App101.handle_call_status self call_sid call_status) w = Done tt w'
     /\ call_sessions w'
        = (if Py.mem call_status ["completed"; "failed"; "busy"; "no-answer"]
           then delete call_sid (call_sessions w) else call_sessions w)
     /\ session_lock w' = session_lock w
     /\ appointments w' = appointments w)
  /\ (forall from_number : string,
        exists w',
          run me (let* _ := App101.handle_incoming_call self call_sid from_number in
                  App101.handle_call_status self call_sid "completed") w
          = Done tt w'
          /\ call_sessions w' = delete call_sid (call_sessions w)).
Proof.
  intros Hl.
  assert (Hend : forall w0, enterable me (session_lock w0) ->
            run me (App101.handle_call_status self call_sid "completed") w0
            = Done tt (set_call_sessions (delete call_sid (call_sessions w0)) w0)).
  { intros w0 (l' & Hacq & Hrel). unfold App101.handle_call_status.
    change (Py.mem "completed" _) with true. cbv iota.
    rewrite (run_with_lock me SessionLock _ w0 l') by exact Hacq.
    cbn [run bind trigger handle].
    destruct (call_sessions (set_lock SessionLock l' w0) !! call_sid) eqn:E;
      cbn [run bind trigger handle]; f_equal.
    - destruct w0; cbn in *. now rewrite Hrel.
    - change (call_sessions w0 !! call_sid = None) in E.
      rewrite (delete_id _ _ E).
      destruct w0; cbn in *. now rewrite Hrel. }
  split.
  - unfold App101.handle_call_status.
    destruct (Py.mem call_status _) eqn:Hm.
    + destruct Hl as (l' & Hacq & Hrel).
      rewrite (run_with_lock me SessionLock _ w l') by exact Hacq.
      cbn [run bind trigger handle].
      destruct (call_sessions (set_lock SessionLock l' w) !! call_sid) eqn:E;
        cbn [run bind trigger handle]; eexists; (split; [reflexivity |]).
      * destruct w; cbn in *. now rewrite Hrel.
      * change (call_sessions w !! call_sid = None) in E.
        rewrite (delete_id _ _ E). destruct w; cbn in *. now rewrite Hrel.
    + exists w. repeat split.
  - intros from_number. rewrite run_bind, run_handle_incoming_call by exact Hl.
    rewrite Hend by exact Hl.
    eexists. split; [reflexivity |].
    rewrite !lookup_set_call_sessions. apply delete_insert_eq.
Qed.

Lemma call_status_removes_only_that_session_witness :
  (exists w',
     run 1 (App101.handle_call_status receptionist0 "CA1" "completed")
         (with_sessions {["CA1" := live_session]} (world0 Lock [] []))
     = Done tt w'
     /\ call_sessions w'
        = (if Py.mem "completed" ["completed"; "failed"; "busy"; "no-answer"]
           then delete "CA1"
                       (call_sessions
                          (with_sessions {["CA1" := live_session]} (world0 Lock [] [])))
           else call_sessions (with_sessions {["CA1" := live_session]} (world0 Lock [] [])))
     /\ session_lock w' = new_lock Lock
     /\ appointments w' = [])
  /\ (forall from_number : string,
        exists w',
          run 1 (let* _ := App101.handle_incoming_call receptionist0 "CA1" from_number in
                 App101.handle_call_status receptionist0 "CA1" "completed")
              (with_sessions {["CA1" := live_session]} (world0 Lock [] []))
          = Done tt w'
          /\ call_sessions w'
             = delete "CA1"
                 (call_sessions
                    (with_sessions {["CA1" := live_session]} (world0 Lock [] [])))).
Proof.
  exact (call_status_removes_only_that_session 1%nat receptionist0 "CA1" "completed"
           (with_sessions {["CA1" := live_session]} (world0 Lock [] []))
           (free_enterable 1 Lock)).
Defined.

(** ** The circuit breakers, over a series of calls *)

Lemma a_call_keeps_time (me : nat) (self : App101.CircuitBreaker) (ok : bool) (w : World) :
  enterable me (breaker_lock w) ->
  (App101.is_open self = true -> App101.last_failure_time self <> None) ->
  exists cb r,
    run me (App101.call self (answers ok)) w = Done (cb, r) w
    /\ (App101.is_open cb = true -> App101.last_failure_time cb <> None).
Proof.
  intros Hl Hinv. rewrite run_a_call_answers by exact Hl. unfold a_gate.
  destruct (App101.is_open self) eqn:Ho.
  - destruct (App101.last_failure_time self) as [last |] eqn:Hlast;
      [| now contradiction Hinv].
    destruct (_ <? _).
    + destruct ok; eexists; eexists; (split; [reflexivity |]); cbn; discriminate.
    + eexists. eexists. split; [reflexivity |]. rewrite Hlast. discriminate.
  - destruct ok; eexists; eexists; (split; [reflexivity |]); cbn.
    + rewrite Ho. discriminate.
    + discriminate.
Qed.

Lemma a_calls_keep_time (me : nat) (script : list (Z * bool)) (self : App101.CircuitBreaker)
      (w : World) :
  enterable me (breaker_lock w) ->
  (App101.is_open self = true -> App101.last_failure_time self <> None) ->
  App101.is_open (a_calls me self script w) = true ->
  App101.last_failure_time (a_calls me self script w) <> None.
Proof.
  revert self w. induction script as [| [t ok] rest IH]; intros self w Hl Hinv;
    cbn [a_calls]; [exact Hinv |].
  destruct (a_call_keeps_time me self ok (at_time t w) Hl Hinv) as (cb & r & -> & Hinv').
  now apply IH.
Qed.

Lemma i_call_keeps_time (me : nat) (self : Infobridge.CircuitBreaker) (ok : bool) (w : World) :
  (Infobridge.state self = Infobridge.open -> Infobridge.last_failure_time self <> None) ->
  exists cb r,
    run me (Infobridge.call self (answers ok)) w = Done (cb, r) w
    /\ (Infobridge.state cb = Infobridge.open -> Infobridge.last_failure_time cb <> None).
Proof.
  intros Hinv. rewrite run_i_call_answers. unfold i_gate, Infobridge.is_state.
  destruct self as [ft rt st fc sc lf s]. cbn in *.
  destruct s.
  - destruct ok; eexists; eexists; (split; [reflexivity |]); cbn; discriminate.
  - destruct lf as [last |]; [| now contradiction Hinv].
    destruct (_ <? _).
    + destruct ok; eexists; eexists; (split; [reflexivity |]).
      * unfold Infobridge.on_success, Infobridge.is_state. cbn.
        destruct (_ <=? _); cbn; discriminate.
      * cbn. discriminate.
    + eexists. eexists. split; [reflexivity |]. cbn. discriminate.
  - destruct ok; eexists; eexists; (split; [reflexivity |]).
    + unfold Infobridge.on_success, Infobridge.is_state. cbn.
      destruct (_ <=? _); cbn; discriminate.
    + cbn. discriminate.
Qed.

Lemma i_calls_keep_time (me : nat) (script : list (Z * bool))
      (self : Infobridge.CircuitBreaker) (w : World) :
  (Infobridge.state self = Infobridge.open -> Infobridge.last_failure_time self <> None) ->
  Infobridge.state (i_calls me self script w) = Infobridge.open ->
  Infobridge.last_failure_time (i_calls me self script w) <> None.
Proof.
  revert self w. induction script as [| [t ok] rest IH]; intros self w Hinv;
    cbn [i_calls]; [exact Hinv |].
  destruct (i_call_keeps_time me self ok (at_time t w) Hinv) as (cb & r & -> & Hinv').
  now apply IH.
Qed.

(** X16. A breaker that is open has the time of a failure on record, whatever
    series of calls has taken it there from a new breaker: the
    subtraction [time.time() - self.last_failure_time] in [call] never
    meets [None], in either file. *)
Theorem open_breaker_has_failure_time
        (me : nat) (script : list (Z * bool)) (w : World) (t : Z) :
  enterable me (breaker_lock w) ->
  (forall n rt : Z,
      a_gate t (a_calls me (App101.new_breaker n rt) script w) <> Raise "TypeError")
  /\ (forall ft rt st : Z,
         i_gate t (i_calls me (Infobridge.new_breaker ft rt st) script w)
         <> Raise "TypeError").
Proof.
  intros Hl. split.
  - intros n rt.
    pose proof (a_calls_keep_time me script (App101.new_breaker n rt) w Hl
                  ltac:(cbn; discriminate)) as H.
    unfold a_gate.
    set (cb := a_calls me (App101.new_breaker n rt) script w) in *.
    destruct (App101.is_open cb); [| discriminate].
    destruct (App101.last_failure_time cb) as [last |].
    + destruct (_ <? _); discriminate.
    + now contradiction H.
  - intros ft rt st.
    pose proof (i_calls_keep_time me script (Infobridge.new_breaker ft rt st) w
                  ltac:(cbn; discriminate)) as H.
    unfold i_gate, Infobridge.is_state.
    set (cb := i_calls me (Infobridge.new_breaker ft rt st) script w) in *.
    destruct (Infobridge.state cb); try discriminate.
    destruct (Infobridge.last_failure_time cb) as [last |].
    + destruct (_ <? _); discriminate.
    + now contradiction H.
Qed.

Lemma open_breaker_has_failure_time_witness :
  (forall n rt : Z,
      a_gate 100 (a_calls 1 (App101.new_breaker n rt) [(0, false); (1, false)]
                          (world0 Lock [] []))
      <> Raise "TypeError")
  /\ (forall ft rt st : Z,
         i_gate 100 (i_calls 1 (Infobridge.new_breaker ft rt st) [(0, false); (1, false)]
                             (world0 Lock [] []))
         <> Raise "TypeError").
Proof.
  exact (open_breaker_has_failure_time 1%nat [(0, false); (1, false)] (world0 Lock [] []) 100
           (free_enterable 1 Lock)).
Defined.

Lemma i_calls_count (me : nat) (script : list (Z * bool)) (self : Infobridge.CircuitBreaker)
      (w : World) :
  Infobridge.state self = Infobridge.closed ->
  Infobridge.failure_count self + failures script < Infobridge.failure_threshold self ->
  let cb := i_calls me self script w in
  Infobridge.state cb = Infobridge.closed
  /\ Infobridge.failure_count cb = Infobridge.failure_count self + failures script
  /\ Infobridge.failure_threshold cb = Infobridge.failure_threshold self.
Proof.
  revert self w. induction script as [| [t ok] rest IH]; intros self w Hs Hlt; cbn zeta.
  - cbn [i_calls]. unfold failures. cbn. rewrite Z.add_0_r. auto.
  - cbn [i_calls]. rewrite run_i_call_answers.
    rewrite i_gate_not_open by (rewrite Hs; discriminate).
    unfold failures in *. cbn [List.filter snd negb] in *. destruct ok; cbn [negb] in *.
    + unfold Infobridge.on_success, Infobridge.is_state. rewrite Hs.
      now apply IH.
    + cbn [length] in Hlt |- *.
      destruct (IH (Infobridge.on_failure t self) (at_time t w)) as (H1 & H2 & H3).
      * cbn [Infobridge.on_failure Infobridge.state Infobridge.failure_threshold].
        destruct (Z.leb_spec (Infobridge.failure_threshold self)
                             (Infobridge.failure_count self + 1)); [lia | exact Hs].
      * cbn [Infobridge.on_failure Infobridge.failure_count Infobridge.failure_threshold].
        lia.
      * cbn [Infobridge.on_failure Infobridge.failure_count Infobridge.failure_threshold]
          in H2, H3.
        change (unix_time (at_time t w)) with t.
        split; [exact H1 |]. split; [lia | exact H3].
Qed.

Lemma i_calls_app (me : nat) (s1 s2 : list (Z * bool)) (self : Infobridge.CircuitBreaker)
      (w : World) :
  exists w', i_calls me self (s1 ++ s2) w = i_calls me (i_calls me self s1 w) s2 w'.
Proof.
  revert self w. induction s1 as [| [t ok] rest IH]; intros self w; cbn [app i_calls].
  - now exists w.
  - rewrite run_i_call_answers.
    destruct (i_gate _ _); [destruct ok |]; apply IH.
Qed.

(** X17. The breaker of [infobridge.py] counts the failures of a series of
    calls, not the failures in a row: starting from a new breaker, it is
    closed with as many failures on its count as calls have failed while
    these are fewer than [failure_threshold], however many successes lie
    between them, and the failure that reaches the threshold opens it. *)
Theorem infobridge_breaker_counts_all_failures
        (me : nat) (ft rt st : Z) (script : list (Z * bool)) (w : World) :
  (failures script < ft ->
   Infobridge.state (i_calls me (Infobridge.new_breaker ft rt st) script w)
   = Infobridge.closed
   /\ Infobridge.failure_count (i_calls me (Infobridge.new_breaker ft rt st) script w)
      = failures script)
  /\ (forall t : Z,
        failures script + 1 = ft ->
        Infobridge.state (i_calls me (Infobridge.new_breaker ft rt st)
                                  (script ++ [(t, false)]) w)
        = Infobridge.open).
Proof.
  split.
  - intros Hlt.
    destruct (i_calls_count me script (Infobridge.new_breaker ft rt st) w eq_refl)
      as (H1 & H2 & _); [cbn; lia |]. cbn in H2. auto.
  - intros t Heq.
    destruct (i_calls_count me script (Infobridge.new_breaker ft rt st) w eq_refl)
      as (H1 & H2 & H3); [cbn; lia |]. cbn in H2, H3.
    destruct (i_calls_app me script [(t, false)] (Infobridge.new_breaker ft rt st) w)
      as (w' & ->).
    cbn [i_calls]. rewrite run_i_call_answers.
    rewrite i_gate_not_open by (rewrite H1; discriminate).
    cbn. rewrite H2, H3.
    destruct (Z.leb_spec ft (0 + failures script + 1)); [reflexivity | lia].
Qed.

Lemma infobridge_breaker_counts_all_failures_witness :
  (failures [(0, false); (1, true); (2, true); (3, false)] < 3 ->
   Infobridge.state (i_calls 1 (Infobridge.new_breaker 3 60 2)
                             [(0, false); (1, true); (2, true); (3, false)]
                             (world0 Lock [] []))
   = Infobridge.closed
   /\ Infobridge.failure_count (i_calls 1 (Infobridge.new_breaker 3 60 2)
                                        [(0, false); (1, true); (2, true); (3, false)]
                                        (world0 Lock [] []))
      = failures [(0, false); (1, true); (2, true); (3, false)])
  /\ (forall t : Z,
        failures [(0, false); (1, true); (2, true); (3, false)] + 1 = 3 ->
        Infobridge.state (i_calls 1 (Infobridge.new_breaker 3 60 2)
                                  ([(0, false); (1, true); (2, true); (3, false)]
                                     ++ [(t, false)]) (world0 Lock [] []))
        = Infobridge.open).
Proof.
  exact (infobridge_breaker_counts_all_failures 1%nat 3 60 2
           [(0, false); (1, true); (2, true); (3, false)] (world0 Lock [] [])).
Defined.

(** ** The nearest slot *)

Lemma nearest_loop_spec (req : Z) (slots seen : list string) (best : option (string * Z)) :
  nearest_of req seen best ->
  nearest_of req (seen ++ slots) (InfobridgeExtract.nearest_loop req slots best).
Proof.
  revert seen best. induction slots as [| t rest IH]; intros seen best Hb;
    cbn [InfobridgeExtract.nearest_loop].
  - now rewrite app_nil_r.
  - replace (seen ++ t :: rest)%list with ((seen ++ [t]) ++ rest)%list
      by now rewrite <- app_assoc.
    pose proof (eq_refl (slot_parses t)) as Hp. unfold slot_parses at 1 in Hp.
    pose proof (eq_refl (slot_minutes t)) as Hsm. unfold slot_minutes at 1 in Hsm.
    destruct (Re.search false InfobridgeExtract.slot_regex t) as [mo |].
    + cbv zeta. rewrite Hsm. apply IH.
      destruct best as [[b d] |]; cbn [nearest_of] in *.
      * destruct Hb as (Hin & Hpb & Hd & Hmin).
        destruct (Z.ltb_spec (Z.abs (slot_minutes t - req)) d) as [Hlt | Hge].
        -- split; [apply in_or_app; right; now left |]. split; [now symmetry |].
           split; [reflexivity |].
           intros s Hs Hps. apply in_app_or in Hs. destruct Hs as [Hs | [<- | []]].
           ++ specialize (Hmin s Hs Hps). lia.
           ++ lia.
        -- split; [apply in_or_app; now left |]. split; [exact Hpb |].
           split; [exact Hd |].
           intros s Hs Hps. apply in_app_or in Hs. destruct Hs as [Hs | [<- | []]].
           ++ now apply Hmin.
           ++ exact Hge.
      * split; [apply in_or_app; right; now left |]. split; [now symmetry |].
        split; [reflexivity |].
        intros s Hs Hps. apply in_app_or in Hs. destruct Hs as [Hs | [<- | []]].
        -- rewrite (Hb s Hs) in Hps. discriminate.
        -- lia.
    + apply IH. destruct best as [[b d] |]; cbn [nearest_of] in *.
      * destruct Hb as (Hin & Hpb & Hd & Hmin).
        split; [apply in_or_app; now left |]. split; [exact Hpb |]. split; [exact Hd |].
        intros s Hs Hps. apply in_app_or in Hs. destruct Hs as [Hs | [<- | []]].
        -- now apply Hmin.
        -- congruence.
      * intros s Hs. apply in_app_or in Hs. destruct Hs as [Hs | [<- | []]].
        -- now apply Hb.
        -- now symmetry.
Qed.

(** X18. The slot [find_nearest_available_time] returns is a slot of the
    configuration, and none of the slots the loop reads is nearer to the
    requested time. It returns a slot whenever the requested time is read
    and some slot is; otherwise it returns [None]. *)
Theorem nearest_slot_is_nearest
        (self : InfobridgeExtract.TwilioAIReceptionist) (requested_time : string) :
  let slots := InfobridgeExtract.available_times (InfobridgeExtract.business_config self) in
  match InfobridgeExtract.find_nearest_available_time self requested_time with
  | Some best =>
      In best slots /\ slot_parses best = true
      /\ exists req,
           requested_minutes requested_time = Some req
           /\ forall s, In s slots -> slot_parses s = true ->
                Z.abs (slot_minutes best - req) <= Z.abs (slot_minutes s - req)
  | None =>
      requested_minutes requested_time = None
      \/ forall s, In s slots -> slot_parses s = false
  end.
Proof.
  cbv zeta. unfold InfobridgeExtract.find_nearest_available_time, requested_minutes.
  destruct (Re.search true InfobridgeExtract.requested_regex requested_time) as [mo |];
    [| now left].
  cbv zeta.
  set (req := InfobridgeExtract.hour24 _ _ * 60 + _).
  pose proof (nearest_loop_spec req
                (InfobridgeExtract.available_times (InfobridgeExtract.business_config self))
                [] None) as H.
  cbn [app] in H.
  destruct (InfobridgeExtract.nearest_loop req _ None) as [[b d] |]; cbn [nearest_of] in H.
  - destruct H as (Hin & Hp & Hd & Hmin); [intros s [] |].
    split; [exact Hin |]. split; [exact Hp |].
    exists req. split; [reflexivity |]. intros s Hs Hps. rewrite <- Hd. now apply Hmin.
  - right. apply H. intros s [].
Qed.

Lemma nearest_slot_is_nearest_witness :
  In "12:00 PM" InfobridgeExtract.default_times
  /\ slot_parses "12:00 PM" = true
  /\ exists req,
       requested_minutes "12:30 PM" = Some req
       /\ forall s, In s InfobridgeExtract.default_times -> slot_parses s = true ->
            Z.abs (slot_minutes "12:00 PM" - req) <= Z.abs (slot_minutes s - req).
Proof.
  pose proof (nearest_slot_is_nearest ireceptionist0 "12:30 PM") as H.
  cbv zeta in H.
  replace (InfobridgeExtract.find_nearest_available_time ireceptionist0 "12:30 PM")
    with (Some "12:00 PM") in H by (vm_compute; reflexivity).
  exact H.
Defined.

(** Asked for 12:30 PM, which the default configuration does not offer,
    the slot is 12:00 PM, the first of the two slots half an hour away. *)
Example nearest_to_half_past_noon :
  InfobridgeExtract.find_nearest_available_time ireceptionist0 "12:30 PM" = Some "12:00 PM".
Proof. vm_compute. reflexivity. Qed.

Lemma nearest_slot_in (self : InfobridgeExtract.TwilioAIReceptionist) (requested_time : string) :
  match InfobridgeExtract.find_nearest_available_time self requested_time with
  | Some best =>
      In best (InfobridgeExtract.available_times (InfobridgeExtract.business_config self))
  | None => True
  end.
Proof.
  unfold InfobridgeExtract.find_nearest_available_time.
  destruct (Re.search true InfobridgeExtract.requested_regex requested_time) as [mo |];
    [| exact I].
  cbv zeta.
  set (req := InfobridgeExtract.hour24 _ _ * 60 + _).
  pose proof (nearest_loop_spec req
                (InfobridgeExtract.available_times (InfobridgeExtract.business_config self))
                [] None) as H.
  cbn [app] in H.
  destruct (InfobridgeExtract.nearest_loop req _ None) as [[b d] |]; cbn [nearest_of] in H;
    [| exact I].
  apply H. intros s [].
Qed.

(** ** The stored time *)

Section TimeRules.
Variable self : InfobridgeExtract.TwilioAIReceptionist.
Variable s0 : InfobridgeExtract.CallSession.

Let slots : list string :=
  InfobridgeExtract.available_times (InfobridgeExtract.business_config self).

Let holds {A : Type} (m : SM InfobridgeExtract.CallSession A) : Prop :=
  forall me s w sr w',
    time_kept_or_offered slots s0 s -> run me (m s) w = Done sr w' ->
    time_kept_or_offered slots s0 (fst sr).

Lemma time_sret {A : Type} (a : A) : holds (sret a).
Proof. intros me s w sr w' Hs Hrun. cbn in Hrun. injection Hrun as <- _. exact Hs. Qed.

Lemma time_sbind {A B : Type} (m : SM InfobridgeExtract.CallSession A)
      (f : A -> SM InfobridgeExtract.CallSession B) :
  holds m -> (forall a, holds (f a)) -> holds (sbind m f).
Proof.
  intros Hm Hf me s w sr w' Hs Hrun. unfold sbind in Hrun. rewrite run_bind in Hrun.
  destruct (run me (m s) w) as [[s1 r1] w1 | l w1] eqn:E; [| discriminate].
  pose proof (Hm me s w _ _ Hs E) as H1. cbn in H1.
  destruct r1 as [a | e].
  - exact (Hf a me s1 w1 sr w' H1 Hrun).
  - cbn in Hrun. injection Hrun as <- _. exact H1.
Qed.

Lemma time_get {B : Type}
      (f : InfobridgeExtract.CallSession -> SM InfobridgeExtract.CallSession B) :
  (forall session, holds (f session)) -> holds (sbind get_session f).
Proof.
  intros H me s w sr w' Hs Hrun.
  change (run me (f s s) w = Done sr w') in Hrun.
  exact (H s me s w sr w' Hs Hrun).
Qed.

Lemma time_lift {A : Type} (p : Prog A) : holds (lift p).
Proof.
  intros me s w sr w' Hs Hrun. unfold lift in Hrun. rewrite run_bind in Hrun.
  destruct (run me p w) as [a w1 | l w1]; [| discriminate].
  cbn in Hrun. injection Hrun as <- _. exact Hs.
Qed.

Lemma time_lift_res {A : Type} (p : Prog (Res A)) : holds (lift_res p).
Proof.
  intros me s w sr w' Hs Hrun. unfold lift_res in Hrun. rewrite run_bind in Hrun.
  destruct (run me p w) as [a w1 | l w1]; [| discriminate].
  cbn in Hrun. injection Hrun as <- _. exact Hs.
Qed.

Lemma time_set_other (k : string) (v : Val) :
  k <> "time" -> holds (modify (InfobridgeExtract.set_data k v)).
Proof.
  intros Hk me s w sr w' Hs Hrun. cbn in Hrun. injection Hrun as <- _.
  unfold time_kept_or_offered in *. cbn.
  rewrite lookup_insert_ne by exact Hk. exact Hs.
Qed.

Lemma time_set_offered (t : string) :
  In t slots -> holds (modify (InfobridgeExtract.set_data "time" (VStr t))).
Proof.
  intros Ht me s w sr w' Hs Hrun. cbn in Hrun. injection Hrun as <- _.
  right. exists t. split; [| exact Ht]. cbn. apply lookup_insert_eq.
Qed.

Lemma time_extract (user_input : string) :
  holds (InfobridgeExtract.extract_booking_info self user_input).
Proof.
  unfold InfobridgeExtract.extract_booking_info. cbv zeta.
  apply time_get; intros s1. apply time_sbind.
  { unfold when. destruct (negb _); [| apply time_sret].
    destruct (InfobridgeExtract.find_name _ _);
      [apply time_set_other; discriminate | apply time_sret]. }
  intros _. apply time_get; intros s2. apply time_sbind.
  { unfold when. destruct (negb _); [| apply time_sret].
    destruct (InfobridgeExtract.find_service _ _ _);
      [apply time_set_other; discriminate | apply time_sret]. }
  intros _. apply time_get; intros s3. apply time_sbind.
  { unfold when. destruct (negb _); [| apply time_sret].
    apply time_sbind; [apply time_lift |]. intros date.
    destruct (InfobridgeExtract.truthy_o date);
      [apply time_set_other; discriminate | apply time_sret]. }
  intros _. apply time_get; intros s4. apply time_sbind.
  { unfold when. destruct (negb _); [| apply time_sret].
    apply time_sbind; [apply time_lift_res |]. intros time.
    destruct (InfobridgeExtract.truthy_o time); [| apply time_sret].
    destruct (Py.mem _ _) eqn:Hmem.
    - apply time_set_offered. now apply mem_In.
    - pose proof (nearest_slot_in self (App101.show_opt time)) as Hn.
      destruct (InfobridgeExtract.find_nearest_available_time _ _) as [nearest |];
        [| apply time_sret].
      destruct (Py.truthy nearest); [| apply time_sret].
      apply time_set_offered. exact Hn. }
  intros _.
  destruct (Re.search _ _ _); [apply time_set_other; discriminate | apply time_sret].
Qed.

End TimeRules.

(** X19. Whatever the utterance, when [extract_booking_info] of
    [infobridge.py] returns, with or without an exception, the time of the
    session is the time it had, or one of the configured
    [available_times]: no other time is stored. *)
Theorem infobridge_stores_offered_times
        (self : InfobridgeExtract.TwilioAIReceptionist) (user_input : string)
        (me : nat) (s : InfobridgeExtract.CallSession) (w : World)
        (sr : InfobridgeExtract.CallSession * Res unit) (w' : World) :
  run me (InfobridgeExtract.extract_booking_info self user_input s) w = Done sr w' ->
  time_kept_or_offered
    (InfobridgeExtract.available_times (InfobridgeExtract.business_config self)) s (fst sr).
Proof.
  intros Hrun.
  refine (time_extract self s user_input me s w sr w' _ Hrun).
  now left.
Qed.

Lemma infobridge_stores_offered_times_witness :
  match run 1 (InfobridgeExtract.extract_booking_info ireceptionist0 "at 2:15 pm"
                 phoned_session) (world0 RLock [] []) with
  | Done sr _ =>
      time_kept_or_offered InfobridgeExtract.default_times phoned_session (fst sr)
  | Blocked _ _ => False
  end.
Proof.
  destruct (run 1 (InfobridgeExtract.extract_booking_info ireceptionist0 "at 2:15 pm"
                     phoned_session) (world0 RLock [] [])) as [sr w' | l w'] eqn:E.
  - exact (infobridge_stores_offered_times ireceptionist0 "at 2:15 pm" 1 phoned_session
             (world0 RLock [] []) sr w' E).
  - vm_compute in E. discriminate.
Defined.

(** Asked for 2:15 pm, the session holds 2:00 PM. *)
Example infobridge_quarter_past_two :
  exists s w',
    run 1 (InfobridgeExtract.extract_booking_info ireceptionist0 "at 2:15 pm" phoned_session)
        (world0 RLock [] []) = Done (s, Ok tt) w'
    /\ InfobridgeExtract.customer_data s !! "time" = Some (VStr "2:00 PM").
Proof. eexists; eexists; split; vm_compute; reflexivity. Qed.

(** ** Looking up appointments *)

Lemma starts_with_refl (l : list ascii) : Py.starts_with l l = true.
Proof.
  induction l as [| c l IH]; cbn; [reflexivity |].
  rewrite IH, Bool.andb_true_r. unfold Py.eqb_c. apply Ascii.eqb_refl.
Qed.

Lemma contains_refl (s : string) : Py.contains s s = true.
Proof.
  unfold Py.contains. destruct (Py.chars s) as [| c l]; [reflexivity |].
  cbn [Py.contains_from]. now rewrite starts_with_refl.
Qed.

Lemma contains_empty (s : string) : Py.contains "" s = true.
Proof. unfold Py.contains. cbn. now destruct (Py.chars s). Qed.

Lemma digits_only_no_digit (s : string) :
  no_digit s -> InfobridgeExtract.digits_only s = "".
Proof.
  unfold no_digit, InfobridgeExtract.digits_only. intros H.
  induction (Py.chars s) as [| c l IH]; [reflexivity |].
  cbn [List.filter]. rewrite (H c (or_introl eq_refl)).
  apply IH. intros c' Hc'. apply H. now right.
Qed.

Lemma sublist_list_filter {A : Type} (f : A -> bool) (l : list A) :
  sublist (List.filter f l) l.
Proof.
  induction l as [| a l IH]; cbn [List.filter]; [constructor |].
  destruct (f a); [now apply sublist_skip | now apply sublist_cons].
Qed.

(** X20. [find_appointment_by_phone] compares digits only: an appointment is
    found under its own number however the number is written. An
    appointment whose number has no digit, such as one booked with the
    number ['Unknown'], is found under every number, and a number without a
    digit finds every appointment. The appointments found are appointments
    of the list, in its order. *)
Theorem phone_lookup_compares_digits
        (appointments : list Infobridge.Appointment) (phone : string) :
  sublist (InfobridgeLookup.find_appointment_by_phone appointments phone) appointments
  /\ (forall apt,
         In apt appointments ->
         InfobridgeExtract.digits_only (Infobridge.phone_number apt)
         = InfobridgeExtract.digits_only phone ->
         In apt (InfobridgeLookup.find_appointment_by_phone appointments phone))
  /\ (forall apt,
         In apt appointments -> no_digit (Infobridge.phone_number apt) ->
         In apt (InfobridgeLookup.find_appointment_by_phone appointments phone))
  /\ (no_digit phone ->
      InfobridgeLookup.find_appointment_by_phone appointments phone = appointments).
Proof.
  unfold InfobridgeLookup.find_appointment_by_phone. cbv zeta.
  split; [apply sublist_list_filter |]. split; [| split].
  - intros apt Hin Heq. apply filter_In. split; [exact Hin |].
    rewrite Heq, contains_refl. reflexivity.
  - intros apt Hin Hno. apply filter_In. split; [exact Hin |].
    rewrite (digits_only_no_digit _ Hno), contains_empty. apply Bool.orb_true_r.
  - intros Hno. rewrite (digits_only_no_digit _ Hno).
    induction appointments as [| a l IH]; [reflexivity |].
    cbn [List.filter]. rewrite contains_empty. cbn [orb]. now rewrite IH.
Qed.

Lemma phone_lookup_compares_digits_witness :
  let booked := Infobridge.mkAppointment "Jane Doe" "5551234567" "Consultation"
                  "Monday, June 10" "10:00 AM" "" "CA1" "" 0 in
  let unknown := Infobridge.mkAppointment "John Roe" "Unknown" "Consultation"
                   "Monday, June 10" "11:00 AM" "" "CA2" "" 0 in
  In booked (InfobridgeLookup.find_appointment_by_phone [booked; unknown] "(555) 123-4567")
  /\ In unknown (InfobridgeLookup.find_appointment_by_phone [booked; unknown] "2125550000").
Proof.
  intros booked unknown. split.
  - refine (proj1 (proj2 (phone_lookup_compares_digits [booked; unknown] "(555) 123-4567"))
                  booked _ _).
    + now left.
    + vm_compute. reflexivity.
  - refine (proj1 (proj2 (proj2 (phone_lookup_compares_digits [booked; unknown]
                                   "2125550000"))) unknown _ _).
    + right. now left.
    + intros c Hc. vm_compute in Hc.
      repeat (destruct Hc as [<- | Hc]; [vm_compute; reflexivity |]). destruct Hc.
Defined.

(** X21. [find_appointment_by_name] ignores the case of letters: an appointment
    with a name is found under its name however the name is cased. An
    appointment without a name is never found, and the empty name finds
    every appointment that has a name. The appointments found are
    appointments of the list, in its order. *)
Theorem name_lookup_ignores_case
        (appointments : list Infobridge.Appointment) (name : string) :
  sublist (InfobridgeLookup.find_appointment_by_name appointments name) appointments
  /\ (forall apt,
         In apt appointments -> Infobridge.customer_name apt <> "" ->
         Py.lower (Infobridge.customer_name apt) = Py.lower name ->
         In apt (InfobridgeLookup.find_appointment_by_name appointments name))
  /\ (forall apt,
         In apt (InfobridgeLookup.find_appointment_by_name appointments name) ->
         Infobridge.customer_name apt <> "")
  /\ (name = "" ->
      InfobridgeLookup.find_appointment_by_name appointments name
      = List.filter (fun apt => Py.truthy (Infobridge.customer_name apt)) appointments).
Proof.
  unfold InfobridgeLookup.find_appointment_by_name.
  split; [apply sublist_list_filter |]. split; [| split].
  - intros apt Hin Hne Heq. apply filter_In. split; [exact Hin |].
    rewrite Heq, contains_refl, Bool.andb_true_r.
    unfold Py.truthy. apply Bool.negb_true_iff. now apply String.eqb_neq.
  - intros apt Hin Hempty. apply filter_In in Hin. destruct Hin as [_ Hf].
    rewrite Hempty in Hf. discriminate.
  - intros ->. apply filter_ext. intros apt.
    change (Py.lower "") with "". now rewrite contains_empty, Bool.andb_true_r.
Qed.

Lemma name_lookup_ignores_case_witness :
  let booked := Infobridge.mkAppointment "Jane Doe" "5551234567" "Consultation"
                  "Monday, June 10" "10:00 AM" "" "CA1" "" 0 in
  In booked (InfobridgeLookup.find_appointment_by_name [booked] "JANE DOE").
Proof.
  intros booked.
  refine (proj1 (proj2 (name_lookup_ignores_case [booked] "JANE DOE")) booked _ _ _).
  - now left.
  - discriminate.
  - vm_compute. reflexivity.
Defined.

(** ** The first free slot *)

Lemma first_slot_sound (self : InfobridgeExtract.TwilioAIReceptionist) (today : Z)
      (days_ahead : nat) (date_str : string) (slots : list string)
      (me : nat) (w : World) (d t : string) (w' : World) :
  run me (InfobridgeExtract.first_slot self today days_ahead date_str slots) w
  = Done (Ok (Some (d, t))) w' ->
  d = date_str /\ In t slots /\ (days_ahead = 0%nat -> later_hour today t).
Proof.
  revert w. induction slots as [| time_slot rest IH]; intros w Hrun;
    cbn [InfobridgeExtract.first_slot] in Hrun.
  - discriminate.
  - cbv zeta in Hrun.
    assert (Hrest : forall w1,
               run me (InfobridgeExtract.first_slot self today days_ahead date_str rest) w1
               = Done (Ok (Some (d, t))) w' ->
               d = date_str /\ In t (time_slot :: rest)
               /\ (days_ahead = 0%nat -> later_hour today t)).
    { intros w1 H1. destruct (IH w1 H1) as (Hd & Hin & Hl). repeat split; auto. now right. }
    destruct (Nat.eqb days_ahead 0) eqn:Hk.
    + destruct (InfobridgeExtract.int_res (InfobridgeExtract.before_colon time_slot))
        as [slot_hour | e] eqn:Hh; [| discriminate].
      destruct (InfobridgeExtract.last_word time_slot) as [slot_period | e] eqn:Hp;
        [| discriminate].
      destruct (Z.leb_spec (InfobridgeExtract.hour24 slot_hour slot_period)
                           (Cal.minute_of_day today / 60)) as [Hle | Hlt];
        [exact (Hrest w Hrun) |].
      assert (Hlater : later_hour today time_slot) by (now exists slot_hour, slot_period).
      destruct (InfobridgeExtract.google_calendar self) as [cal |].
      * rewrite run_bind in Hrun.
        destruct (run me (Infobridge.check_availability cal date_str time_slot) w)
          as [[|] w1 | l w1]; [| exact (Hrest w1 Hrun) | discriminate].
        cbn in Hrun. injection Hrun as <- <- _. repeat split; auto. now left.
      * cbn in Hrun. injection Hrun as <- <- _. repeat split; auto. now left.
    + apply Nat.eqb_neq in Hk.
      destruct (InfobridgeExtract.google_calendar self) as [cal |].
      * rewrite run_bind in Hrun.
        destruct (run me (Infobridge.check_availability cal date_str time_slot) w)
          as [[|] w1 | l w1]; [| exact (Hrest w1 Hrun) | discriminate].
        cbn in Hrun. injection Hrun as <- <- _. repeat split; auto; [now left | tauto].
      * cbn in Hrun. injection Hrun as <- <- _. repeat split; auto; [now left | tauto].
Qed.

Lemma first_day_sound (self : InfobridgeExtract.TwilioAIReceptionist) (today : Z)
      (days : list nat) (me : nat) (w : World) (d t : string) (w' : World) :
  run me (InfobridgeExtract.first_day self today days) w = Done (Ok (Some (d, t))) w' ->
  In t (InfobridgeExtract.available_times (InfobridgeExtract.business_config self))
  /\ exists days_ahead : nat,
       In days_ahead days
       /\ d = Cal.strftime_date (today + Z.of_nat days_ahead * 1440)
       /\ closed_on self (today + Z.of_nat days_ahead * 1440) = false
       /\ (days_ahead = 0%nat -> later_hour today t).
Proof.
  revert w. induction days as [| days_ahead rest IH]; intros w Hrun;
    cbn [InfobridgeExtract.first_day] in Hrun.
  - discriminate.
  - cbv zeta in Hrun.
    assert (Hrest : forall w1,
               run me (InfobridgeExtract.first_day self today rest) w1
               = Done (Ok (Some (d, t))) w' ->
               In t (InfobridgeExtract.available_times
                       (InfobridgeExtract.business_config self))
               /\ exists k : nat,
                    In k (days_ahead :: rest)
                    /\ d = Cal.strftime_date (today + Z.of_nat k * 1440)
                    /\ closed_on self (today + Z.of_nat k * 1440) = false
                    /\ (k = 0%nat -> later_hour today t)).
    { intros w1 H1. destruct (IH w1 H1) as (Hin & k & Hk & Hrest).
      split; [exact Hin |]. exists k. split; [now right | exact Hrest]. }
    fold (closed_on self (today + Z.of_nat days_ahead * 1440)) in Hrun.
    destruct (closed_on self (today + Z.of_nat days_ahead * 1440)) eqn:Hc;
      [exact (Hrest w Hrun) |].
    rewrite run_bind in Hrun.
    destruct (run me (InfobridgeExtract.first_slot self today days_ahead _ _) w)
      as [r w1 | l w1] eqn:E; [| discriminate].
    destruct r as [[[d1 t1] |] | e].
    + cbn in Hrun. injection Hrun as -> -> ->.
      destruct (first_slot_sound _ _ _ _ _ _ _ _ _ _ E) as (Hd & Hin & Hl).
      split; [exact Hin |]. exists days_ahead. repeat split; auto. now left.
    + exact (Hrest w1 Hrun).
    + cbn in Hrun. discriminate.
Qed.

(** X22. A slot [get_first_available_time] of [infobridge.py] returns is a
    configured slot of a day that is not closed, fewer than
    [max_advance_booking_days] days ahead, and of a later hour than the
    current one if the day is today. Without a calendar the call always
    returns and changes nothing. *)
Theorem first_available_is_offered (self : InfobridgeExtract.TwilioAIReceptionist)
        (me : nat) (w : World) :
  (forall d t w',
      run me (InfobridgeExtract.get_first_available_time self) w
      = Done (Ok (Some (d, t))) w' ->
      offered_from self (now w) d t)
  /\ (InfobridgeExtract.google_calendar self = None ->
      exists r, run me (InfobridgeExtract.get_first_available_time self) w = Done r w).
Proof.
  split.
  - intros d t w' Hrun. unfold InfobridgeExtract.get_first_available_time in Hrun.
    cbn [bind trigger] in Hrun. change (run me _ w) with
      (run me (InfobridgeExtract.first_day self (now w)
                 (seq 0 (InfobridgeExtract.max_advance_booking_days
                           (InfobridgeExtract.business_config self)))) w) in Hrun.
    destruct (first_day_sound _ _ _ _ _ _ _ _ Hrun) as (Hin & k & Hk & Hrest).
    split; [exact Hin |]. exists k. split; [| exact Hrest].
    apply in_seq in Hk. lia.
  - intros Hnone. unfold InfobridgeExtract.get_first_available_time.
    change (run me _ w) with
      (run me (InfobridgeExtract.first_day self (now w)
                 (seq 0 (InfobridgeExtract.max_advance_booking_days
                           (InfobridgeExtract.business_config self)))) w).
    generalize (seq 0 (InfobridgeExtract.max_advance_booking_days
                         (InfobridgeExtract.business_config self))).
    intros days. induction days as [| k rest IH]; cbn [InfobridgeExtract.first_day].
    + now eexists.
    + cbv zeta. destruct (String.eqb _ "closed"); [exact IH |].
      rewrite run_bind.
      assert (Hslot : forall slots,
                 exists r, run me (InfobridgeExtract.first_slot self (now w) k
                                     (Cal.strftime_date (now w + Z.of_nat k * 1440)) slots) w
                           = Done r w).
      { induction slots as [| s slots IHs]; cbn [InfobridgeExtract.first_slot].
        - now eexists.
        - cbv zeta. rewrite Hnone.
          destruct (if Nat.eqb k 0 then _ else _) as [[|] | e]; [exact IHs | |];
            now eexists. }
      destruct (Hslot (InfobridgeExtract.available_times
                         (InfobridgeExtract.business_config self))) as (r & ->).
      destruct r as [[p |] | e]; [now eexists | exact IH | now eexists].
Qed.

Lemma first_available_is_offered_witness :
  exists d, offered_from ireceptionist0 monday_9am d "10:00 AM".
Proof.
  eexists.
  refine (proj1 (first_available_is_offered ireceptionist0 1 (world0 RLock [] []))
                _ _ (world0 RLock [] []) _).
  vm_compute. reflexivity.
Defined.
